(** * Bias detector of [ml-components/bias-detection/alibi_detect_config.py]

    A shallow embedding of [MLModelBiasDetector] and of the few numpy and
    pandas operations it calls, followed by the properties of the detector.

    Conventions of the embedding.
    - numpy floats are exact rationals ([Q]); equality of scores is [==].
    - A numpy array of predictions or labels is a [list Z], an array of
      probabilities a [list Q], a pandas column a [list string].
    - Exceptions are values of [exn]; a method that can raise returns
      [result]; a method that also logs runs in [M], which threads the
      records handed to [logger].
    - [pd.Timestamp.now().isoformat()] is an input of [detect_bias]. *)

From Stdlib Require Import List String Ascii ZArith QArith Qabs Bool Lia Lqa.
Import ListNotations.
Local Open Scope string_scope.
Local Open Scope list_scope.
Local Open Scope Q_scope.

Set Implicit Arguments.

(** ** Exceptions and the two monads *)

Inductive exn : Type :=
| ValueError (msg : string)
| KeyError (key : string)
| IndexError (msg : string).

Inductive result (A : Type) : Type :=
| Ok (a : A)
| Raise (e : exn).
Arguments Ok {A} a.
Arguments Raise {A} e.

Module ResultMonad.
Definition bind {A B} (c : result A) (k : A -> result B) : result B :=
  match c with
  | Ok a => k a
  | Raise e => Raise e
  end.

(* A [for] loop whose body updates an accumulator and may raise. *)
Fixpoint for_each {A S} (xs : list A) (body : S -> A -> result S) (s : S)
  : result S :=
  match xs with
  | [] => Ok s
  | x :: xs' => bind (body s x) (for_each xs' body)
  end.
End ResultMonad.

Notation "x <- c ;; k" := (ResultMonad.bind c (fun x => k))
  (at level 61, c at next level, right associativity).

Inductive level : Type := INFO | WARNING | ERROR.

(* The messages the module hands to its logger, by format string. *)
Inductive message : Type :=
| MsgInitialized (model : string)
| MsgCalibrationSkipped
| MsgCompleted (model : string) (overall : Q)
| MsgFailed (model : string) (e : exn).

Definition log : Type := list (level * message).

Definition M (A : Type) : Type := log -> result A * log.

Module LogMonad.
Definition ret {A} (a : A) : M A := fun l => (Ok a, l).

Definition bind {A B} (c : M A) (k : A -> M B) : M B :=
  fun l =>
    match c l with
    | (Ok a, l') => k a l'
    | (Raise e, l') => (Raise e, l')
    end.

Definition lift {A} (c : result A) : M A := fun l => (c, l).

Definition emit (lv : level) (m : message) : M unit :=
  fun l => (Ok tt, l ++ [(lv, m)]).

(* [try: c  except Exception as e: h e; raise] *)
Definition try_reraise {A} (c : M A) (h : exn -> M unit) : M A :=
  fun l =>
    match c l with
    | (Ok a, l') => (Ok a, l')
    | (Raise e, l') =>
        match h e l' with
        | (Ok _, l'') => (Raise e, l'')
        | (Raise e', l'') => (Raise e', l'')
        end
    end.

Fixpoint for_each {A S} (xs : list A) (body : S -> A -> M S) (s : S) : M S :=
  match xs with
  | [] => ret s
  | x :: xs' => bind (body s x) (for_each xs' body)
  end.
End LogMonad.

Notation "x <~ c ;; k" := (LogMonad.bind c (fun x => k))
  (at level 61, c at next level, right associativity).

(** ** Python built-ins on floats, and insertion-ordered dictionaries *)

Definition Qltb (a b : Q) : bool := negb (Qle_bool b a).

(* [max(a, b)]: the first argument, unless the second is greater. *)
Definition py_max (a b : Q) : Q := if Qltb a b then b else a.

(* [min(a, b)]: the first argument, unless the second is smaller. *)
Definition py_min (a b : Q) : Q := if Qltb b a then b else a.

(* [max(xs)] and [min(xs)] of a list; both raise on the empty list. *)
Definition py_max_list (xs : list Q) : result Q :=
  match xs with
  | [] => Raise (ValueError "max() arg is an empty sequence")
  | x :: xs' => Ok (fold_left py_max xs' x)
  end.

Definition py_min_list (xs : list Q) : result Q :=
  match xs with
  | [] => Raise (ValueError "min() arg is an empty sequence")
  | x :: xs' => Ok (fold_left py_min xs' x)
  end.

Definition dict (V : Type) : Type := list (string * V).

Module Dict.
Section Ops.
Context {V : Type}.

Fixpoint get (k : string) (d : dict V) : option V :=
  match d with
  | [] => None
  | (k', v) :: d' => if String.eqb k k' then Some v else get k d'
  end.

(* [d[k] = v]: an existing key keeps its position, a new one goes last. *)
Fixpoint set (k : string) (v : V) (d : dict V) : dict V :=
  match d with
  | [] => [(k, v)]
  | (k', v') :: d' =>
      if String.eqb k k' then (k', v) :: d' else (k', v') :: set k v d'
  end.

(* [d.update(other)] *)
Definition update (d other : dict V) : dict V :=
  fold_left (fun acc kv => set (fst kv) (snd kv) acc) other d.

Definition keys (d : dict V) : list string := map fst d.
Definition values (d : dict V) : list V := map snd d.
Definition items (d : dict V) : list (string * V) := d.
End Ops.
End Dict.

(** ** numpy *)

Module np.
(* [np.sum] of a boolean array. *)
Definition sum (mask : list bool) : nat := count_occ bool_dec mask true.

Definition total (xs : list Q) : Q := fold_right Qplus 0 xs.

(* [np.mean]. numpy answers [nan] on an empty array; the module never asks:
   every call is guarded by a test that the array is not empty, except the
   mean of the metric scores, and the constructor never leaves the list of
   metrics empty. The mean is the exact rational; numpy rounds the sum and
   the quotient to binary64, so that the mean of three scores of 0.05 is
   0.05000000000000001 there; how a mean compares with a threshold is
   stated below only where the rounding cannot change the answer. *)
Definition mean (xs : list Q) : Q :=
  total xs / inject_Z (Z.of_nat (List.length xs)).

Definition mean_int (xs : list Z) : Q := mean (map inject_Z xs).

(* [np.all(np.isin(xs, [0, 1]))] *)
Definition all_isin_01 (xs : list Z) : bool :=
  forallb (fun x => Z.eqb x 0 || Z.eqb x 1)%bool xs.

(* [np.linspace(0, 1, 11)]: the edges are the exact tenths, where numpy has
   their binary64 neighbours (0.30000000000000004 for the fourth); a
   probability that is itself such a tenth may fall in the bin next to the
   one it has here. *)
Definition linspace_0_1_11 : list Q :=
  map (fun i => inject_Z (Z.of_nat i) / 10) (seq 0 11).

Fixpoint filter_mask {A} (xs : list A) (mask : list bool) : list A :=
  match xs, mask with
  | x :: xs', b :: mask' =>
      if b then x :: filter_mask xs' mask' else filter_mask xs' mask'
  | _, _ => []
  end.

(* [xs[mask]] with a boolean mask: the shapes must agree. The message is
   the leading part of numpy's, which goes on to name the axis and the two
   sizes. *)
Definition index {A} (xs : list A) (mask : list bool) : result (list A) :=
  if Nat.eqb (List.length xs) (List.length mask)
  then Ok (filter_mask xs mask)
  else Raise (IndexError "boolean index did not match indexed array").

(* [xs == v] on an integer array. *)
Definition eq_int (xs : list Z) (v : Z) : list bool :=
  map (fun x => Z.eqb x v) xs.

(* [(xs >= lo) & (xs < hi)] *)
Definition in_bin (xs : list Q) (lo hi : Q) : list bool :=
  map (fun x => Qle_bool lo x && Qltb x hi)%bool xs.
End np.

(** ** pandas *)

Record DataFrame : Type := {
  df_len : nat;                                 (* [len(df)] *)
  df_columns : list (string * list string)      (* [df.columns] with data *)
}.

Module pd.
(* Every column of a frame has one entry per row. *)
Definition aligned (df : DataFrame) : Prop :=
  Forall (fun c => List.length (snd c) = df_len df) (df_columns df).

(* A frame as the module expects it: aligned, and no two columns of one
   name. pandas allows a repeated name, but [df[attr]] is then a frame and
   not a column, and its [unique()] raises AttributeError. *)
Definition wf (df : DataFrame) : Prop :=
  aligned df /\ NoDup (map fst (df_columns df)).

(* [attr in df.columns] *)
Definition has_column (df : DataFrame) (attr : string) : bool :=
  existsb (fun c => String.eqb attr (fst c)) (df_columns df).

(* [df[attr]], the column of that name; the first one, which is the only
   one in a frame of distinct column names ([wf]). *)
Definition getitem (df : DataFrame) (attr : string) : result (list string) :=
  match find (fun c => String.eqb attr (fst c)) (df_columns df) with
  | Some c => Ok (snd c)
  | None => Raise (KeyError attr)
  end.

(* [Series.unique()]: distinct values, in order of first appearance. *)
Fixpoint unique (col : list string) : list string :=
  match col with
  | [] => []
  | x :: col' => x :: filter (fun y => negb (String.eqb y x)) (unique col')
  end.

(* [col == group] *)
Definition eq_mask (col : list string) (group : string) : list bool :=
  map (fun x => String.eqb x group) col.
End pd.

(** ** The detector *)

Inductive BiasMetric : Type :=
| DEMOGRAPHIC_PARITY
| EQUALIZED_ODDS
| EQUAL_OPPORTUNITY
| CALIBRATION
| COUNTERFACTUAL_FAIRNESS.

(* [metric.value] *)
Definition value (metric : BiasMetric) : string :=
  match metric with
  | DEMOGRAPHIC_PARITY => "demographic_parity"
  | EQUALIZED_ODDS => "equalized_odds"
  | EQUAL_OPPORTUNITY => "equal_opportunity"
  | CALIBRATION => "calibration"
  | COUNTERFACTUAL_FAIRNESS => "counterfactual_fairness"
  end.

(* [list(BiasMetric)]: the members in definition order. *)
Definition list_BiasMetric : list BiasMetric :=
  [DEMOGRAPHIC_PARITY; EQUALIZED_ODDS; EQUAL_OPPORTUNITY; CALIBRATION;
   COUNTERFACTUAL_FAIRNESS].

Record DetectorConfig : Type := {
  cfg_name : string;
  cfg_description : string;
  cfg_formula : string;
  cfg_threshold : Q
}.

Record MLModelBiasDetector : Type := {
  model_name : string;
  protected_attributes : list string;
  threshold : Q;
  metrics : list BiasMetric;
  detectors : dict DetectorConfig
}.

Record Metadata : Type := {
  md_model_name : string;
  md_sample_size : nat;
  md_protected_attributes : list string;
  md_metrics_computed : list string;
  md_threshold : Q;
  md_timestamp : string
}.

Record BiasDetectionResult : Type := {
  overall_bias_score : Q;
  bias_detected : bool;
  threshold_exceeded : bool;
  metric_scores : dict Q;
  group_scores : dict Q;
  recommendations : list string;
  metadata : Metadata
}.

(* The default of the [threshold] argument of the constructor. *)
Definition default_threshold : Q := 5 # 100.

Definition _get_detector_config (self : MLModelBiasDetector)
  (metric : BiasMetric) : DetectorConfig :=
  match metric with
  | DEMOGRAPHIC_PARITY =>
      {| cfg_name := "Demographic Parity";
         cfg_description :=
           "Ensures equal positive prediction rates across groups";
         cfg_formula := "P(Y_hat=1|A=0) = P(Y_hat=1|A=1)";
         cfg_threshold := threshold self |}
  | EQUALIZED_ODDS =>
      {| cfg_name := "Equalized Odds";
         cfg_description := "Ensures equal TPR and FPR across groups";
         cfg_formula :=
           "P(Y_hat=1|Y=y,A=0) = P(Y_hat=1|Y=y,A=1) for y in {0,1}";
         cfg_threshold := threshold self |}
  | EQUAL_OPPORTUNITY =>
      {| cfg_name := "Equal Opportunity";
         cfg_description := "Ensures equal TPR across groups";
         cfg_formula := "P(Y_hat=1|Y=1,A=0) = P(Y_hat=1|Y=1,A=1)";
         cfg_threshold := threshold self |}
  | CALIBRATION =>
      {| cfg_name := "Calibration";
         cfg_description := "Ensures equal calibration across groups";
         cfg_formula := "P(Y=1|Y_hat=v,A=0) = P(Y=1|Y_hat=v,A=1) for all v";
         cfg_threshold := threshold self |}
  | COUNTERFACTUAL_FAIRNESS =>
      {| cfg_name := "Counterfactual Fairness";
         cfg_description :=
           "Ensures predictions would be same in counterfactual world";
         cfg_formula := "P(Y_hat=1|A=0,U=u) = P(Y_hat=1|A=1,U=u) for all u";
         cfg_threshold := threshold self |}
  end.

Definition _initialize_detectors (self : MLModelBiasDetector)
  : MLModelBiasDetector :=
  fold_left
    (fun s metric =>
       {| model_name := model_name s;
          protected_attributes := protected_attributes s;
          threshold := threshold s;
          metrics := metrics s;
          detectors :=
            Dict.set (value metric) (_get_detector_config s metric)
              (detectors s) |})
    (metrics self) self.

(* [MLModelBiasDetector(model_name, protected_attributes, threshold,
   metrics)]; [metrics or list(BiasMetric)] takes the default for [None]
   and for the empty list alike. *)
Definition __init__ (model_name : string) (protected_attributes : list string)
  (threshold : Q) (metrics : option (list BiasMetric))
  : M MLModelBiasDetector :=
  let self :=
    {| model_name := model_name;
       protected_attributes := protected_attributes;
       threshold := threshold;
       metrics :=
         match metrics with
         | Some (m :: ms) => m :: ms
         | Some [] | None => list_BiasMetric
         end;
       detectors := [] |} in
  let self := _initialize_detectors self in
  _ <~ LogMonad.emit INFO (MsgInitialized model_name) ;;
  LogMonad.ret self.

(* [ValueError(f"Protected attribute '{attr}' not found in data")] *)
Definition missing_attribute (attr : string) : exn :=
  ValueError ("Protected attribute '" ++ attr ++ "' not found in data")%string.

Definition _validate_inputs (self : MLModelBiasDetector)
  (predictions true_labels : list Z) (protected_df : DataFrame)
  : result unit :=
  if negb (List.length predictions =? List.length true_labels)%nat then
    Raise (ValueError "Predictions and true labels must have same length")
  else if negb (List.length predictions =? df_len protected_df)%nat then
    Raise
      (ValueError "Predictions and protected attributes must have same length")
  else
    _ <- ResultMonad.for_each (protected_attributes self)
           (fun _ attr =>
              if negb (pd.has_column protected_df attr) then
                Raise (missing_attribute attr)
              else Ok tt)
           tt ;;
    if negb (np.all_isin_01 predictions) then
      Raise (ValueError "Predictions must be binary (0 or 1)")
    else if negb (np.all_isin_01 true_labels) then
      Raise (ValueError "True labels must be binary (0 or 1)")
    else Ok tt.

(* [if len(scores) >= 2: max_bias = max(max_bias, max(scores) - min(scores))] *)
Definition spread_into (max_bias : Q) (scores : list Q) : result Q :=
  if (2 <=? List.length scores)%nat then
    mx <- py_max_list scores ;;
    mn <- py_min_list scores ;;
    Ok (py_max max_bias (mx - mn))
  else Ok max_bias.

Definition _demographic_parity (self : MLModelBiasDetector)
  (predictions : list Z) (protected_df : DataFrame) : result Q :=
  ResultMonad.for_each (protected_attributes self)
    (fun max_bias attr =>
       col <- pd.getitem protected_df attr ;;
       let groups := pd.unique col in
       if (List.length groups <? 2)%nat then Ok max_bias
       else
         group_rates <-
           ResultMonad.for_each groups
             (fun group_rates group =>
                col <- pd.getitem protected_df attr ;;
                let mask := pd.eq_mask col group in
                if (0 <? np.sum mask)%nat then
                  group_preds <- np.index predictions mask ;;
                  let positive_rate := np.mean_int group_preds in
                  Ok (group_rates ++ [positive_rate])
                else Ok group_rates)
             [] ;;
         spread_into max_bias group_rates)
    0.

Definition _equalized_odds (self : MLModelBiasDetector)
  (predictions true_labels : list Z) (protected_df : DataFrame) : result Q :=
  ResultMonad.for_each (protected_attributes self)
    (fun max_bias attr =>
       col <- pd.getitem protected_df attr ;;
       let groups := pd.unique col in
       if (List.length groups <? 2)%nat then Ok max_bias
       else
         scores <-
           ResultMonad.for_each groups
             (fun scores group =>
                let '(tpr_scores, fpr_scores) := scores in
                col <- pd.getitem protected_df attr ;;
                let mask := pd.eq_mask col group in
                if (0 <? np.sum mask)%nat then
                  group_preds <- np.index predictions mask ;;
                  group_labels <- np.index true_labels mask ;;
                  tpr_scores <-
                    (if (0 <? np.sum (np.eq_int group_labels 1))%nat then
                       pos <- np.index group_preds (np.eq_int group_labels 1) ;;
                       Ok (tpr_scores ++ [np.mean_int pos])
                     else Ok tpr_scores) ;;
                  fpr_scores <-
                    (if (0 <? np.sum (np.eq_int group_labels 0))%nat then
                       neg <- np.index group_preds (np.eq_int group_labels 0) ;;
                       Ok (fpr_scores ++ [np.mean_int neg])
                     else Ok fpr_scores) ;;
                  Ok (tpr_scores, fpr_scores)
                else Ok (tpr_scores, fpr_scores))
             ([], []) ;;
         let '(tpr_scores, fpr_scores) := scores in
         max_bias <- spread_into max_bias tpr_scores ;;
         spread_into max_bias fpr_scores)
    0.

Definition _equal_opportunity (self : MLModelBiasDetector)
  (predictions true_labels : list Z) (protected_df : DataFrame) : result Q :=
  ResultMonad.for_each (protected_attributes self)
    (fun max_bias attr =>
       col <- pd.getitem protected_df attr ;;
       let groups := pd.unique col in
       if (List.length groups <? 2)%nat then Ok max_bias
       else
         tpr_scores <-
           ResultMonad.for_each groups
             (fun tpr_scores group =>
                col <- pd.getitem protected_df attr ;;
                let mask := pd.eq_mask col group in
                if (0 <? np.sum mask)%nat then
                  group_preds <- np.index predictions mask ;;
                  group_labels <- np.index true_labels mask ;;
                  if (0 <? np.sum (np.eq_int group_labels 1))%nat then
                    pos <- np.index group_preds (np.eq_int group_labels 1) ;;
                    Ok (tpr_scores ++ [np.mean_int pos])
                  else Ok tpr_scores
                else Ok tpr_scores)
             [] ;;
         spread_into max_bias tpr_scores)
    0.

Definition _calibration (self : MLModelBiasDetector)
  (prediction_probabilities : list Q) (true_labels : list Z)
  (protected_df : DataFrame) : result Q :=
  let bins := np.linspace_0_1_11 in
  ResultMonad.for_each (protected_attributes self)
    (fun max_bias attr =>
       col <- pd.getitem protected_df attr ;;
       let groups := pd.unique col in
       if (List.length groups <? 2)%nat then Ok max_bias
       else
         group_calibrations <-
           ResultMonad.for_each groups
             (fun group_calibrations group =>
                col <- pd.getitem protected_df attr ;;
                let mask := pd.eq_mask col group in
                if (0 <? np.sum mask)%nat then
                  group_probs <- np.index prediction_probabilities mask ;;
                  group_labels <- np.index true_labels mask ;;
                  calibration_errors <-
                    ResultMonad.for_each (seq 0 (List.length bins - 1))
                      (fun calibration_errors i =>
                         let bin_mask :=
                           np.in_bin group_probs (nth i bins 0)
                             (nth (i + 1) bins 0) in
                         if (0 <? np.sum bin_mask)%nat then
                           in_probs <- np.index group_probs bin_mask ;;
                           in_labels <- np.index group_labels bin_mask ;;
                           let predicted_prob := np.mean in_probs in
                           let actual_prob := np.mean_int in_labels in
                           Ok (calibration_errors
                                 ++ [Qabs (predicted_prob - actual_prob)])
                         else Ok calibration_errors)
                      [] ;;
                  match calibration_errors with
                  | [] => Ok group_calibrations
                  | _ :: _ =>
                      Ok (group_calibrations ++ [np.mean calibration_errors])
                  end
                else Ok group_calibrations)
             [] ;;
         spread_into max_bias group_calibrations)
    0.

Definition _counterfactual_fairness (self : MLModelBiasDetector)
  (predictions : list Z) (protected_df : DataFrame) : result Q :=
  _demographic_parity self predictions protected_df.

Definition _compute_bias_metric (self : MLModelBiasDetector)
  (metric : BiasMetric) (predictions true_labels : list Z)
  (protected_df : DataFrame) (prediction_probabilities : option (list Q))
  : M Q :=
  match metric with
  | DEMOGRAPHIC_PARITY =>
      LogMonad.lift (_demographic_parity self predictions protected_df)
  | EQUALIZED_ODDS =>
      LogMonad.lift (_equalized_odds self predictions true_labels protected_df)
  | EQUAL_OPPORTUNITY =>
      LogMonad.lift
        (_equal_opportunity self predictions true_labels protected_df)
  | CALIBRATION =>
      match prediction_probabilities with
      | None =>
          _ <~ LogMonad.emit WARNING MsgCalibrationSkipped ;;
          LogMonad.ret 0
      | Some probabilities =>
          LogMonad.lift
            (_calibration self probabilities true_labels protected_df)
      end
  | COUNTERFACTUAL_FAIRNESS =>
      LogMonad.lift (_counterfactual_fairness self predictions protected_df)
  end.

Definition _compute_group_bias (self : MLModelBiasDetector)
  (metric : BiasMetric) (predictions true_labels : list Z)
  (protected_df : DataFrame) : result (dict Q) :=
  ResultMonad.for_each (protected_attributes self)
    (fun group_scores attr =>
       col <- pd.getitem protected_df attr ;;
       let groups := pd.unique col in
       ResultMonad.for_each groups
         (fun group_scores group =>
            col <- pd.getitem protected_df attr ;;
            let mask := pd.eq_mask col group in
            if (0 <? np.sum mask)%nat then
              let group_key :=
                (attr ++ "_" ++ group ++ "_" ++ value metric)%string in
              score <-
                match metric with
                | DEMOGRAPHIC_PARITY =>
                    group_preds <- np.index predictions mask ;;
                    Ok (np.mean_int group_preds)
                | EQUALIZED_ODDS | EQUAL_OPPORTUNITY =>
                    group_labels <- np.index true_labels mask ;;
                    if (0 <? np.sum (np.eq_int group_labels 1))%nat then
                      group_preds <- np.index predictions mask ;;
                      group_labels <- np.index true_labels mask ;;
                      pos <- np.index group_preds (np.eq_int group_labels 1) ;;
                      Ok (np.mean_int pos)
                    else Ok 0
                | CALIBRATION | COUNTERFACTUAL_FAIRNESS => Ok 0
                end ;;
              Ok (Dict.set group_key score group_scores)
            else Ok group_scores)
         group_scores)
    [].

(** ** Recommendations and the report *)

(* The texts of [_generate_recommendations], as the source file has them. *)
Definition rec_no_bias : string :=
  "âœ… No significant bias detected. Continue monitoring.".
Definition rec_demographic_parity : string :=
  "âš ï¸ Demographic parity violation detected. Consider rebalancing training data or applying fairness constraints during training.".
Definition rec_equalized_odds : string :=
  "âš ï¸ Equalized odds violation detected. Consider post-processing techniques to equalize true positive and false positive rates across groups.".
Definition rec_equal_opportunity : string :=
  "âš ï¸ Equal opportunity violation detected. Focus on equalizing true positive rates across protected groups.".
Definition rec_calibration : string :=
  "âš ï¸ Calibration bias detected. Consider recalibrating model predictions separately for each protected group.".
Definition rec_retrain : string :=
  "ðŸ”„ Retrain model with fairness-aware algorithms".
Definition rec_collect : string :=
  "ðŸ“Š Collect more representative training data".
Definition rec_mitigation : string :=
  "ðŸŽ¯ Apply bias mitigation techniques (preprocessing, in-processing, or post-processing)".
Definition rec_audits : string :=
  "ðŸ” Conduct regular bias audits with domain experts".
Definition rec_review : string :=
  "ðŸ“– Review model decisions with affected stakeholders".

Definition general_recommendations : list string :=
  [rec_retrain; rec_collect; rec_mitigation; rec_audits; rec_review].

Definition _generate_recommendations (self : MLModelBiasDetector)
  (metric_scores group_scores : dict Q) (bias_detected : bool)
  : list string :=
  let recommendations := [] in
  if negb bias_detected then recommendations ++ [rec_no_bias]
  else
    let problematic_metrics :=
      map fst
        (filter (fun item => Qltb (threshold self) (snd item))
           (Dict.items metric_scores)) in
    let recommendations :=
      fold_left
        (fun recommendations metric =>
           if String.eqb metric "demographic_parity" then
             recommendations ++ [rec_demographic_parity]
           else if String.eqb metric "equalized_odds" then
             recommendations ++ [rec_equalized_odds]
           else if String.eqb metric "equal_opportunity" then
             recommendations ++ [rec_equal_opportunity]
           else if String.eqb metric "calibration" then
             recommendations ++ [rec_calibration]
           else recommendations)
        problematic_metrics recommendations in
    recommendations ++ general_recommendations.

(* The body of [for metric in self.metrics] in [detect_bias]; the state is
   the pair of dictionaries [metric_scores], [group_scores]. *)
Definition detect_bias_step (self : MLModelBiasDetector)
  (predictions true_labels : list Z) (protected_df : DataFrame)
  (prediction_probabilities : option (list Q))
  (scores : dict Q * dict Q) (metric : BiasMetric) : M (dict Q * dict Q) :=
  let '(metric_scores, group_scores) := scores in
  score <~
    _compute_bias_metric self metric predictions true_labels protected_df
      prediction_probabilities ;;
  let metric_scores := Dict.set (value metric) score metric_scores in
  group_score <~
    LogMonad.lift
      (_compute_group_bias self metric predictions true_labels protected_df) ;;
  LogMonad.ret (metric_scores, Dict.update group_scores group_score).

(* [detect_bias]; [now] is what [pd.Timestamp.now().isoformat()] answers
   during the call. *)
Definition detect_bias (self : MLModelBiasDetector) (now : string)
  (predictions true_labels : list Z) (protected_df : DataFrame)
  (prediction_probabilities : option (list Q)) : M BiasDetectionResult :=
  LogMonad.try_reraise
    (_ <~ LogMonad.lift
            (_validate_inputs self predictions true_labels protected_df) ;;
     scores <~
       LogMonad.for_each (metrics self)
         (detect_bias_step self predictions true_labels protected_df
            prediction_probabilities)
         ([], []) ;;
     let '(metric_scores, group_scores) := scores in
     let overall_bias_score := np.mean (Dict.values metric_scores) in
     let bias_detected := Qltb (threshold self) overall_bias_score in
     let recommendations :=
       _generate_recommendations self metric_scores group_scores
         bias_detected in
     let metadata :=
       {| md_model_name := model_name self;
          md_sample_size := List.length predictions;
          md_protected_attributes := protected_attributes self;
          md_metrics_computed := map value (metrics self);
          md_threshold := threshold self;
          md_timestamp := now |} in
     let result :=
       {| overall_bias_score := overall_bias_score;
          bias_detected := bias_detected;
          threshold_exceeded := bias_detected;
          metric_scores := metric_scores;
          group_scores := group_scores;
          recommendations := recommendations;
          metadata := metadata |} in
     _ <~ LogMonad.emit INFO
            (MsgCompleted (model_name self) overall_bias_score) ;;
     LogMonad.ret result)
    (fun e => LogMonad.emit ERROR (MsgFailed (model_name self) e)).

(** ** Vocabulary of the statements *)

(* A proportion. *)
Definition in01 (q : Q) : Prop := 0 <= q /\ q <= 1.

Definition binary (xs : list Z) : Prop :=
  Forall (fun x => x = 0%Z \/ x = 1%Z) xs.

(* [holds R c P]: [P] holds of the value of [c]; [R] says what is claimed
   when [c] raises. [returns] asks for a value, [if_returns] does not. *)
Definition holds {A} (R : Prop) (c : result A) (P : A -> Prop) : Prop :=
  match c with
  | Ok a => P a
  | Raise _ => R
  end.

Definition returns {A} (c : result A) (P : A -> Prop) : Prop :=
  holds False c P.

Definition if_returns {A} (c : result A) (P : A -> Prop) : Prop :=
  holds True c P.

Definition holdsM {A} (R : Prop) (c : M A) (l : log) (P : A -> log -> Prop)
  : Prop :=
  match c l with
  | (Ok a, l') => P a l'
  | (Raise _, _) => R
  end.

(* What [_validate_inputs] asks of a batch. *)
Definition valid_batch (self : MLModelBiasDetector)
  (predictions true_labels : list Z) (protected_df : DataFrame) : Prop :=
  List.length predictions = List.length true_labels /\
  List.length predictions = df_len protected_df /\
  (forall attr, In attr (protected_attributes self) ->
                pd.has_column protected_df attr = true) /\
  binary predictions /\
  binary true_labels.

(* The positive-prediction rate of one group of a column. *)
Definition group_rate (predictions : list Z) (col : list string)
  (group : string) : Q :=
  np.mean_int (np.filter_mask predictions (pd.eq_mask col group)).

(* [d] is the largest group rate of the column minus the smallest. *)
Definition is_disparity (predictions : list Z) (col : list string) (d : Q)
  : Prop :=
  exists hi lo,
    In hi (pd.unique col) /\ In lo (pd.unique col) /\
    d == group_rate predictions col hi - group_rate predictions col lo /\
    forall g, In g (pd.unique col) ->
              group_rate predictions col lo <= group_rate predictions col g /\
              group_rate predictions col g <= group_rate predictions col hi.

(* [s] is the largest disparity among the attributes of [attrs] that have
   two groups or more, and 0 when there is none. *)
Definition max_disparity_over (attrs : list string) (predictions : list Z)
  (df : DataFrame) (s : Q) : Prop :=
  0 <= s /\
  (forall attr col d,
      In attr attrs -> pd.getitem df attr = Ok col ->
      (2 <= List.length (pd.unique col))%nat ->
      is_disparity predictions col d -> d <= s) /\
  ((exists attr col,
       In attr attrs /\ pd.getitem df attr = Ok col /\
       (2 <= List.length (pd.unique col))%nat /\
       is_disparity predictions col s) \/
   (s == 0 /\
    forall attr col,
      In attr attrs -> pd.getitem df attr = Ok col ->
      (List.length (pd.unique col) < 2)%nat)).

(* The value [_compute_bias_metric] returns, apart from what it logs. *)
Definition metric_result (self : MLModelBiasDetector) (metric : BiasMetric)
  (predictions true_labels : list Z) (df : DataFrame)
  (probabilities : option (list Q)) : result Q :=
  fst (_compute_bias_metric self metric predictions true_labels df
         probabilities []).

(* What one call of [_compute_bias_metric] adds to the log. *)
Definition skip_warning (metric : BiasMetric) (probabilities : option (list Q))
  : log :=
  match metric, probabilities with
  | CALIBRATION, None => [(WARNING, MsgCalibrationSkipped)]
  | _, _ => []
  end.

(* A probability array whose length is not the number of rows. *)
Definition misaligned (probabilities : option (list Q)) (df : DataFrame)
  : Prop :=
  match probabilities with
  | Some ps => List.length ps <> df_len df
  | None => False
  end.

(* The state of the loop of [detect_bias] after the metrics [done]. *)
Definition scores_after (self : MLModelBiasDetector)
  (predictions true_labels : list Z) (df : DataFrame)
  (probabilities : option (list Q)) (l0 : log) (done : list BiasMetric)
  (scores : dict Q * dict Q) (l : log) : Prop :=
  (forall m, In m done ->
             exists s, Dict.get (value m) (fst scores) = Some s /\
                       metric_result self m predictions true_labels df
                         probabilities = Ok s) /\
  (forall k, In k (Dict.keys (fst scores)) ->
             exists m, In m done /\ k = value m) /\
  NoDup (Dict.keys (fst scores)) /\
  l = l0 ++ flat_map (fun m => skip_warning m probabilities) done /\
  Forall in01 (Dict.values (fst scores)) /\
  Forall in01 (Dict.values (snd scores)).

(* The report [detect_bias] builds once its loop has filled the two
   dictionaries. *)
Definition report_of (self : MLModelBiasDetector) (now : string)
  (predictions : list Z) (ms gs : dict Q) : BiasDetectionResult :=
  {| overall_bias_score := np.mean (Dict.values ms);
     bias_detected := Qltb (threshold self) (np.mean (Dict.values ms));
     threshold_exceeded := Qltb (threshold self) (np.mean (Dict.values ms));
     metric_scores := ms;
     group_scores := gs;
     recommendations :=
       _generate_recommendations self ms gs
         (Qltb (threshold self) (np.mean (Dict.values ms)));
     metadata :=
       {| md_model_name := model_name self;
          md_sample_size := List.length predictions;
          md_protected_attributes := protected_attributes self;
          md_metrics_computed := map value (metrics self);
          md_threshold := threshold self;
          md_timestamp := now |} |}.

(* A batch that breaks one of the rules of [_validate_inputs]. *)
Definition violates (self : MLModelBiasDetector)
  (predictions true_labels : list Z) (df : DataFrame) : Prop :=
  List.length predictions <> List.length true_labels \/
  List.length predictions <> df_len df \/
  (exists attr, In attr (protected_attributes self) /\
                pd.has_column df attr = false) \/
  ~ binary predictions \/
  ~ binary true_labels.

(* [msg] is the message of a rule that the batch breaks. *)
Definition names_violated_rule (self : MLModelBiasDetector)
  (predictions true_labels : list Z) (df : DataFrame) (msg : string) : Prop :=
  (msg = "Predictions and true labels must have same length" /\
   List.length predictions <> List.length true_labels) \/
  (msg = "Predictions and protected attributes must have same length" /\
   List.length predictions <> df_len df) \/
  (exists attr,
      msg = ("Protected attribute '" ++ attr ++ "' not found in data")%string /\
      In attr (protected_attributes self) /\
      pd.has_column df attr = false) \/
  (msg = "Predictions must be binary (0 or 1)" /\ ~ binary predictions) \/
  (msg = "True labels must be binary (0 or 1)" /\ ~ binary true_labels).

(** ** The scenario of the specification *)

Definition scenario_df : DataFrame :=
  {| df_len := 4; df_columns := [("attr", ["a"; "a"; "b"; "b"])] |}.

Definition scenario_predictions : list Z := [1; 1; 0; 0]%Z.

Definition scenario_labels : list Z := [1; 0; 0; 1]%Z.

(* [MLModelBiasDetector("model", ["attr"])], as [__init__] builds it. *)
Definition scenario_detector : MLModelBiasDetector :=
  Eval vm_compute in
    match fst (__init__ "model" ["attr"] default_threshold None []) with
    | Ok d => d
    | Raise _ =>
        {| model_name := ""; protected_attributes := []; threshold := 0;
           metrics := []; detectors := [] |}
    end.

(* What [pd.Timestamp.now().isoformat()] answers in the scenario. *)
Definition scenario_now : string := "2026-01-01T00:00:00".

(** ** A batch with a mild disparity *)

(* Twenty rows in two groups of ten; one positive prediction, in group [a];
   every label of group [a] is 1 and every label of group [b] is 0. *)
Definition mild_df : DataFrame :=
  {| df_len := 20;
     df_columns := [("attr", repeat "a" 10 ++ repeat "b" 10)] |}.

Definition mild_predictions : list Z := 1%Z :: repeat 0%Z 19.

Definition mild_labels : list Z := repeat 1%Z 10 ++ repeat 0%Z 10.

(** ** Recommendations *)

(* The text [_generate_recommendations] has for a key of [metric_scores]. *)
Definition recommendation_for_key (key : string) : list string :=
  if String.eqb key "demographic_parity" then [rec_demographic_parity]
  else if String.eqb key "equalized_odds" then [rec_equalized_odds]
  else if String.eqb key "equal_opportunity" then [rec_equal_opportunity]
  else if String.eqb key "calibration" then [rec_calibration]
  else [].

(* The metrics that have a text of their own. *)
Definition specific_recommendation (metric : BiasMetric) : option string :=
  match metric with
  | DEMOGRAPHIC_PARITY => Some rec_demographic_parity
  | EQUALIZED_ODDS => Some rec_equalized_odds
  | EQUAL_OPPORTUNITY => Some rec_equal_opportunity
  | CALIBRATION => Some rec_calibration
  | COUNTERFACTUAL_FAIRNESS => None
  end.

(* The score of [metric] in the report is above the threshold. *)
Definition exceeds (self : MLModelBiasDetector) (r : BiasDetectionResult)
  (metric : BiasMetric) : bool :=
  match Dict.get (value metric) (metric_scores r) with
  | Some s => Qltb (threshold self) s
  | None => false
  end.

(** ** Reports up to the time of the call *)

(* The report [r] with the timestamp of its metadata replaced. *)
Definition with_timestamp (ts : string) (r : BiasDetectionResult)
  : BiasDetectionResult :=
  {| overall_bias_score := overall_bias_score r;
     bias_detected := bias_detected r;
     threshold_exceeded := threshold_exceeded r;
     metric_scores := metric_scores r;
     group_scores := group_scores r;
     recommendations := recommendations r;
     metadata :=
       {| md_model_name := md_model_name (metadata r);
          md_sample_size := md_sample_size (metadata r);
          md_protected_attributes := md_protected_attributes (metadata r);
          md_metrics_computed := md_metrics_computed (metadata r);
          md_threshold := md_threshold (metadata r);
          md_timestamp := ts |} |}.

(* Two outcomes of [detect_bias] that differ at most in the timestamp. *)
Definition same_up_to_timestamp (o1 o2 : result BiasDetectionResult) : Prop :=
  match o1, o2 with
  | Ok r1, Ok r2 =>
      with_timestamp (md_timestamp (metadata r2)) r1 = r2
  | Raise e1, Raise e2 => e1 = e2
  | _, _ => False
  end.

(** ** Vocabulary of the further properties *)

(* The record [logger.warning] gets for a skipped calibration. *)
Definition calibration_warning : level * message :=
  (WARNING, MsgCalibrationSkipped).

(* The number of calibrations a run over [ms] skips: one for each time
   calibration is listed, when no probabilities are given. *)
Definition skipped_calibrations (ms : list BiasMetric)
  (probabilities : option (list Q)) : nat :=
  match probabilities with
  | Some _ => 0
  | None =>
      List.length
        (filter
           (fun m => match m with CALIBRATION => true | _ => false end) ms)
  end.

(* Every configured attribute has fewer than two distinct values. *)
Definition degenerate (self : MLModelBiasDetector) (df : DataFrame) : Prop :=
  forall attr col,
    In attr (protected_attributes self) ->
    pd.getitem df attr = Ok col ->
    (List.length (pd.unique col) < 2)%nat.

(* The key of a group score: [f"{attr}_{group}_{metric.value}"]. *)
Definition group_key (attr group : string) (metric : BiasMetric) : string :=
  (attr ++ "_" ++ group ++ "_" ++ value metric)%string.

(* The true-positive rate of one group of a column, 0 for a group without
   a positive label. *)
Definition group_tpr (predictions true_labels : list Z) (col : list string)
  (group : string) : Q :=
  let mask := pd.eq_mask col group in
  let positives := np.eq_int (np.filter_mask true_labels mask) 1 in
  if (0 <? np.sum positives)%nat then
    np.mean_int (np.filter_mask (np.filter_mask predictions mask) positives)
  else 0.

(* The score [_compute_group_bias] records for a group. *)
Definition group_score (metric : BiasMetric) (predictions true_labels : list Z)
  (col : list string) (group : string) : Q :=
  match metric with
  | DEMOGRAPHIC_PARITY => group_rate predictions col group
  | EQUALIZED_ODDS | EQUAL_OPPORTUNITY =>
      group_tpr predictions true_labels col group
  | CALIBRATION | COUNTERFACTUAL_FAIRNESS => 0
  end.

(* What the entries of a dictionary of group scores are: each one the
   score of a group of a configured attribute under the key of that group,
   and every such group has its key. *)
Definition group_entries (attrs : list string) (metric : BiasMetric)
  (predictions true_labels : list Z) (df : DataFrame) (gs : dict Q) : Prop :=
  (forall k v,
      In (k, v) gs ->
      exists attr col g,
        In attr attrs /\ pd.getitem df attr = Ok col /\ In g col /\
        k = group_key attr g metric /\
        v = group_score metric predictions true_labels col g) /\
  (forall attr col g,
      In attr attrs -> pd.getitem df attr = Ok col -> In g col ->
      In (group_key attr g metric) (Dict.keys gs)).

(** ** Saving and loading a detector *)

(* The dictionary [save_detector] pickles: [metrics] holds the values of
   the metrics, the other keys hold the fields of the detector. *)
Record SavedConfig : Type := {
  saved_model_name : string;
  saved_protected_attributes : list string;
  saved_threshold : Q;
  saved_metrics : list string;
  saved_detectors : dict DetectorConfig
}.

(* The files that hold a pickled configuration, by path: [pickle.load]
   returns what [pickle.dump] was given, and every path can be written. *)
Definition files : Type := dict SavedConfig.

(* What [load_detector] can raise: [open] on a path that is not there, or
   an exception of the detector's own. *)
Inductive io_exn : Type :=
| FileNotFoundError (filepath : string)
| Raised (e : exn).

Inductive io_result (A : Type) : Type :=
| Returned (a : A)
| Failed (e : io_exn).
Arguments Returned {A} a.
Arguments Failed {A} e.

(* The records of the two methods: those of the constructor, and one for
   each file saved or loaded. *)
Inductive io_message : Type :=
| Logged (m : message)
| MsgSaved (filepath : string)
| MsgLoaded (filepath : string).

Definition io_log : Type := list (level * io_message).

Definition lift_log (l : log) : io_log :=
  map (fun record => (fst record, Logged (snd record))) l.

(* [BiasMetric(v)]: the member whose value is [v]. *)
Definition BiasMetric_of_value (v : string) : result BiasMetric :=
  if String.eqb v "demographic_parity" then Ok DEMOGRAPHIC_PARITY
  else if String.eqb v "equalized_odds" then Ok EQUALIZED_ODDS
  else if String.eqb v "equal_opportunity" then Ok EQUAL_OPPORTUNITY
  else if String.eqb v "calibration" then Ok CALIBRATION
  else if String.eqb v "counterfactual_fairness" then
    Ok COUNTERFACTUAL_FAIRNESS
  else Raise (ValueError ("'" ++ v ++ "' is not a valid BiasMetric")%string).

Definition save_detector (self : MLModelBiasDetector) (filepath : string)
  (fs : files) (l : io_log) : files * io_log :=
  let config :=
    {| saved_model_name := model_name self;
       saved_protected_attributes := protected_attributes self;
       saved_threshold := threshold self;
       saved_metrics := map value (metrics self);
       saved_detectors := detectors self |} in
  (Dict.set filepath config fs, l ++ [(INFO, MsgSaved filepath)]).

Definition load_detector (filepath : string) (fs : files) (l : io_log)
  : io_result MLModelBiasDetector * io_log :=
  match Dict.get filepath fs with
  | None => (Failed (FileNotFoundError filepath), l)
  | Some config =>
      match
        ResultMonad.for_each (saved_metrics config)
          (fun metrics m =>
             metric <- BiasMetric_of_value m ;; Ok (metrics ++ [metric]))
          []
      with
      | Raise e => (Failed (Raised e), l)
      | Ok parsed =>
          match
            __init__ (saved_model_name config)
              (saved_protected_attributes config) (saved_threshold config)
              (Some parsed) []
          with
          | (Raise e, l0) => (Failed (Raised e), l ++ lift_log l0)
          | (Ok detector, l0) =>
              let detector :=
                {| model_name := model_name detector;
                   protected_attributes := protected_attributes detector;
                   threshold := threshold detector;
                   metrics := metrics detector;
                   detectors := saved_detectors config |} in
              (Returned detector,
               l ++ lift_log l0 ++ [(INFO, MsgLoaded filepath)])
          end
      end
  end.


(** ** Means and rates, said without [np.mean] *)

(* The sum of a list of rationals. *)
Definition Qsum (xs : list Q) : Q := fold_left Qplus xs 0.

(* The arithmetic mean: the sum of the values over their number. *)
Definition arithmetic_mean (xs : list Q) : Q :=
  Qsum xs / inject_Z (Z.of_nat (List.length xs)).

(* The predictions of the rows at which the column holds [group]. *)
Definition group_predictions (predictions : list Z) (col : list string)
  (group : string) : list Z :=
  map snd
    (filter (fun row => String.eqb (fst row) group) (combine col predictions)).

(* The positive-prediction rate of a group: the sum of the predictions of
   its rows over the number of its rows. *)
Definition positive_rate (predictions : list Z) (col : list string)
  (group : string) : Q :=
  inject_Z (fold_left Z.add (group_predictions predictions col group) 0%Z)
  / inject_Z
      (Z.of_nat (List.length (group_predictions predictions col group))).

(* The column holds two distinct values at least. *)
Definition two_groups (col : list string) : Prop :=
  exists g1 g2, In g1 col /\ In g2 col /\ g1 <> g2.

(* [d] is the disparity of a column: the largest positive-prediction rate
   of its groups minus the smallest. *)
Definition disparity (predictions : list Z) (col : list string) (d : Q)
  : Prop :=
  exists hi lo,
    In hi col /\ In lo col /\
    d == positive_rate predictions col hi - positive_rate predictions col lo /\
    forall g, In g col ->
              positive_rate predictions col lo
              <= positive_rate predictions col g /\
              positive_rate predictions col g
              <= positive_rate predictions col hi.

(* [s] is the largest disparity among the attributes of [attrs] whose
   column holds two distinct values at least, and 0 when there is none. *)
Definition maximum_disparity (attrs : list string) (predictions : list Z)
  (df : DataFrame) (s : Q) : Prop :=
  0 <= s /\
  (forall attr col d,
      In attr attrs -> pd.getitem df attr = Ok col -> two_groups col ->
      disparity predictions col d -> d <= s) /\
  ((exists attr col,
       In attr attrs /\ pd.getitem df attr = Ok col /\ two_groups col /\
       disparity predictions col s) \/
   (s == 0 /\
    forall attr col,
      In attr attrs -> pd.getitem df attr = Ok col -> ~ two_groups col)).

(** * Properties *)

(** ** Rational comparisons and Python's [max] and [min] *)

Lemma Qltb_lt (a b : Q) : Qltb a b = true <-> a < b.
Proof.
  unfold Qltb. rewrite negb_true_iff.
  split; intro H.
  - apply Qnot_le_lt. intro Hle. apply Qle_bool_iff in Hle. congruence.
  - apply not_true_is_false. intro Hle. apply Qle_bool_iff in Hle.
    apply (Qlt_not_le _ _ H Hle).
Qed.

Lemma Qltb_ge (a b : Q) : Qltb a b = false <-> b <= a.
Proof.
  unfold Qltb. rewrite negb_false_iff. apply Qle_bool_iff.
Qed.

Lemma py_max_spec (a b : Q) :
  (py_max a b = a \/ py_max a b = b) /\ a <= py_max a b /\ b <= py_max a b.
Proof.
  unfold py_max. destruct (Qltb a b) eqn:E.
  - apply Qltb_lt in E. repeat split; auto; lra.
  - apply Qltb_ge in E. repeat split; auto; lra.
Qed.

Lemma py_min_spec (a b : Q) :
  (py_min a b = a \/ py_min a b = b) /\ py_min a b <= a /\ py_min a b <= b.
Proof.
  unfold py_min. destruct (Qltb b a) eqn:E.
  - apply Qltb_lt in E. repeat split; auto; lra.
  - apply Qltb_ge in E. repeat split; auto; lra.
Qed.

Lemma fold_py_max_spec (xs : list Q) (x : Q) :
  In (fold_left py_max xs x) (x :: xs) /\
  forall y, In y (x :: xs) -> y <= fold_left py_max xs x.
Proof.
  revert x. induction xs as [|z xs IH]; intro x; simpl.
  - split; [auto|]. intros y [->|[]]. lra.
  - destruct (IH (py_max x z)) as [Hin Hub].
    destruct (py_max_spec x z) as [Hsel [Hx Hz]].
    split.
    + destruct Hin as [Hin|Hin]; [|auto].
      rewrite <- Hin. destruct Hsel as [->| ->]; auto.
    + intros y [->|[->|Hy]].
      * apply Qle_trans with (py_max y z); [exact Hx|]. apply Hub. now left.
      * apply Qle_trans with (py_max x y); [exact Hz|]. apply Hub. now left.
      * apply Hub. now right.
Qed.

Lemma fold_py_min_spec (xs : list Q) (x : Q) :
  In (fold_left py_min xs x) (x :: xs) /\
  forall y, In y (x :: xs) -> fold_left py_min xs x <= y.
Proof.
  revert x. induction xs as [|z xs IH]; intro x; simpl.
  - split; [auto|]. intros y [->|[]]. lra.
  - destruct (IH (py_min x z)) as [Hin Hlb].
    destruct (py_min_spec x z) as [Hsel [Hx Hz]].
    split.
    + destruct Hin as [Hin|Hin]; [|auto].
      rewrite <- Hin. destruct Hsel as [->| ->]; auto.
    + intros y [->|[->|Hy]].
      * apply Qle_trans with (py_min y z); [|exact Hx]. apply Hlb. now left.
      * apply Qle_trans with (py_min x y); [|exact Hz]. apply Hlb. now left.
      * apply Hlb. now right.
Qed.

(** ** Rules for the two monads *)

Section BasicRules.
Context {A B : Type} (R : Prop).

Lemma holds_bind (c : result A) (k : A -> result B) (P : B -> Prop) :
  holds R c (fun a => holds R (k a) P) -> holds R (ResultMonad.bind c k) P.
Proof. destruct c; simpl; auto. Qed.

Lemma holds_mono (c : result A) (P P' : A -> Prop) :
  (forall a, P a -> P' a) -> holds R c P -> holds R c P'.
Proof. destruct c; simpl; auto. Qed.

Lemma holds_Ok (a : A) (P : A -> Prop) : P a -> holds R (Ok a) P.
Proof. auto. Qed.

End BasicRules.

Section LoopRules.
Context {A B : Type} (R : Prop).

(* The invariant may mention the part of the list already visited. *)
Lemma holds_for_each_prefix (xs : list B) (body : A -> B -> result A)
  (I : list B -> A -> Prop) (s : A) :
  I [] s ->
  (forall pre x post s',
      xs = pre ++ x :: post -> I pre s' ->
      holds R (body s' x) (I (pre ++ [x]))) ->
  holds R (ResultMonad.for_each xs body s) (I xs).
Proof.
  intros H0 Hstep.
  assert (G : forall post pre s',
             xs = pre ++ post -> I pre s' ->
             holds R (ResultMonad.for_each post body s') (I xs)).
  { induction post as [|x post IH]; intros pre s' Hxs Hpre; simpl.
    - rewrite app_nil_r in Hxs. now subst pre.
    - apply holds_bind.
      specialize (Hstep pre x post s' Hxs Hpre).
      destruct (body s' x) as [s''|e]; simpl in *; [|exact Hstep].
      apply (IH (pre ++ [x])); [|exact Hstep].
      rewrite <- app_assoc. exact Hxs. }
  apply (G xs [] s); auto.
Qed.

Lemma holds_for_each (xs : list B) (body : A -> B -> result A)
  (I : A -> Prop) (s : A) :
  I s ->
  (forall x s', In x xs -> I s' -> holds R (body s' x) I) ->
  holds R (ResultMonad.for_each xs body s) I.
Proof.
  intros H0 Hstep.
  apply holds_for_each_prefix with (I := fun _ => I); [exact H0|].
  intros pre x post s' Hxs Hs'. apply Hstep; [|exact Hs'].
  rewrite Hxs. apply in_or_app. right. now left.
Qed.
End LoopRules.

Lemma for_each_cons {A S} (x : A) (xs : list A) (body : S -> A -> result S)
  (s : S) :
  ResultMonad.for_each (x :: xs) body s =
  ResultMonad.bind (body s x) (ResultMonad.for_each xs body).
Proof. reflexivity. Qed.

(* A loop whose body appends one value per element is a [map]. *)
Lemma for_each_collect {A B} (f : A -> B) (xs : list A)
  (body : list B -> A -> result (list B)) (acc : list B) :
  (forall acc' x, In x xs -> body acc' x = Ok (acc' ++ [f x])) ->
  ResultMonad.for_each xs body acc = Ok (acc ++ map f xs).
Proof.
  revert acc. induction xs as [|x xs IH]; intros acc H.
  - simpl. now rewrite app_nil_r.
  - rewrite for_each_cons, (H acc x (or_introl eq_refl)).
    cbn [ResultMonad.bind]. rewrite IH.
    + now rewrite <- app_assoc.
    + intros acc' y Hy. apply H. now right.
Qed.

Lemma returns_inv {A} (c : result A) (P : A -> Prop) :
  returns c P -> exists a, c = Ok a /\ P a.
Proof. destruct c; simpl; [eauto|tauto]. Qed.

Lemma returns_holds {A} (R : Prop) (c : result A) (P : A -> Prop) :
  returns c P -> holds R c P.
Proof. destruct c; simpl; [auto|tauto]. Qed.

Lemma holds_weaken {A} (R R' : Prop) (c : result A) (P : A -> Prop) :
  (R -> R') -> holds R c P -> holds R' c P.
Proof. destruct c; simpl; auto. Qed.

Lemma if_returns_inv {A} (c : result A) (P : A -> Prop) (a : A) :
  if_returns c P -> c = Ok a -> P a.
Proof. intros H ->. exact H. Qed.

Section BasicRulesM.
Context {A B : Type} (R : Prop).

Lemma holdsM_bind (c : M A) (k : A -> M B) (l : log)
  (P : B -> log -> Prop) :
  holdsM R c l (fun a l' => holdsM R (k a) l' P) ->
  holdsM R (LogMonad.bind c k) l P.
Proof.
  unfold holdsM, LogMonad.bind. destruct (c l) as [[a|e] l']; auto.
Qed.

Lemma holdsM_lift (c : result A) (l : log) (P : A -> log -> Prop) :
  holds R c (fun a => P a l) -> holdsM R (LogMonad.lift c) l P.
Proof. unfold holdsM, LogMonad.lift. destruct c; auto. Qed.

Lemma holdsM_ret (a : A) (l : log) (P : A -> log -> Prop) :
  P a l -> holdsM R (LogMonad.ret a) l P.
Proof. auto. Qed.

Lemma holdsM_mono (c : M A) (l : log) (P P' : A -> log -> Prop) :
  (forall a l', P a l' -> P' a l') -> holdsM R c l P -> holdsM R c l P'.
Proof. unfold holdsM. destruct (c l) as [[a|e] l']; auto. Qed.

End BasicRulesM.

Section LoopRulesM.
Context {A B : Type} (R : Prop).

Lemma holdsM_for_each_prefix (xs : list B) (body : A -> B -> M A)
  (I : list B -> A -> log -> Prop) (s : A) (l : log) :
  I [] s l ->
  (forall pre x post s' l',
      xs = pre ++ x :: post -> I pre s' l' ->
      holdsM R (body s' x) l' (I (pre ++ [x]))) ->
  holdsM R (LogMonad.for_each xs body s) l (I xs).
Proof.
  intros H0 Hstep.
  assert (G : forall post pre s' l',
             xs = pre ++ post -> I pre s' l' ->
             holdsM R (LogMonad.for_each post body s') l' (I xs)).
  { induction post as [|x post IH]; intros pre s' l' Hxs Hpre.
    - rewrite app_nil_r in Hxs. subst pre. exact Hpre.
    - specialize (Hstep pre x post s' l' Hxs Hpre).
      unfold holdsM in *. cbn [LogMonad.for_each]. unfold LogMonad.bind.
      destruct (body s' x l') as [[s''|e] l'']; [|exact Hstep].
      apply (IH (pre ++ [x])); [|exact Hstep].
      rewrite <- app_assoc. exact Hxs. }
  apply (G xs [] s l); auto.
Qed.

Lemma holdsM_for_each (xs : list B) (body : A -> B -> M A)
  (I : A -> log -> Prop) (s : A) (l : log) :
  I s l ->
  (forall x s' l', In x xs -> I s' l' -> holdsM R (body s' x) l' I) ->
  holdsM R (LogMonad.for_each xs body s) l I.
Proof.
  revert s l. induction xs as [|x xs IH]; intros s l H0 Hstep; simpl.
  - exact H0.
  - apply holdsM_bind.
    assert (Hx := Hstep x s l (or_introl eq_refl) H0).
    unfold holdsM in *. destruct (body s x l) as [[s'|e] l']; [|exact Hx].
    apply IH; [exact Hx|].
    intros y s'' l'' Hy. apply Hstep. now right.
Qed.
End LoopRulesM.

(** ** Means of proportions *)

Lemma total_bounds (xs : list Q) :
  Forall in01 xs ->
  0 <= np.total xs /\ np.total xs <= inject_Z (Z.of_nat (List.length xs)).
Proof.
  induction 1 as [|x xs [Hx0 Hx1] _ [IH0 IH1]].
  - split; vm_compute; discriminate.
  - change (np.total (x :: xs)) with (x + np.total xs).
    change (List.length (x :: xs)) with (S (List.length xs)).
    rewrite Nat2Z.inj_succ. unfold Z.succ. rewrite inject_Z_plus.
    change (inject_Z 1) with 1.
    set (n := inject_Z (Z.of_nat (List.length xs))) in *.
    set (t := np.total xs) in *.
    split; lra.
Qed.

Lemma mean_in01 (xs : list Q) : Forall in01 xs -> in01 (np.mean xs).
Proof.
  intro H. destruct (total_bounds H) as [H0 H1].
  unfold np.mean. destruct xs as [|x xs].
  - simpl. split; vm_compute; discriminate.
  - assert (Hn : 0 < inject_Z (Z.of_nat (List.length (x :: xs)))).
    { change 0 with (inject_Z 0). rewrite <- Zlt_Qlt.
      simpl List.length. lia. }
    split.
    + apply Qle_shift_div_l; [exact Hn|]. lra.
    + apply Qle_shift_div_r; [exact Hn|]. lra.
Qed.

Lemma mean_int_in01 (xs : list Z) : binary xs -> in01 (np.mean_int xs).
Proof.
  intro H. apply mean_in01. apply Forall_map.
  eapply Forall_impl; [|exact H].
  intros x [->| ->]; split; vm_compute; discriminate.
Qed.

(** ** Masks, columns and validation *)

Lemma eq_mask_length (col : list string) (g : string) :
  List.length (pd.eq_mask col g) = List.length col.
Proof. apply length_map. Qed.

Lemma eq_int_length (xs : list Z) (v : Z) :
  List.length (np.eq_int xs v) = List.length xs.
Proof. apply length_map. Qed.

Lemma in_bin_length (xs : list Q) (lo hi : Q) :
  List.length (np.in_bin xs lo hi) = List.length xs.
Proof. apply length_map. Qed.

Lemma index_ok {A} (xs : list A) (mask : list bool) :
  List.length xs = List.length mask ->
  np.index xs mask = Ok (np.filter_mask xs mask).
Proof. intro H. unfold np.index. now rewrite H, Nat.eqb_refl. Qed.

Lemma index_inv {A} (xs ys : list A) (mask : list bool) :
  np.index xs mask = Ok ys ->
  ys = np.filter_mask xs mask /\ List.length xs = List.length mask.
Proof.
  unfold np.index.
  destruct (Nat.eqb_spec (List.length xs) (List.length mask)); [|discriminate].
  intros [= <-]. auto.
Qed.

Lemma filter_mask_length {A} (xs : list A) (mask : list bool) :
  List.length xs = List.length mask ->
  List.length (np.filter_mask xs mask) = np.sum mask.
Proof.
  revert mask. induction xs as [|x xs IH]; intros [|b mask] H;
    try discriminate; [reflexivity|].
  injection H as H. unfold np.sum in *. destruct b; simpl.
  - now rewrite IH.
  - now rewrite IH.
Qed.

Lemma filter_mask_Forall {A} (P : A -> Prop) (xs : list A) (mask : list bool) :
  Forall P xs -> Forall P (np.filter_mask xs mask).
Proof.
  intro H. revert mask. induction H as [|x xs Hx _ IH]; intros [|b mask];
    simpl; auto.
  destruct b; auto.
Qed.

Lemma filter_mask_in_bin (xs : list Q) (lo hi : Q) :
  Forall (fun x => lo <= x /\ x < hi)
    (np.filter_mask xs (np.in_bin xs lo hi)).
Proof.
  induction xs as [|x xs IH]; simpl; [constructor|].
  destruct (Qle_bool lo x) eqn:E1; simpl; [|exact IH].
  destruct (Qltb x hi) eqn:E2; simpl; [|exact IH].
  constructor; [|exact IH].
  split; [now apply Qle_bool_iff | now apply Qltb_lt].
Qed.

Lemma getitem_ok (df : DataFrame) (attr : string) :
  pd.has_column df attr = true ->
  exists col, pd.getitem df attr = Ok col /\
              (pd.aligned df -> List.length col = df_len df).
Proof.
  unfold pd.has_column, pd.getitem, pd.aligned.
  induction (df_columns df) as [|c cs IH]; simpl; [discriminate|].
  destruct (String.eqb attr (fst c)) eqn:E; simpl.
  - intros _. exists (snd c). split; [reflexivity|].
    intro H. now inversion H.
  - intro H. destruct (IH H) as [col [Hget Hlen]].
    exists col. split; [exact Hget|].
    intro Hwf. apply Hlen. now inversion Hwf.
Qed.

Lemma getitem_has_column (df : DataFrame) (attr : string) (col : list string) :
  pd.getitem df attr = Ok col -> pd.has_column df attr = true.
Proof.
  unfold pd.has_column, pd.getitem.
  induction (df_columns df) as [|c cs IH]; simpl; [discriminate|].
  destruct (String.eqb attr (fst c)); simpl; auto.
Qed.

Lemma unique_In (col : list string) (g : string) :
  In g (pd.unique col) <-> In g col.
Proof.
  induction col as [|x col IH]; simpl; [tauto|].
  rewrite filter_In, IH, negb_true_iff.
  destruct (String.eqb_spec g x) as [->|Hne]; [tauto|].
  split; [tauto|].
  intros [->|H]; [congruence|auto].
Qed.

Lemma sum_eq_mask_pos (col : list string) (g : string) :
  In g col -> (0 <? np.sum (pd.eq_mask col g))%nat = true.
Proof.
  intro H. apply Nat.ltb_lt. unfold np.sum, pd.eq_mask.
  apply (count_occ_In bool_dec). apply in_map_iff.
  exists g. split; [apply String.eqb_refl | exact H].
Qed.

Lemma all_isin_01_binary (xs : list Z) :
  np.all_isin_01 xs = true <-> binary xs.
Proof.
  unfold np.all_isin_01, binary. rewrite forallb_forall, Forall_forall.
  split; intros H x Hx; specialize (H x Hx).
  - apply orb_true_iff in H. rewrite !Z.eqb_eq in H. exact H.
  - apply orb_true_iff. rewrite !Z.eqb_eq. exact H.
Qed.

Lemma check_columns_ok (df : DataFrame) (attrs : list string) :
  (forall attr, In attr attrs -> pd.has_column df attr = true) ->
  ResultMonad.for_each attrs
    (fun _ attr =>
       if negb (pd.has_column df attr) then Raise (missing_attribute attr)
       else Ok tt)
    tt = Ok tt.
Proof.
  induction attrs as [|a attrs IH]; intro H; simpl; [reflexivity|].
  rewrite (H a (or_introl eq_refl)). simpl. apply IH.
  intros attr Hattr. apply H. now right.
Qed.

Lemma check_columns_inv (df : DataFrame) (attrs : list string) (u : unit) :
  ResultMonad.for_each attrs
    (fun _ attr =>
       if negb (pd.has_column df attr) then Raise (missing_attribute attr)
       else Ok tt)
    u = Ok tt ->
  forall attr, In attr attrs -> pd.has_column df attr = true.
Proof.
  revert u. induction attrs as [|a attrs IH]; intros u H attr Hattr.
  - destruct Hattr.
  - simpl in H. destruct (pd.has_column df a) eqn:E; simpl in H;
      [|discriminate].
    destruct Hattr as [<-|Hattr]; [exact E|]. now apply (IH tt).
Qed.

Lemma validate_inputs_ok (self : MLModelBiasDetector)
  (predictions true_labels : list Z) (df : DataFrame) :
  _validate_inputs self predictions true_labels df = Ok tt <->
  valid_batch self predictions true_labels df.
Proof.
  unfold _validate_inputs, valid_batch.
  destruct (Nat.eqb_spec (List.length predictions) (List.length true_labels))
    as [H1|H1]; simpl; [|split; [discriminate|tauto]].
  destruct (Nat.eqb_spec (List.length predictions) (df_len df))
    as [H2|H2]; simpl; [|split; [discriminate|tauto]].
  split.
  - intro H.
    destruct (ResultMonad.for_each _ _ tt) as [[]|e] eqn:E3; simpl in H;
      [|discriminate].
    pose proof (check_columns_inv _ _ _ E3) as H3.
    destruct (np.all_isin_01 predictions) eqn:E4; simpl in H; [|discriminate].
    destruct (np.all_isin_01 true_labels) eqn:E5; simpl in H; [|discriminate].
    apply all_isin_01_binary in E4, E5. auto.
  - intros (_ & _ & H3 & H4 & H5).
    rewrite (check_columns_ok _ _ H3). simpl.
    apply all_isin_01_binary in H4, H5. now rewrite H4, H5.
Qed.

(** ** The spread of a list of rates *)

Lemma spread_into_eq (b : Q) (scores : list Q) :
  spread_into b scores =
  Ok (match scores with
      | x :: y :: rest =>
          py_max b (fold_left py_max (y :: rest) x
                    - fold_left py_min (y :: rest) x)
      | _ => b
      end).
Proof.
  unfold spread_into. destruct scores as [|x [|y rest]]; reflexivity.
Qed.

Lemma spread_into_in01 (b : Q) (scores : list Q) :
  in01 b -> Forall in01 scores -> returns (spread_into b scores) in01.
Proof.
  intros Hb Hs. rewrite spread_into_eq. unfold returns, holds.
  destruct scores as [|x [|y rest]]; auto.
  destruct (fold_py_max_spec (y :: rest) x) as [Hmax Hub].
  destruct (fold_py_min_spec (y :: rest) x) as [Hmin Hlb].
  rewrite Forall_forall in Hs.
  destruct (Hs _ Hmax) as [_ Hmax1]. destruct (Hs _ Hmin) as [Hmin0 _].
  specialize (Hlb _ Hmax).
  set (mx := fold_left py_max (y :: rest) x) in *.
  set (mn := fold_left py_min (y :: rest) x) in *.
  destruct Hb as [Hb0 Hb1].
  destruct (py_max_spec b (mx - mn)) as [[-> | ->] _]; split; lra.
Qed.

(* On the rates of two groups or more the spread is a disparity. *)
Lemma spread_of_rates (f : string -> Q) (groups : list string) :
  (2 <= List.length groups)%nat ->
  exists hi lo,
    In hi groups /\ In lo groups /\
    (forall g, In g groups -> f lo <= f g /\ f g <= f hi) /\
    forall b, spread_into b (map f groups) = Ok (py_max b (f hi - f lo)).
Proof.
  intro Hlen. destruct groups as [|g1 [|g2 groups]]; simpl in Hlen; try lia.
  destruct (fold_py_max_spec (map f (g2 :: groups)) (f g1)) as [Hmax Hub].
  destruct (fold_py_min_spec (map f (g2 :: groups)) (f g1)) as [Hmin Hlb].
  change (f g1 :: map f (g2 :: groups)) with (map f (g1 :: g2 :: groups))
    in Hmax, Hub, Hmin, Hlb.
  apply in_map_iff in Hmax. destruct Hmax as [hi [Ehi Hhi]].
  apply in_map_iff in Hmin. destruct Hmin as [lo [Elo Hlo]].
  exists hi, lo. repeat split; auto.
  - rewrite Elo. apply Hlb. now apply in_map.
  - rewrite Ehi. apply Hub. now apply in_map.
  - intro b. rewrite spread_into_eq. simpl map. cbv iota.
    simpl map in Ehi, Elo. now rewrite Ehi, Elo.
Qed.

(** ** Demographic parity *)

Lemma group_rate_in01 (predictions : list Z) (col : list string) (g : string) :
  binary predictions -> in01 (group_rate predictions col g).
Proof.
  intro H. apply mean_int_in01. now apply filter_mask_Forall.
Qed.

(* The inner loop collects the rate of every group, in order. *)
Lemma dp_group_rates (predictions : list Z) (df : DataFrame) (attr : string)
  (col groups : list string) (acc : list Q) :
  pd.getitem df attr = Ok col ->
  List.length predictions = List.length col ->
  (forall g, In g groups -> In g col) ->
  ResultMonad.for_each groups
    (fun group_rates group =>
       col <- pd.getitem df attr ;;
       let mask := pd.eq_mask col group in
       if (0 <? np.sum mask)%nat then
         group_preds <- np.index predictions mask ;;
         let positive_rate := np.mean_int group_preds in
         Ok (group_rates ++ [positive_rate])
       else Ok group_rates)
    acc
  = Ok (acc ++ map (group_rate predictions col) groups).
Proof.
  intros Hget Hlen Hin. apply for_each_collect.
  intros acc' g Hg. rewrite Hget. cbn [ResultMonad.bind]. cbv zeta.
  rewrite (sum_eq_mask_pos _ _ (Hin g Hg)).
  rewrite index_ok by now rewrite eq_mask_length.
  reflexivity.
Qed.

Lemma is_disparity_in01 (predictions : list Z) (col : list string) (d : Q) :
  binary predictions -> is_disparity predictions col d -> in01 d.
Proof.
  intros Hb (hi & lo & Hhi & Hlo & Hd & Hbound).
  destruct (group_rate_in01 col hi Hb) as [_ H1].
  destruct (group_rate_in01 col lo Hb) as [H0 _].
  destruct (Hbound hi Hhi) as [Hle _].
  split; rewrite Hd; lra.
Qed.

Lemma is_disparity_unique (predictions : list Z) (col : list string)
  (d d' : Q) :
  is_disparity predictions col d -> is_disparity predictions col d' -> d == d'.
Proof.
  intros (hi & lo & Hhi & Hlo & Hd & Hbound)
         (hi' & lo' & Hhi' & Hlo' & Hd' & Hbound').
  destruct (Hbound hi' Hhi') as [A1 A2]. destruct (Hbound lo' Hlo') as [A3 A4].
  destruct (Hbound' hi Hhi) as [B1 B2]. destruct (Hbound' lo Hlo) as [B3 B4].
  rewrite Hd, Hd'. lra.
Qed.

(* One round of the loop over the attributes. *)
Lemma dp_round (self : MLModelBiasDetector) (predictions : list Z)
  (df : DataFrame) (attr : string) (col : list string) (max_bias : Q) :
  pd.getitem df attr = Ok col ->
  List.length predictions = List.length col ->
  exists s,
    (col <- pd.getitem df attr ;;
     let groups := pd.unique col in
     if (List.length groups <? 2)%nat then Ok max_bias
     else
       group_rates <-
         ResultMonad.for_each groups
           (fun group_rates group =>
              col <- pd.getitem df attr ;;
              let mask := pd.eq_mask col group in
              if (0 <? np.sum mask)%nat then
                group_preds <- np.index predictions mask ;;
                let positive_rate := np.mean_int group_preds in
                Ok (group_rates ++ [positive_rate])
              else Ok group_rates)
           [] ;;
       spread_into max_bias group_rates) = Ok s /\
    (((List.length (pd.unique col) < 2)%nat /\ s = max_bias) \/
     ((2 <= List.length (pd.unique col))%nat /\
      exists d, is_disparity predictions col d /\ s = py_max max_bias d)).
Proof.
  intros Hget Hlen. rewrite Hget. cbn [ResultMonad.bind].
  cbv zeta. destruct (Nat.ltb_spec (List.length (pd.unique col)) 2) as [H|H].
  - exists max_bias. auto.
  - rewrite (for_each_collect (group_rate predictions col)).
    2:{ intros acc' g Hg. cbn [ResultMonad.bind].
        rewrite (sum_eq_mask_pos col g) by now apply unique_In.
        rewrite index_ok by now rewrite eq_mask_length.
        reflexivity. }
    cbn [ResultMonad.bind app].
    destruct (spread_of_rates (group_rate predictions col) _ H)
      as (hi & lo & Hhi & Hlo & Hbound & Heq).
    rewrite Heq. eexists. split; [reflexivity|]. right. split; [exact H|].
    eexists. split; [|reflexivity].
    exists hi, lo. repeat split; auto; apply Hbound; auto.
Qed.

Lemma is_disparity_nonneg (predictions : list Z) (col : list string) (d : Q) :
  is_disparity predictions col d -> 0 <= d.
Proof.
  intros (hi & lo & Hhi & Hlo & Hd & Hbound).
  destruct (Hbound hi Hhi) as [Hle _]. rewrite Hd. lra.
Qed.

Lemma is_disparity_Qeq (predictions : list Z) (col : list string) (d d' : Q) :
  d == d' -> is_disparity predictions col d -> is_disparity predictions col d'.
Proof.
  intros E (hi & lo & Hhi & Hlo & Hd & Hbound).
  exists hi, lo. repeat split; auto; try apply Hbound; auto.
  now rewrite <- E.
Qed.

Lemma demographic_parity_spec (self : MLModelBiasDetector)
  (predictions : list Z) (df : DataFrame) :
  List.length predictions = df_len df ->
  (forall attr, In attr (protected_attributes self) ->
                pd.has_column df attr = true) ->
  pd.aligned df ->
  returns (_demographic_parity self predictions df)
    (max_disparity_over (protected_attributes self) predictions df).
Proof.
  intros Hlen Hcols Hwf. unfold returns, _demographic_parity.
  apply holds_for_each_prefix
    with (I := fun pre s => max_disparity_over pre predictions df s).
  - split; [lra|]. split; [intros ? ? ? []|].
    right. split; [reflexivity|]. intros ? ? [].
  - intros pre attr post b Hxs (Hb0 & Hub & Hatt).
    assert (Hattr : In attr (protected_attributes self)).
    { rewrite Hxs. apply in_or_app. right. now left. }
    destruct (getitem_ok df attr (Hcols attr Hattr)) as [col [Hget Hcol]].
    specialize (Hcol Hwf). cbv beta zeta.
    destruct (@dp_round self predictions df attr col b Hget
                (eq_trans Hlen (eq_sym Hcol)))
      as [s [E Hs]].
    cbv beta zeta in E. rewrite E. unfold holds.
    destruct Hs as [[Hsmall ->]|[Hbig [d [Hd ->]]]].
    + (* fewer than two groups: the attribute is skipped *)
      split; [exact Hb0|]. split.
      * intros a c d Ha Hc Hlen2 Hdisp.
        apply in_app_or in Ha. destruct Ha as [Ha|[<-|[]]]; [eauto|].
        rewrite Hget in Hc. injection Hc as <-. lia.
      * destruct Hatt as [(a & c & Ha & Hc & Hl & Hdisp)|[Hz Hnone]].
        -- left. exists a, c. repeat split; auto. apply in_or_app. now left.
        -- right. split; [exact Hz|]. intros a c Ha Hc.
           apply in_app_or in Ha. destruct Ha as [Ha|[<-|[]]]; [eauto|].
           rewrite Hget in Hc. injection Hc as <-. exact Hsmall.
    + (* two groups or more *)
      destruct (py_max_spec b d) as [Hsel [Hge_b Hge_d]].
      pose proof (is_disparity_nonneg Hd) as Hd0.
      split; [lra|]. split.
      * intros a c d' Ha Hc Hlen2 Hdisp.
        apply in_app_or in Ha. destruct Ha as [Ha|[<-|[]]].
        -- specialize (Hub a c d' Ha Hc Hlen2 Hdisp). lra.
        -- rewrite Hget in Hc. injection Hc as <-.
           rewrite (is_disparity_unique Hdisp Hd). exact Hge_d.
      * left. destruct Hsel as [Hsel|Hsel]; rewrite Hsel.
        -- destruct Hatt as [(a & c & Ha & Hc & Hl & Hdisp)|[Hz Hnone]].
           ++ exists a, c. repeat split; auto. apply in_or_app. now left.
           ++ exists attr, col. repeat split; auto.
              ** apply in_or_app. right. now left.
              ** apply is_disparity_Qeq with d; [|exact Hd].
                 rewrite Hsel in Hge_d. lra.
        -- exists attr, col. repeat split; auto.
           apply in_or_app. right. now left.
Qed.

Lemma max_disparity_in01 (attrs : list string) (predictions : list Z)
  (df : DataFrame) (s : Q) :
  binary predictions -> max_disparity_over attrs predictions df s -> in01 s.
Proof.
  intros Hb (H0 & _ & [(a & c & _ & _ & _ & Hd)|[Hz _]]).
  - exact (is_disparity_in01 Hb Hd).
  - split; rewrite Hz; lra.
Qed.

(** ** The other metrics return proportions *)

Ltac solve_len :=
  repeat first
    [ rewrite eq_mask_length
    | rewrite eq_int_length
    | rewrite in_bin_length
    | rewrite filter_mask_length by solve_len ];
  try congruence.

(* Run one [xs[mask]] whose shapes agree. *)
Ltac run_index :=
  rewrite index_ok by solve_len; cbn [ResultMonad.bind].

Lemma Forall_snoc {A} (P : A -> Prop) (xs : list A) (x : A) :
  Forall P xs -> P x -> Forall P (xs ++ [x]).
Proof. intros H Hx. apply Forall_app. auto. Qed.

Section ValidBatch.
Variable self : MLModelBiasDetector.
Variables predictions true_labels : list Z.
Variable df : DataFrame.
Hypothesis Hvalid : valid_batch self predictions true_labels df.
Hypothesis Hwf : pd.aligned df.

Lemma valid_column (attr : string) :
  In attr (protected_attributes self) ->
  exists col, pd.getitem df attr = Ok col /\
              List.length predictions = List.length col /\
              List.length true_labels = List.length col.
Proof.
  intro Hattr. destruct Hvalid as (H1 & H2 & H3 & _).
  destruct (getitem_ok df attr (H3 attr Hattr)) as [col [Hget Hlen]].
  exists col. specialize (Hlen Hwf). repeat split; congruence.
Qed.

Lemma tpr_in01 (mask : list bool) (v : Z) :
  in01 (np.mean_int
          (np.filter_mask (np.filter_mask predictions mask)
             (np.eq_int (np.filter_mask true_labels mask) v))).
Proof.
  apply mean_int_in01. do 2 apply filter_mask_Forall. apply Hvalid.
Qed.

Lemma demographic_parity_in01 :
  returns (_demographic_parity self predictions df) in01.
Proof.
  destruct Hvalid as (H1 & H2 & H3 & H4 & H5).
  eapply holds_mono; [|apply demographic_parity_spec; auto].
  intros s Hs. exact (max_disparity_in01 H4 Hs).
Qed.

Lemma equalized_odds_in01 :
  returns (_equalized_odds self predictions true_labels df) in01.
Proof.
  unfold returns, _equalized_odds.
  apply holds_for_each; [split; lra|].
  intros attr b Hattr Hb.
  destruct (@valid_column attr Hattr) as (col & Hget & Hlp & Hll).
  rewrite Hget. cbn [ResultMonad.bind]. cbv zeta.
  destruct (_ <? 2)%nat; [exact Hb|].
  apply holds_bind.
  eapply holds_mono;
    [|apply holds_for_each
        with (I := fun sc => Forall in01 (fst sc) /\ Forall in01 (snd sc))].
  - intros [tpr fpr] [Ht Hf]. cbn [fst snd] in *.
    apply holds_bind.
    eapply holds_mono; [|apply (spread_into_in01 Hb Ht)].
    intros b' Hb'. apply (spread_into_in01 Hb' Hf).
  - split; constructor.
  - intros g [tpr fpr] Hg [Ht Hf]. cbn [fst snd] in *.
    destruct (0 <? np.sum (pd.eq_mask col g))%nat; [|split; assumption].
    do 2 run_index.
    destruct (0 <? np.sum (np.eq_int _ 1))%nat;
      destruct (0 <? np.sum (np.eq_int _ 0))%nat;
      repeat run_index; cbn [holds fst snd]; split;
      auto using Forall_snoc, tpr_in01.
Qed.

Lemma equal_opportunity_in01 :
  returns (_equal_opportunity self predictions true_labels df) in01.
Proof.
  unfold returns, _equal_opportunity.
  apply holds_for_each; [split; lra|].
  intros attr b Hattr Hb.
  destruct (@valid_column attr Hattr) as (col & Hget & Hlp & Hll).
  rewrite Hget. cbn [ResultMonad.bind]. cbv zeta.
  destruct (_ <? 2)%nat; [exact Hb|].
  apply holds_bind.
  eapply holds_mono; [|apply holds_for_each with (I := Forall in01)].
  - intros tpr Ht. apply (spread_into_in01 Hb Ht).
  - constructor.
  - intros g tpr Hg Ht.
    destruct (0 <? np.sum (pd.eq_mask col g))%nat; [|assumption].
    do 2 run_index.
    destruct (0 <? np.sum (np.eq_int _ 1))%nat;
      repeat run_index; cbn [holds]; auto using Forall_snoc, tpr_in01.
Qed.
End ValidBatch.

(** ** Dictionaries *)

Lemma dict_set_Forall {V} (P : V -> Prop) (k : string) (v : V) (d : dict V) :
  P v -> Forall P (Dict.values d) -> Forall P (Dict.values (Dict.set k v d)).
Proof.
  intro Hv. unfold Dict.values.
  induction d as [|[k' v'] d IH]; simpl; intro H.
  - repeat constructor. exact Hv.
  - inversion H; subst. destruct (String.eqb k k'); simpl; constructor; auto.
Qed.

Lemma dict_update_Forall {V} (P : V -> Prop) (d other : dict V) :
  Forall P (Dict.values d) -> Forall P (Dict.values other) ->
  Forall P (Dict.values (Dict.update d other)).
Proof.
  unfold Dict.update. revert d.
  induction other as [|[k v] other IH]; simpl; intros d Hd Ho; [exact Hd|].
  inversion Ho; subst. apply IH; [|assumption].
  now apply dict_set_Forall.
Qed.

Lemma dict_get_set_same {V} (k : string) (v : V) (d : dict V) :
  Dict.get k (Dict.set k v d) = Some v.
Proof.
  induction d as [|[k' v'] d IH]; simpl.
  - now rewrite String.eqb_refl.
  - destruct (String.eqb k k') eqn:E; simpl; rewrite E; auto.
Qed.

Lemma dict_get_set_other {V} (k k' : string) (v : V) (d : dict V) :
  k <> k' -> Dict.get k (Dict.set k' v d) = Dict.get k d.
Proof.
  intro Hne. induction d as [|[k'' v''] d IH]; simpl.
  - destruct (String.eqb_spec k k'); [contradiction|reflexivity].
  - destruct (String.eqb_spec k' k'') as [->|Hne']; simpl.
    + destruct (String.eqb_spec k k''); [contradiction|reflexivity].
    + now rewrite IH.
Qed.

Lemma dict_get_In_values {V} (k : string) (v : V) (d : dict V) :
  Dict.get k d = Some v -> In v (Dict.values d).
Proof.
  unfold Dict.values. induction d as [|[k' v'] d IH]; simpl; [discriminate|].
  destruct (String.eqb k k'); [intros [= ->]; now left|auto].
Qed.

(** ** Calibration and the group scores *)

Lemma index_raise {A} (xs : list A) (mask : list bool) :
  List.length xs <> List.length mask ->
  exists e, np.index xs mask = Raise e.
Proof.
  intro H. unfold np.index.
  destruct (Nat.eqb_spec (List.length xs) (List.length mask));
    [contradiction|eauto].
Qed.

Lemma bins_in01 (i : nat) :
  In i (seq 0 (List.length np.linspace_0_1_11 - 1)) ->
  0 <= nth i np.linspace_0_1_11 0 /\ nth (i + 1) np.linspace_0_1_11 0 <= 1.
Proof.
  intro H. vm_compute in H.
  repeat (destruct H as [<-|H]; [split; vm_compute; discriminate|]).
  destruct H.
Qed.

Lemma bin_members_in01 (xs : list Q) (i : nat) :
  In i (seq 0 (List.length np.linspace_0_1_11 - 1)) ->
  Forall in01
    (np.filter_mask xs
       (np.in_bin xs (nth i np.linspace_0_1_11 0)
          (nth (i + 1) np.linspace_0_1_11 0))).
Proof.
  intro Hi. destruct (@bins_in01 i Hi) as [Hlo Hhi].
  eapply Forall_impl; [|apply filter_mask_in_bin].
  intros x [H1 H2]. split; lra.
Qed.

Lemma abs_diff_in01 (a b : Q) : in01 a -> in01 b -> in01 (Qabs (a - b)).
Proof.
  intros [Ha0 Ha1] [Hb0 Hb1]. split; [apply Qabs_nonneg|].
  apply Qabs_Qle_condition. split; lra.
Qed.

Section ValidBatchMore.
Variable self : MLModelBiasDetector.
Variables predictions true_labels : list Z.
Variable df : DataFrame.
Hypothesis Hvalid : valid_batch self predictions true_labels df.
Hypothesis Hwf : pd.aligned df.

(* With probabilities of the wrong shape the first mask raises; otherwise
   the score is a proportion, whatever the probabilities are. *)
Lemma calibration_in01 (probabilities : list Q) :
  holds (List.length probabilities <> df_len df)
    (_calibration self probabilities true_labels df) in01.
Proof.
  unfold _calibration. cbv zeta.
  apply holds_for_each; [split; lra|].
  intros attr b Hattr Hb.
  destruct (@valid_column _ _ _ _ Hvalid Hwf attr Hattr) as (col & Hget & Hlp & Hll).
  rewrite Hget. cbn [ResultMonad.bind].
  destruct (_ <? 2)%nat; [exact Hb|].
  apply holds_bind.
  eapply holds_mono; [|apply holds_for_each with (I := Forall in01)].
  - intros gc Hgc. apply returns_holds, (spread_into_in01 Hb Hgc).
  - constructor.
  - intros g gc Hg Hgc.
    destruct (0 <? np.sum (pd.eq_mask col g))%nat; [|assumption].
    destruct (Nat.eq_dec (List.length probabilities) (List.length col))
      as [Hlq|Hlq].
    2:{ destruct (@index_raise _ probabilities (pd.eq_mask col g)) as [e ->].
        - now rewrite eq_mask_length.
        - cbn [ResultMonad.bind holds].
          destruct Hvalid as (_ & H2 & _). congruence. }
    do 2 run_index.
    apply holds_bind.
    eapply holds_mono; [|apply holds_for_each with (I := Forall in01)].
    + intros [|e errs] Herrs; cbn [holds]; [assumption|].
      apply Forall_snoc; [assumption|]. now apply mean_in01.
    + constructor.
    + intros i errs Hi Herrs.
      destruct (0 <? np.sum (np.in_bin _ _ _))%nat; [|assumption].
      do 2 run_index. cbn [holds].
      apply Forall_snoc; [assumption|].
      apply abs_diff_in01.
      * apply mean_in01. now apply bin_members_in01.
      * apply mean_int_in01. do 2 apply filter_mask_Forall. apply Hvalid.
Qed.

Lemma compute_group_bias_in01 (metric : BiasMetric) :
  returns (_compute_group_bias self metric predictions true_labels df)
    (fun group_scores => Forall in01 (Dict.values group_scores)).
Proof.
  unfold returns, _compute_group_bias.
  apply holds_for_each; [constructor|].
  intros attr gs Hattr Hgs.
  destruct (@valid_column _ _ _ _ Hvalid Hwf attr Hattr) as (col & Hget & Hlp & Hll).
  rewrite Hget. cbn [ResultMonad.bind]. cbv zeta.
  apply holds_for_each; [assumption|].
  intros g gs' Hg Hgs'.
  destruct (0 <? np.sum (pd.eq_mask col g))%nat; [|assumption].
  assert (Hzero : in01 0) by (split; lra).
  assert (Hb : binary predictions) by apply Hvalid.
  destruct metric.
  - run_index. apply dict_set_Forall; [|assumption].
    apply mean_int_in01. now apply filter_mask_Forall.
  - run_index.
    destruct (0 <? np.sum (np.eq_int _ 1))%nat;
      repeat run_index; apply dict_set_Forall;
      auto; apply (tpr_in01 Hvalid).
  - run_index.
    destruct (0 <? np.sum (np.eq_int _ 1))%nat;
      repeat run_index; apply dict_set_Forall;
      auto; apply (tpr_in01 Hvalid).
  - cbn [ResultMonad.bind]. now apply dict_set_Forall.
  - cbn [ResultMonad.bind]. now apply dict_set_Forall.
Qed.
End ValidBatchMore.

(** ** The loop over the metrics *)

Lemma value_inj (m m' : BiasMetric) : value m = value m' -> m = m'.
Proof. destruct m, m'; intro H; try reflexivity; discriminate H. Qed.

Lemma dict_keys_set {V} (k : string) (v : V) (d : dict V) :
  Dict.keys (Dict.set k v d) =
  if existsb (String.eqb k) (Dict.keys d) then Dict.keys d
  else Dict.keys d ++ [k].
Proof.
  unfold Dict.keys. induction d as [|[k' v'] d IH]; simpl; [reflexivity|].
  destruct (String.eqb k k') eqn:E; simpl; [reflexivity|].
  rewrite IH. now destruct (existsb _ _).
Qed.

Lemma dict_keys_set_In {V} (k k' : string) (v : V) (d : dict V) :
  In k' (Dict.keys (Dict.set k v d)) <-> k' = k \/ In k' (Dict.keys d).
Proof.
  rewrite dict_keys_set. destruct (existsb _ _) eqn:E.
  - split; [auto|]. intros [->|H]; [|exact H].
    apply existsb_exists in E. destruct E as [x [Hx Ex]].
    apply String.eqb_eq in Ex. rewrite Ex. exact Hx.
  - rewrite in_app_iff. simpl. intuition.
Qed.

Lemma dict_keys_set_NoDup {V} (k : string) (v : V) (d : dict V) :
  NoDup (Dict.keys d) -> NoDup (Dict.keys (Dict.set k v d)).
Proof.
  intro H. rewrite dict_keys_set. destruct (existsb _ _) eqn:E; [exact H|].
  apply NoDup_app; [exact H|repeat constructor; auto|].
  intros x Hx [->|[]].
  assert (existsb (String.eqb x) (Dict.keys d) = true); [|congruence].
  apply existsb_exists. exists x. split; [exact Hx|apply String.eqb_refl].
Qed.

Lemma dict_get_keys {V} (k : string) (d : dict V) :
  In k (Dict.keys d) <-> Dict.get k d <> None.
Proof.
  unfold Dict.keys. induction d as [|[k' v'] d IH]; simpl; [tauto|].
  destruct (String.eqb_spec k k') as [->|Hne].
  - split; [discriminate|auto].
  - rewrite <- IH. split; [intros [H|H]; congruence|auto].
Qed.

Lemma compute_bias_metric_run (self : MLModelBiasDetector)
  (metric : BiasMetric) (predictions true_labels : list Z) (df : DataFrame)
  (probabilities : option (list Q)) (l : log) :
  _compute_bias_metric self metric predictions true_labels df probabilities l
  = (metric_result self metric predictions true_labels df probabilities,
     l ++ skip_warning metric probabilities).
Proof.
  unfold metric_result, _compute_bias_metric, skip_warning, LogMonad.lift.
  destruct metric; try (now rewrite app_nil_r).
  destruct probabilities; [now rewrite app_nil_r|reflexivity].
Qed.

Lemma detect_bias_step_run (self : MLModelBiasDetector)
  (predictions true_labels : list Z) (df : DataFrame)
  (probabilities : option (list Q)) (ms gs : dict Q) (metric : BiasMetric)
  (l : log) :
  detect_bias_step self predictions true_labels df probabilities (ms, gs)
    metric l
  = (s <- metric_result self metric predictions true_labels df probabilities ;;
     g <- _compute_group_bias self metric predictions true_labels df ;;
     Ok (Dict.set (value metric) s ms, Dict.update gs g),
     l ++ skip_warning metric probabilities).
Proof.
  unfold detect_bias_step, LogMonad.bind, LogMonad.lift, LogMonad.ret.
  rewrite compute_bias_metric_run.
  destruct (metric_result _ _ _ _ _ _); [|reflexivity].
  cbn [ResultMonad.bind].
  destruct (_compute_group_bias _ _ _ _ _); reflexivity.
Qed.

Section MetricLoop.
Variable self : MLModelBiasDetector.
Variables predictions true_labels : list Z.
Variable df : DataFrame.
Variable probabilities : option (list Q).
Hypothesis Hvalid : valid_batch self predictions true_labels df.
Hypothesis Hwf : pd.aligned df.

Lemma metric_result_in01 (metric : BiasMetric) :
  holds (misaligned probabilities df)
    (metric_result self metric predictions true_labels df probabilities)
    in01.
Proof.
  unfold metric_result, _compute_bias_metric, LogMonad.lift.
  destruct metric; cbn [fst].
  - apply returns_holds, (demographic_parity_in01 Hvalid Hwf).
  - apply returns_holds, (equalized_odds_in01 Hvalid Hwf).
  - apply returns_holds, (equal_opportunity_in01 Hvalid Hwf).
  - destruct probabilities as [ps|]; cbn.
    + apply (calibration_in01 Hvalid Hwf).
    + split; lra.
  - apply returns_holds, (demographic_parity_in01 Hvalid Hwf).
Qed.

Lemma metric_loop_spec (l0 : log) :
  holdsM (misaligned probabilities df)
    (LogMonad.for_each (metrics self)
       (detect_bias_step self predictions true_labels df probabilities)
       ([], []))
    l0
    (scores_after self predictions true_labels df probabilities l0
       (metrics self)).
Proof.
  apply holdsM_for_each_prefix.
  - unfold scores_after; cbn. repeat split; try constructor.
    + intros m [].
    + intros k [].
    + now rewrite app_nil_r.
  - intros pre m post [ms gs] l _ (Hget & Hkeys & Hnd & Hlog & Hms & Hgs).
    cbn [fst snd] in *.
    unfold holdsM. rewrite detect_bias_step_run.
    pose proof (metric_result_in01 m) as Hres.
    destruct (metric_result self m _ _ _ _) as [s|e] eqn:Es;
      cbn [ResultMonad.bind holds] in *; [|exact Hres].
    pose proof (compute_group_bias_in01 Hvalid Hwf m) as Hgrp.
    unfold returns in Hgrp.
    destruct (_compute_group_bias self m _ _ _) as [g|e];
      cbn [ResultMonad.bind holds] in *; [|contradiction].
    unfold scores_after. cbn [fst snd]. repeat split.
    + intros m' Hm'. apply in_app_or in Hm'.
      destruct (String.eqb_spec (value m') (value m)) as [E|E].
      * apply value_inj in E. subst m'. exists s.
        split; [apply dict_get_set_same|exact Es].
      * destruct Hm' as [Hm'|[->|[]]]; [|congruence].
        destruct (Hget m' Hm') as [s' [Hs' Hr']].
        exists s'. split; [|exact Hr'].
        now rewrite dict_get_set_other.
    + intros k Hk. apply dict_keys_set_In in Hk.
      destruct Hk as [->|Hk].
      * exists m. split; [|reflexivity]. apply in_or_app. right. now left.
      * destruct (Hkeys k Hk) as [m' [Hm' ->]].
        exists m'. split; [|reflexivity]. apply in_or_app. now left.
    + now apply dict_keys_set_NoDup.
    + rewrite Hlog, flat_map_app, app_assoc. cbn [flat_map].
      now rewrite app_nil_r.
    + now apply dict_set_Forall.
    + now apply dict_update_Forall.
Qed.
End MetricLoop.

(** ** [detect_bias] as a whole *)

Lemma detect_bias_run (self : MLModelBiasDetector) (now : string)
  (predictions true_labels : list Z) (df : DataFrame)
  (probabilities : option (list Q)) (l : log) :
  detect_bias self now predictions true_labels df probabilities l =
  match _validate_inputs self predictions true_labels df with
  | Raise e => (Raise e, l ++ [(ERROR, MsgFailed (model_name self) e)])
  | Ok _ =>
      match
        LogMonad.for_each (metrics self)
          (detect_bias_step self predictions true_labels df probabilities)
          ([], []) l
      with
      | (Raise e, l1) =>
          (Raise e, l1 ++ [(ERROR, MsgFailed (model_name self) e)])
      | (Ok (ms, gs), l1) =>
          (Ok (report_of self now predictions ms gs),
           l1 ++ [(INFO,
                   MsgCompleted (model_name self)
                     (np.mean (Dict.values ms)))])
      end
  end.
Proof.
  unfold detect_bias, LogMonad.try_reraise, LogMonad.bind, LogMonad.lift,
    LogMonad.emit, LogMonad.ret.
  destruct (_validate_inputs self predictions true_labels df); [|reflexivity].
  destruct (LogMonad.for_each _ _ _ l) as [[[ms gs]|e] l1]; reflexivity.
Qed.

(* A report comes out of a valid batch and of the loop over the metrics. *)
Lemma detect_bias_Ok_inv (self : MLModelBiasDetector) (now : string)
  (predictions true_labels : list Z) (df : DataFrame)
  (probabilities : option (list Q)) (l l' : log) (r : BiasDetectionResult) :
  detect_bias self now predictions true_labels df probabilities l = (Ok r, l') ->
  valid_batch self predictions true_labels df /\
  exists ms gs l1,
    LogMonad.for_each (metrics self)
      (detect_bias_step self predictions true_labels df probabilities)
      ([], []) l = (Ok (ms, gs), l1) /\
    r = report_of self now predictions ms gs /\
    l' = l1 ++ [(INFO, MsgCompleted (model_name self)
                         (np.mean (Dict.values ms)))].
Proof.
  rewrite detect_bias_run.
  destruct (_validate_inputs self predictions true_labels df) as [[]|e] eqn:Ev;
    [|discriminate].
  apply validate_inputs_ok in Ev.
  destruct (LogMonad.for_each _ _ _ l) as [[[ms gs]|e] l1]; [|discriminate].
  intros [= <- <-]. split; [exact Ev|].
  exists ms, gs, l1. auto.
Qed.

(* The same, with what the loop guarantees. *)
Lemma detect_bias_Ok_scores (self : MLModelBiasDetector) (now : string)
  (predictions true_labels : list Z) (df : DataFrame)
  (probabilities : option (list Q)) (l l' : log) (r : BiasDetectionResult) :
  pd.aligned df ->
  detect_bias self now predictions true_labels df probabilities l = (Ok r, l') ->
  exists ms gs l1,
    scores_after self predictions true_labels df probabilities l
      (metrics self) (ms, gs) l1 /\
    r = report_of self now predictions ms gs /\
    l' = l1 ++ [(INFO, MsgCompleted (model_name self)
                         (np.mean (Dict.values ms)))].
Proof.
  intros Hwf H. apply detect_bias_Ok_inv in H.
  destruct H as (Hvalid & ms & gs & l1 & Hloop & Hr & Hl).
  exists ms, gs, l1. split; [|auto].
  pose proof (metric_loop_spec probabilities Hvalid Hwf l) as Hspec.
  unfold holdsM in Hspec. now rewrite Hloop in Hspec.
Qed.

(* On a valid batch, with probabilities absent or aligned, a report is
   returned. *)
Lemma detect_bias_returns (self : MLModelBiasDetector) (now : string)
  (predictions true_labels : list Z) (df : DataFrame)
  (probabilities : option (list Q)) (l : log) :
  valid_batch self predictions true_labels df ->
  pd.aligned df ->
  ~ misaligned probabilities df ->
  exists r l',
    detect_bias self now predictions true_labels df probabilities l
    = (Ok r, l').
Proof.
  intros Hvalid Hwf Hal. rewrite detect_bias_run.
  apply validate_inputs_ok in Hvalid as Ev. rewrite Ev.
  pose proof (metric_loop_spec probabilities Hvalid Hwf l) as Hspec.
  unfold holdsM in Hspec.
  destruct (LogMonad.for_each _ _ _ l) as [[[ms gs]|e] l1]; [eauto|tauto].
Qed.

Lemma init_run (name : string) (attrs : list string) (thr : Q)
  (ms : option (list BiasMetric)) (l : log) :
  exists d,
    __init__ name attrs thr ms l = (Ok d, l ++ [(INFO, MsgInitialized name)]) /\
    model_name d = name /\ protected_attributes d = attrs /\
    threshold d = thr /\
    metrics d = match ms with
                | Some (m :: ms') => m :: ms'
                | _ => list_BiasMetric
                end.
Proof.
  unfold __init__, LogMonad.bind, LogMonad.emit, LogMonad.ret.
  eexists. split; [reflexivity|].
  unfold _initialize_detectors. cbn [metrics].
  set (given := match ms with Some (m :: ms') => m :: ms' | _ => _ end).
  assert (G : forall todo d,
             let d' :=
               fold_left
                 (fun s metric =>
                    {| model_name := model_name s;
                       protected_attributes := protected_attributes s;
                       threshold := threshold s;
                       metrics := metrics s;
                       detectors :=
                         Dict.set (value metric)
                           (_get_detector_config s metric) (detectors s) |})
                 todo d in
             model_name d' = model_name d /\
             protected_attributes d' = protected_attributes d /\
             threshold d' = threshold d /\ metrics d' = metrics d).
  { induction todo as [|m todo IH]; intro d; cbn; [auto|].
    destruct (IH {| model_name := model_name d;
                    protected_attributes := protected_attributes d;
                    threshold := threshold d;
                    metrics := metrics d;
                    detectors :=
                      Dict.set (value m) (_get_detector_config d m)
                        (detectors d) |}) as (H1 & H2 & H3 & H4).
    auto. }
  destruct ms as [[|m ms']|]; apply G.
Qed.

Lemma scenario_detector_init :
  __init__ "model" ["attr"] default_threshold None []
  = (Ok scenario_detector, [(INFO, MsgInitialized "model")]).
Proof. reflexivity. Qed.

Lemma scenario_valid :
  valid_batch scenario_detector scenario_predictions scenario_labels
    scenario_df.
Proof. apply validate_inputs_ok. reflexivity. Qed.

Lemma scenario_aligned : pd.aligned scenario_df.
Proof. repeat constructor. Qed.

(** ** The code's means are arithmetic means *)

Lemma Qsum_total (xs : list Q) (a : Q) :
  fold_left Qplus xs a == a + np.total xs.
Proof.
  revert a. induction xs as [|x xs IH]; intro a; cbn [fold_left].
  - change (np.total []) with 0. ring.
  - rewrite IH. change (np.total (x :: xs)) with (x + np.total xs). ring.
Qed.

Lemma mean_arithmetic (xs : list Q) : np.mean xs == arithmetic_mean xs.
Proof.
  unfold np.mean, arithmetic_mean, Qsum, Qdiv.
  rewrite (Qsum_total xs 0). ring.
Qed.

Lemma total_inject (xs : list Z) (a : Z) :
  inject_Z (fold_left Z.add xs a)
  == inject_Z a + np.total (map inject_Z xs).
Proof.
  revert a. induction xs as [|x xs IH]; intro a; cbn [fold_left map].
  - change (np.total []) with 0. ring.
  - rewrite IH, inject_Z_plus.
    change (np.total (inject_Z x :: map inject_Z xs))
      with (inject_Z x + np.total (map inject_Z xs)).
    ring.
Qed.

Lemma filter_mask_group (predictions : list Z) (col : list string)
  (g : string) :
  List.length predictions = List.length col ->
  np.filter_mask predictions (pd.eq_mask col g)
  = group_predictions predictions col g.
Proof.
  unfold group_predictions, pd.eq_mask. revert predictions.
  induction col as [|c col IH]; intros [|p predictions] H;
    try discriminate H; [reflexivity|].
  injection H as H. cbn [map combine filter fst np.filter_mask].
  destruct (String.eqb c g); cbn [map snd]; now rewrite IH.
Qed.

(* The rate the code computes is the sum over the count. *)
Lemma group_rate_positive_rate (predictions : list Z) (col : list string)
  (g : string) :
  List.length predictions = List.length col ->
  group_rate predictions col g == positive_rate predictions col g.
Proof.
  intro H. unfold group_rate, positive_rate, np.mean_int, np.mean, Qdiv.
  rewrite (@filter_mask_group predictions col g H), length_map.
  rewrite (total_inject (group_predictions predictions col g) 0).
  change (inject_Z 0) with 0. ring.
Qed.

Lemma unique_NoDup (col : list string) : NoDup (pd.unique col).
Proof.
  induction col as [|x col IH]; cbn [pd.unique]; constructor.
  - rewrite filter_In, String.eqb_refl. intros [_ H]. discriminate H.
  - now apply NoDup_filter.
Qed.

Lemma two_groups_unique (col : list string) :
  two_groups col <-> (2 <= List.length (pd.unique col))%nat.
Proof.
  split.
  - intros (g1 & g2 & H1 & H2 & Hne).
    apply (proj2 (@unique_In col g1)) in H1.
    apply (proj2 (@unique_In col g2)) in H2.
    destruct (pd.unique col) as [|a [|b rest]]; cbn [List.length]; try lia.
    + destruct H1.
    + destruct H1 as [<-|[]], H2 as [<-|[]]. now destruct Hne.
  - intro H. pose proof (unique_NoDup col) as Hnd.
    destruct (pd.unique col) as [|a [|b rest]] eqn:E;
      cbn [List.length] in H; try lia.
    exists a, b. split; [|split].
    + apply (proj1 (@unique_In col a)). rewrite E. now left.
    + apply (proj1 (@unique_In col b)). rewrite E. right. now left.
    + intros ->. inversion Hnd as [|? ? Hnot _]. apply Hnot. now left.
Qed.

Lemma is_disparity_disparity (predictions : list Z) (col : list string)
  (d : Q) :
  List.length predictions = List.length col ->
  is_disparity predictions col d <-> disparity predictions col d.
Proof.
  intro Hlen.
  assert (R : forall g, group_rate predictions col g
                        == positive_rate predictions col g).
  { intro g. now apply group_rate_positive_rate. }
  split; intros (hi & lo & Hhi & Hlo & Hd & Hbound); exists hi, lo.
  - apply (proj1 (@unique_In col hi)) in Hhi.
    apply (proj1 (@unique_In col lo)) in Hlo.
    split; [exact Hhi|]. split; [exact Hlo|].
    split; [now rewrite <- !R|].
    intros g Hg. rewrite <- !R. apply Hbound.
    now apply (proj2 (@unique_In col g)).
  - split; [now apply (proj2 (@unique_In col hi))|].
    split; [now apply (proj2 (@unique_In col lo))|].
    split; [now rewrite !R|].
    intros g Hg. rewrite !R. apply Hbound.
    now apply (proj1 (@unique_In col g)).
Qed.

Lemma max_disparity_maximum (attrs : list string) (predictions : list Z)
  (df : DataFrame) (s : Q) :
  (forall attr col,
      In attr attrs -> pd.getitem df attr = Ok col ->
      List.length predictions = List.length col) ->
  max_disparity_over attrs predictions df s ->
  maximum_disparity attrs predictions df s.
Proof.
  intros Hlen (H0 & Hub & Hatt). split; [exact H0|]. split.
  - intros attr col d Hattr Hget Htwo Hd.
    apply (Hub attr col d Hattr Hget); [now apply two_groups_unique|].
    now apply is_disparity_disparity; [apply (Hlen attr)|].
  - destruct Hatt as [(attr & col & Hattr & Hget & Hbig & Hd)|[Hz Hnone]].
    + left. exists attr, col. split; [exact Hattr|]. split; [exact Hget|].
      split; [now apply two_groups_unique|].
      now apply is_disparity_disparity; [apply (Hlen attr)|].
    + right. split; [exact Hz|]. intros attr col Hattr Hget Htwo.
      apply two_groups_unique in Htwo.
      specialize (Hnone attr col Hattr Hget). lia.
Qed.

Lemma valid_lengths (self : MLModelBiasDetector)
  (predictions true_labels : list Z) (df : DataFrame) :
  valid_batch self predictions true_labels df ->
  pd.aligned df ->
  forall attr col,
    In attr (protected_attributes self) -> pd.getitem df attr = Ok col ->
    List.length predictions = List.length col.
Proof.
  intros Hvalid Hal attr col Hattr Hget.
  destruct (@valid_column _ _ _ _ Hvalid Hal attr Hattr)
    as (col' & Hget' & Hlp & _).
  rewrite Hget in Hget'. injection Hget' as <-. exact Hlp.
Qed.

Lemma scenario_wf : pd.wf scenario_df.
Proof.
  split; [exact scenario_aligned|]. repeat constructor. intros [].
Qed.

(** * The claims *)

(** C1. Demographic parity: on a validated batch over a frame of distinct
    column names [_demographic_parity] returns a score. The rate of a
    group is the sum of the predictions of its rows over the number of its
    rows; the disparity of an attribute is the largest rate of its groups
    minus the smallest; the score is the largest disparity among the
    configured attributes that have two distinct values at least, those
    with fewer being skipped, and 0 when every attribute is skipped. For
    predictions [1,1,0,0] and the single attribute [a,a,b,b] the score
    is 1. *)
Theorem C1_demographic_parity (self : MLModelBiasDetector)
  (predictions true_labels : list Z) (df : DataFrame) :
  valid_batch self predictions true_labels df ->
  pd.wf df ->
  (exists s,
      _demographic_parity self predictions df = Ok s /\
      maximum_disparity (protected_attributes self) predictions df s) /\
  (forall d,
      protected_attributes d = ["attr"] ->
      exists s,
        _demographic_parity d scenario_predictions scenario_df = Ok s /\
        s == 1).
Proof.
  intros Hvalid [Hal _]. split.
  - destruct Hvalid as (H1 & Hlen & Hcols & H4 & H5).
    destruct (returns_inv _ _
                (@demographic_parity_spec self predictions df Hlen Hcols
                   Hal))
      as (s & Hrun & Hs).
    exists s. split; [exact Hrun|].
    apply max_disparity_maximum; [|exact Hs].
    apply (@valid_lengths self predictions true_labels df); [|exact Hal].
    repeat split; assumption.
  - intros d Hd. unfold _demographic_parity. rewrite Hd.
    exists (4 # 4). split; reflexivity.
Qed.

Lemma C1_demographic_parity_witness :
  valid_batch scenario_detector scenario_predictions scenario_labels
    scenario_df /\
  pd.wf scenario_df /\
  (exists s,
      _demographic_parity scenario_detector scenario_predictions scenario_df
      = Ok s /\
      maximum_disparity (protected_attributes scenario_detector)
        scenario_predictions scenario_df s) /\
  (forall d,
      protected_attributes d = ["attr"] ->
      exists s,
        _demographic_parity d scenario_predictions scenario_df = Ok s /\
        s == 1).
Proof.
  split; [exact scenario_valid|]. split; [exact scenario_wf|].
  apply (C1_demographic_parity scenario_valid scenario_wf).
Defined.

(** C2. In every report [detect_bias] returns, [overall_bias_score] is the
    arithmetic mean of the values of [metric_scores], their sum over their
    number; every configured metric has its entry there, a calibration
    skipped for want of probabilities with the value 0; and
    [bias_detected] holds exactly when the overall score is strictly
    greater than the threshold. *)
Theorem C2_overall_bias_score (self : MLModelBiasDetector) (now : string)
  (predictions true_labels : list Z) (df : DataFrame)
  (probabilities : option (list Q)) (l l' : log) (r : BiasDetectionResult) :
  pd.aligned df ->
  detect_bias self now predictions true_labels df probabilities l = (Ok r, l') ->
  overall_bias_score r
  == Qsum (Dict.values (metric_scores r))
     / inject_Z (Z.of_nat (List.length (Dict.values (metric_scores r)))) /\
  (forall m, In m (metrics self) ->
             exists s, Dict.get (value m) (metric_scores r) = Some s /\
                       In s (Dict.values (metric_scores r))) /\
  (In CALIBRATION (metrics self) -> probabilities = None ->
   Dict.get "calibration" (metric_scores r) = Some 0) /\
  (bias_detected r = true <-> threshold self < overall_bias_score r) /\
  threshold_exceeded r = bias_detected r.
Proof.
  intros Hwf H.
  destruct (detect_bias_Ok_scores _ _ _ _ _ _ Hwf H)
    as (ms & gs & l1 & (Hget & _) & -> & _).
  cbn [fst] in Hget. cbn.
  split; [apply mean_arithmetic|].
  split; [|split; [|split; [apply Qltb_lt|reflexivity]]].
  - intros m Hm. destruct (Hget m Hm) as [s [Hs _]].
    exists s. split; [exact Hs|]. now apply dict_get_In_values with (value m).
  - intros Hc ->. destruct (Hget CALIBRATION Hc) as [s [Hs Hr]].
    cbn in Hr. injection Hr as <-. exact Hs.
Qed.

Lemma C2_overall_bias_score_witness :
  exists r l',
    pd.aligned scenario_df /\
    detect_bias scenario_detector scenario_now scenario_predictions
      scenario_labels scenario_df None [] = (Ok r, l') /\
    overall_bias_score r
    == Qsum (Dict.values (metric_scores r))
       / inject_Z (Z.of_nat (List.length (Dict.values (metric_scores r)))) /\
    (forall m, In m (metrics scenario_detector) ->
               exists s, Dict.get (value m) (metric_scores r) = Some s /\
                         In s (Dict.values (metric_scores r))) /\
    (In CALIBRATION (metrics scenario_detector) ->
     @None (list Q) = None ->
     Dict.get "calibration" (metric_scores r) = Some 0) /\
    (bias_detected r = true <->
     threshold scenario_detector < overall_bias_score r) /\
    threshold_exceeded r = bias_detected r.
Proof.
  do 2 eexists. split; [exact scenario_aligned|].
  split; [reflexivity|].
  apply (@C2_overall_bias_score scenario_detector scenario_now
           scenario_predictions scenario_labels scenario_df None [] _ _
           scenario_aligned eq_refl).
Defined.

Lemma check_columns_raise (df : DataFrame) (attrs : list string) (u : unit)
  (e : exn) :
  ResultMonad.for_each attrs
    (fun _ attr =>
       if negb (pd.has_column df attr) then Raise (missing_attribute attr)
       else Ok tt)
    u = Raise e ->
  exists attr,
    In attr attrs /\ pd.has_column df attr = false /\
    e = missing_attribute attr.
Proof.
  revert u. induction attrs as [|a attrs IH]; intros u H; [discriminate|].
  rewrite for_each_cons in H.
  destruct (pd.has_column df a) eqn:E; cbn [negb ResultMonad.bind] in H.
  - destruct (IH tt H) as (attr & Hin & Hcol & He).
    exists attr. split; [now right|auto].
  - injection H as <-. exists a. split; [now left|auto].
Qed.

Lemma validate_inputs_raise (self : MLModelBiasDetector)
  (predictions true_labels : list Z) (df : DataFrame) (e : exn) :
  _validate_inputs self predictions true_labels df = Raise e ->
  exists msg,
    e = ValueError msg /\
    names_violated_rule self predictions true_labels df msg.
Proof.
  unfold _validate_inputs, names_violated_rule.
  destruct (Nat.eqb_spec (List.length predictions) (List.length true_labels))
    as [H1|H1]; cbn [negb].
  2:{ intros [= <-]. eexists. split; [reflexivity|]. left. auto. }
  destruct (Nat.eqb_spec (List.length predictions) (df_len df))
    as [H2|H2]; cbn [negb].
  2:{ intros [= <-]. eexists. split; [reflexivity|]. right. left. auto. }
  destruct (ResultMonad.for_each _ _ tt) as [[]|e'] eqn:E3;
    cbn [ResultMonad.bind].
  2:{ intros [= <-].
      destruct (check_columns_raise _ _ _ E3) as (attr & Hin & Hcol & ->).
      eexists. split; [reflexivity|]. right. right. left.
      exists attr. auto. }
  destruct (np.all_isin_01 predictions) eqn:E4; cbn [negb].
  2:{ intros [= <-]. eexists. split; [reflexivity|].
      right. right. right. left. split; [reflexivity|].
      intro Hb. apply all_isin_01_binary in Hb. congruence. }
  destruct (np.all_isin_01 true_labels) eqn:E5; cbn [negb]; [discriminate|].
  intros [= <-]. eexists. split; [reflexivity|].
  right. right. right. right. split; [reflexivity|].
  intro Hb. apply all_isin_01_binary in Hb. congruence.
Qed.

Lemma violates_not_valid (self : MLModelBiasDetector)
  (predictions true_labels : list Z) (df : DataFrame) :
  violates self predictions true_labels df ->
  ~ valid_batch self predictions true_labels df.
Proof.
  intros [H|[H|[(attr & Hin & Hcol)|[H|H]]]] (V1 & V2 & V3 & V4 & V5);
    try contradiction.
  rewrite (V3 attr Hin) in Hcol. discriminate.
Qed.

(** C3. [detect_bias] validates first: when the predictions and the labels
    differ in length, or the frame has not one row per prediction, or a
    configured attribute is not a column, or a prediction or a label is
    neither 0 nor 1, [_validate_inputs] raises a [ValueError] whose message
    names a rule the batch breaks, and [detect_bias] raises that same
    error, whatever the metrics and the probabilities are, having logged
    nothing but the failure: no report is returned. *)
Theorem C3_validation_first (self : MLModelBiasDetector)
  (predictions true_labels : list Z) (df : DataFrame) :
  violates self predictions true_labels df ->
  exists msg,
    names_violated_rule self predictions true_labels df msg /\
    _validate_inputs self predictions true_labels df
    = Raise (ValueError msg) /\
    forall now probabilities l,
      detect_bias self now predictions true_labels df probabilities l
      = (Raise (ValueError msg),
         l ++ [(ERROR, MsgFailed (model_name self) (ValueError msg))]).
Proof.
  intro Hv. apply violates_not_valid in Hv.
  destruct (_validate_inputs self predictions true_labels df) as [[]|e] eqn:Ev.
  - apply validate_inputs_ok in Ev. contradiction.
  - destruct (validate_inputs_raise _ _ _ _ Ev) as (msg & -> & Hmsg).
    exists msg. split; [exact Hmsg|]. split; [reflexivity|].
    intros now probabilities l. rewrite detect_bias_run. now rewrite Ev.
Qed.

Lemma C3_validation_first_witness :
  violates scenario_detector [1; 1; 0; 0; 1]%Z scenario_labels scenario_df /\
  exists msg,
    names_violated_rule scenario_detector [1; 1; 0; 0; 1]%Z scenario_labels
      scenario_df msg /\
    _validate_inputs scenario_detector [1; 1; 0; 0; 1]%Z scenario_labels
      scenario_df
    = Raise (ValueError msg) /\
    forall now probabilities l,
      detect_bias scenario_detector now [1; 1; 0; 0; 1]%Z scenario_labels
        scenario_df probabilities l
      = (Raise (ValueError msg),
         l ++ [(ERROR,
                MsgFailed (model_name scenario_detector) (ValueError msg))]).
Proof.
  assert (Hv : violates scenario_detector [1; 1; 0; 0; 1]%Z scenario_labels
                 scenario_df).
  { left. simpl. lia. }
  split; [exact Hv|].
  apply (@C3_validation_first scenario_detector [1; 1; 0; 0; 1]%Z
           scenario_labels scenario_df Hv).
Defined.

(** C4, as stated, fails: built without a metric list, the detector of the
    scenario computes [counterfactual_fairness] too, which is none of the
    four metrics of the claim. *)
Lemma C4_counterexample :
  exists d l',
    __init__ "model" ["attr"] default_threshold None [] = (Ok d, l') /\
    ~ (forall m,
          In m (metrics d) <->
          In m [DEMOGRAPHIC_PARITY; EQUALIZED_ODDS; EQUAL_OPPORTUNITY;
                CALIBRATION]).
Proof.
  exists scenario_detector, [(INFO, MsgInitialized "model")].
  split; [reflexivity|].
  intro H. destruct (H COUNTERFACTUAL_FAIRNESS) as [H1 _].
  assert (Hin : In COUNTERFACTUAL_FAIRNESS (metrics scenario_detector)).
  { cbn. auto 6. }
  specialize (H1 Hin). cbn in H1.
  repeat (destruct H1 as [H1|H1]; [discriminate H1|]). exact H1.
Qed.

(** C4, amended. When no metric list is supplied at construction (or an
    empty one), the detector's metrics are all five members of
    [BiasMetric], in definition order: demographic parity, equalized odds,
    equal opportunity, calibration and counterfactual fairness. *)
Theorem C4_default_metrics (name : string) (attrs : list string) (thr : Q)
  (l : log) :
  (exists d l',
      __init__ name attrs thr None l = (Ok d, l') /\
      metrics d = [DEMOGRAPHIC_PARITY; EQUALIZED_ODDS; EQUAL_OPPORTUNITY;
                   CALIBRATION; COUNTERFACTUAL_FAIRNESS]) /\
  (exists d l',
      __init__ name attrs thr (Some []) l = (Ok d, l') /\
      metrics d = [DEMOGRAPHIC_PARITY; EQUALIZED_ODDS; EQUAL_OPPORTUNITY;
                   CALIBRATION; COUNTERFACTUAL_FAIRNESS]).
Proof.
  split.
  - destruct (init_run name attrs thr None l) as (d & Hrun & _ & _ & _ & Hm).
    exists d. eexists. split; [exact Hrun|exact Hm].
  - destruct (init_run name attrs thr (Some []) l)
      as (d & Hrun & _ & _ & _ & Hm).
    exists d. eexists. split; [exact Hrun|exact Hm].
Qed.

(** C5, as stated, fails: construction with an empty list of protected
    attributes and a negative threshold returns a detector. *)
Lemma C5_counterexample :
  exists d l',
    __init__ "model" [] (-1 # 1) None [] = (Ok d, l') /\
    protected_attributes d = [] /\ threshold d < 0.
Proof.
  destruct (init_run "model" [] (-1 # 1) None [])
    as (d & Hrun & _ & Ha & Ht & _).
  exists d. eexists. split; [exact Hrun|]. split; [exact Ha|].
  rewrite Ht. reflexivity.
Qed.

(** C5, amended. Construction checks nothing: for every model name, list
    of protected attributes (the empty one included), threshold (negative
    ones included) and metric list, [__init__] returns a detector that
    holds the attributes and the threshold as given, and logs that it was
    initialised. *)
Theorem C5_construction (name : string) (attrs : list string) (thr : Q)
  (ms : option (list BiasMetric)) (l : log) :
  exists d,
    __init__ name attrs thr ms l = (Ok d, l ++ [(INFO, MsgInitialized name)]) /\
    model_name d = name /\
    protected_attributes d = attrs /\
    threshold d = thr.
Proof.
  destruct (init_run name attrs thr ms l) as (d & Hrun & Hn & Ha & Ht & _).
  exists d. auto.
Qed.

(** C6, as stated, fails: on the batch with a mild disparity the score of
    demographic parity (1/10) is above the threshold (1/20), but the mean
    of the five scores (1/25) is not; the only recommendation is the
    notice that no significant bias was detected. *)
Lemma C6_counterexample :
  exists r l' s,
    detect_bias scenario_detector scenario_now mild_predictions mild_labels
      mild_df None [] = (Ok r, l') /\
    Dict.get "demographic_parity" (metric_scores r) = Some s /\
    threshold scenario_detector < s /\
    recommendations r = [rec_no_bias].
Proof.
  do 3 eexists. split; [reflexivity|].
  split; [reflexivity|]. split; reflexivity.
Qed.

(** ** How the recommendations are put together *)

Lemma fold_recommendations (keys : list string) (acc : list string) :
  fold_left
    (fun recommendations metric =>
       if String.eqb metric "demographic_parity" then
         recommendations ++ [rec_demographic_parity]
       else if String.eqb metric "equalized_odds" then
         recommendations ++ [rec_equalized_odds]
       else if String.eqb metric "equal_opportunity" then
         recommendations ++ [rec_equal_opportunity]
       else if String.eqb metric "calibration" then
         recommendations ++ [rec_calibration]
       else recommendations)
    keys acc
  = acc ++ flat_map recommendation_for_key keys.
Proof.
  revert acc. induction keys as [|k keys IH]; intro acc; cbn [fold_left flat_map].
  - now rewrite app_nil_r.
  - rewrite IH. unfold recommendation_for_key at 2.
    destruct (String.eqb k "demographic_parity");
      [now rewrite <- app_assoc|].
    destruct (String.eqb k "equalized_odds"); [now rewrite <- app_assoc|].
    destruct (String.eqb k "equal_opportunity"); [now rewrite <- app_assoc|].
    destruct (String.eqb k "calibration"); [now rewrite <- app_assoc|].
    reflexivity.
Qed.

Lemma generate_recommendations_eq (self : MLModelBiasDetector)
  (ms gs : dict Q) (detected : bool) :
  _generate_recommendations self ms gs detected =
  if detected then
    flat_map recommendation_for_key
      (map fst (filter (fun item => Qltb (threshold self) (snd item)) ms))
    ++ general_recommendations
  else [rec_no_bias].
Proof.
  unfold _generate_recommendations, Dict.items.
  destruct detected; cbn [negb]; [|reflexivity].
  now rewrite fold_recommendations.
Qed.

Lemma recommendation_for_key_specific (key : string) (text : string) :
  In text (recommendation_for_key key) ->
  exists m, key = value m /\ specific_recommendation m = Some text.
Proof.
  unfold recommendation_for_key.
  destruct (String.eqb_spec key "demographic_parity") as [->|_].
  { intros [<-|[]]. now exists DEMOGRAPHIC_PARITY. }
  destruct (String.eqb_spec key "equalized_odds") as [->|_].
  { intros [<-|[]]. now exists EQUALIZED_ODDS. }
  destruct (String.eqb_spec key "equal_opportunity") as [->|_].
  { intros [<-|[]]. now exists EQUAL_OPPORTUNITY. }
  destruct (String.eqb_spec key "calibration") as [->|_].
  { intros [<-|[]]. now exists CALIBRATION. }
  intros [].
Qed.

Lemma recommendation_for_key_count (m : BiasMetric) (text key : string) :
  specific_recommendation m = Some text ->
  count_occ string_dec (recommendation_for_key key) text =
  if String.eqb key (value m) then 1%nat else 0%nat.
Proof.
  intro Hm. destruct (String.eqb_spec key (value m)) as [->|Hne].
  - destruct m; cbn in Hm; try discriminate Hm; injection Hm as <-;
      vm_compute; reflexivity.
  - destruct (count_occ string_dec (recommendation_for_key key) text)
      as [|n] eqn:Ec; [reflexivity|].
    assert (Hin : In text (recommendation_for_key key)).
    { apply (count_occ_In string_dec). rewrite Ec. lia. }
    apply recommendation_for_key_specific in Hin.
    destruct Hin as (m' & -> & Hm').
    exfalso. apply Hne. f_equal.
    destruct m, m'; try reflexivity; cbn in Hm, Hm';
      try discriminate Hm; try discriminate Hm';
      rewrite <- Hm in Hm'; injection Hm' as Hm'; vm_compute in Hm';
      discriminate Hm'.
Qed.

Lemma count_without_key (m : BiasMetric) (text : string) (thr : Q)
  (ms : dict Q) :
  specific_recommendation m = Some text ->
  ~ In (value m) (Dict.keys ms) ->
  count_occ string_dec
    (flat_map recommendation_for_key
       (map fst (filter (fun item => Qltb thr (snd item)) ms))) text = 0%nat.
Proof.
  intros Hm. induction ms as [|[k s] ms IH]; intro Hnot; [reflexivity|].
  cbn [Dict.keys map fst] in Hnot. cbn [filter snd].
  assert (IH' := IH (fun H => Hnot (or_intror H))).
  destruct (Qltb thr s); [|exact IH'].
  cbn [map fst flat_map]. rewrite count_occ_app, IH'.
  rewrite (recommendation_for_key_count _ _ Hm).
  destruct (String.eqb_spec k (value m)) as [E|_]; [|reflexivity].
  exfalso. apply Hnot. now left.
Qed.

(* Each metric that has a text of its own gets it once when its score is
   above the threshold, and not at all otherwise. *)
Lemma count_specific (m : BiasMetric) (text : string) (thr : Q) (ms : dict Q) :
  specific_recommendation m = Some text ->
  NoDup (Dict.keys ms) ->
  count_occ string_dec
    (flat_map recommendation_for_key
       (map fst (filter (fun item => Qltb thr (snd item)) ms))) text
  = match Dict.get (value m) ms with
    | Some s => if Qltb thr s then 1%nat else 0%nat
    | None => 0%nat
    end.
Proof.
  intros Hm. induction ms as [|[k s] ms IH]; intro Hnd; [reflexivity|].
  cbn [Dict.keys map fst] in Hnd. inversion Hnd as [|? ? Hk Hnd']; subst.
  cbn [Dict.get filter snd].
  destruct (String.eqb_spec (value m) k) as [<-|Hne].
  - pose proof (count_without_key m thr ms Hm Hk) as Hrest.
    destruct (Qltb thr s); [|exact Hrest].
    cbn [map fst flat_map]. rewrite count_occ_app, Hrest.
    rewrite (recommendation_for_key_count _ _ Hm), String.eqb_refl.
    reflexivity.
  - rewrite <- (IH Hnd').
    destruct (Qltb thr s); [|reflexivity].
    cbn [map fst flat_map]. rewrite count_occ_app.
    rewrite (recommendation_for_key_count _ _ Hm).
    destruct (String.eqb_spec k (value m)) as [E|_]; [congruence|reflexivity].
Qed.

(** C6, amended. Recommendations are gated on [bias_detected], which holds
    exactly when the overall score exceeds the threshold, and only then
    keyed on the individual scores. When [bias_detected] is false the only recommendation is the
    notice that no significant bias was detected. When [bias_detected] is
    true the recommendations are the metric-specific ones, in the order of
    [metric_scores], followed by the five general suggestions: each of
    demographic parity, equalized odds, equal opportunity and calibration
    contributes its text once if its score exceeds the threshold and not
    at all otherwise. *)
Theorem C6_recommendations (self : MLModelBiasDetector) (now : string)
  (predictions true_labels : list Z) (df : DataFrame)
  (probabilities : option (list Q)) (l l' : log) (r : BiasDetectionResult) :
  pd.aligned df ->
  detect_bias self now predictions true_labels df probabilities l = (Ok r, l') ->
  (bias_detected r = true <-> threshold self < overall_bias_score r) /\
  (bias_detected r = false -> recommendations r = [rec_no_bias]) /\
  (bias_detected r = true ->
   exists specific,
     recommendations r = specific ++ general_recommendations /\
     specific =
       flat_map recommendation_for_key
         (map fst
            (filter (fun item => Qltb (threshold self) (snd item))
               (metric_scores r))) /\
     (forall text, In text specific ->
                   exists m, specific_recommendation m = Some text) /\
     (forall m text,
         specific_recommendation m = Some text ->
         count_occ string_dec specific text =
         if exceeds self r m then 1%nat else 0%nat)).
Proof.
  intros Hwf H.
  destruct (detect_bias_Ok_scores _ _ _ _ _ _ Hwf H)
    as (ms & gs & l1 & (_ & _ & Hnd & _) & -> & _).
  cbn [fst] in Hnd.
  unfold exceeds.
  cbn [recommendations bias_detected overall_bias_score metric_scores
       report_of].
  rewrite generate_recommendations_eq.
  split; [apply Qltb_lt|]. split.
  - intros ->. reflexivity.
  - intros Hdet. rewrite Hdet.
    eexists. split; [reflexivity|]. split; [reflexivity|]. split.
    + intros text Hin. apply in_flat_map in Hin.
      destruct Hin as (k & _ & Hk).
      apply recommendation_for_key_specific in Hk.
      destruct Hk as (m & _ & Hm). eauto.
    + intros m text Hm. rewrite (count_specific m _ _ Hm Hnd).
      now destruct (Dict.get (value m) ms).
Qed.

Lemma C6_recommendations_witness :
  exists r l',
    pd.aligned scenario_df /\
    detect_bias scenario_detector scenario_now scenario_predictions
      scenario_labels scenario_df None [] = (Ok r, l') /\
    (bias_detected r = true
     <-> threshold scenario_detector < overall_bias_score r) /\
    (bias_detected r = false -> recommendations r = [rec_no_bias]) /\
    (bias_detected r = true ->
     exists specific,
       recommendations r = specific ++ general_recommendations /\
       specific =
         flat_map recommendation_for_key
           (map fst
              (filter
                 (fun item => Qltb (threshold scenario_detector) (snd item))
                 (metric_scores r))) /\
       (forall text, In text specific ->
                     exists m, specific_recommendation m = Some text) /\
       (forall m text,
           specific_recommendation m = Some text ->
           count_occ string_dec specific text =
           if exceeds scenario_detector r m then 1%nat else 0%nat)).
Proof.
  do 2 eexists. split; [exact scenario_aligned|]. split; [reflexivity|].
  apply (@C6_recommendations scenario_detector scenario_now
           scenario_predictions scenario_labels scenario_df None [] _ _
           scenario_aligned eq_refl).
Defined.

(** C7. Over a frame whose columns have one entry per row: on a valid
    batch, the column names being distinct and the probabilities absent or
    one per row, [detect_bias] returns a report; and in every report it
    returns, every value of [metric_scores] and every value of
    [group_scores] is a proportion: at least 0 and at most 1. *)
Theorem C7_scores_are_proportions (self : MLModelBiasDetector) (now : string)
  (predictions true_labels : list Z) (df : DataFrame)
  (probabilities : option (list Q)) (l : log) :
  pd.aligned df ->
  (valid_batch self predictions true_labels df ->
   pd.wf df ->
   ~ misaligned probabilities df ->
   exists r l',
     detect_bias self now predictions true_labels df probabilities l
     = (Ok r, l')) /\
  (forall r l',
      detect_bias self now predictions true_labels df probabilities l
      = (Ok r, l') ->
      Forall in01 (Dict.values (metric_scores r)) /\
      Forall in01 (Dict.values (group_scores r))).
Proof.
  intro Hwf. split.
  - intros Hvalid _ Hal. now apply detect_bias_returns.
  - intros r l' H.
    destruct (detect_bias_Ok_scores _ _ _ _ _ _ Hwf H)
      as (ms & gs & l1 & (_ & _ & _ & _ & Hms & Hgs) & -> & _).
    split; assumption.
Qed.

Lemma C7_scores_are_proportions_witness :
  pd.aligned scenario_df /\
  valid_batch scenario_detector scenario_predictions scenario_labels
    scenario_df /\
  pd.wf scenario_df /\
  ~ misaligned None scenario_df /\
  exists r l',
    detect_bias scenario_detector scenario_now scenario_predictions
      scenario_labels scenario_df None [] = (Ok r, l') /\
    Forall in01 (Dict.values (metric_scores r)) /\
    Forall in01 (Dict.values (group_scores r)).
Proof.
  destruct (@C7_scores_are_proportions scenario_detector scenario_now
              scenario_predictions scenario_labels scenario_df None []
              scenario_aligned) as [Hreturns Hbounds].
  destruct (Hreturns scenario_valid scenario_wf (fun H => H))
    as (r & l' & Hrun).
  split; [exact scenario_aligned|]. split; [exact scenario_valid|].
  split; [exact scenario_wf|]. split; [exact (fun H => H)|].
  exists r, l'. split; [exact Hrun|]. exact (Hbounds r l' Hrun).
Defined.

(** C8. When calibration is configured and no probabilities are supplied,
    [detect_bias] on a valid batch over a frame of distinct column names
    raises nothing: it returns a report in which the score of calibration
    is 0, one of the values whose arithmetic mean (their sum over their
    number) is the overall score; the skip is logged at level WARNING, and
    nothing is logged at level ERROR. *)
Theorem C8_calibration_skipped (self : MLModelBiasDetector) (now : string)
  (predictions true_labels : list Z) (df : DataFrame) (l : log) :
  valid_batch self predictions true_labels df ->
  pd.wf df ->
  In CALIBRATION (metrics self) ->
  exists r added,
    detect_bias self now predictions true_labels df None l
    = (Ok r, l ++ added) /\
    Dict.get "calibration" (metric_scores r) = Some 0 /\
    In 0 (Dict.values (metric_scores r)) /\
    overall_bias_score r
    == Qsum (Dict.values (metric_scores r))
       / inject_Z (Z.of_nat (List.length (Dict.values (metric_scores r)))) /\
    In (WARNING, MsgCalibrationSkipped) added /\
    (forall msg, ~ In (ERROR, msg) added).
Proof.
  intros Hvalid [Hwf _] Hcal.
  destruct (@detect_bias_returns self now predictions true_labels df None l
              Hvalid Hwf (fun H => H)) as (r & l' & Hrun).
  destruct (detect_bias_Ok_scores _ _ _ _ _ _ Hwf Hrun)
    as (ms & gs & l1 & (Hget & _ & _ & Hlog & _) & Hr & Hl').
  cbn [fst] in Hget.
  exists r. eexists. split.
  { rewrite Hrun, Hl', Hlog, <- app_assoc. reflexivity. }
  subst r. cbn [metric_scores overall_bias_score report_of].
  destruct (Hget CALIBRATION Hcal) as [s [Hs Hres]].
  cbn in Hres. injection Hres as <-.
  split; [exact Hs|]. split; [exact (dict_get_In_values _ _ Hs)|].
  split; [apply mean_arithmetic|]. split.
  - apply in_or_app. left. apply in_flat_map.
    exists CALIBRATION. split; [exact Hcal|now left].
  - intros msg Hin. apply in_app_or in Hin. destruct Hin as [Hin|[Hin|[]]].
    + apply in_flat_map in Hin. destruct Hin as [m [_ Hm]].
      destruct m; cbn in Hm; try contradiction.
      destruct Hm as [Hm|[]]. discriminate Hm.
    + discriminate Hin.
Qed.

Lemma C8_calibration_skipped_witness :
  valid_batch scenario_detector scenario_predictions scenario_labels
    scenario_df /\
  pd.wf scenario_df /\
  In CALIBRATION (metrics scenario_detector) /\
  exists r added,
    detect_bias scenario_detector scenario_now scenario_predictions
      scenario_labels scenario_df None [] = (Ok r, [] ++ added) /\
    Dict.get "calibration" (metric_scores r) = Some 0 /\
    In 0 (Dict.values (metric_scores r)) /\
    overall_bias_score r
    == Qsum (Dict.values (metric_scores r))
       / inject_Z (Z.of_nat (List.length (Dict.values (metric_scores r)))) /\
    In (WARNING, MsgCalibrationSkipped) added /\
    (forall msg, ~ In (ERROR, msg) added).
Proof.
  assert (Hcal : In CALIBRATION (metrics scenario_detector)).
  { cbn. auto 6. }
  split; [exact scenario_valid|]. split; [exact scenario_wf|].
  split; [exact Hcal|].
  apply (@C8_calibration_skipped scenario_detector scenario_now
           scenario_predictions scenario_labels scenario_df []
           scenario_valid scenario_wf Hcal).
Defined.

(** ** The log does not feed back into the scores *)

Lemma metric_loop_log_independent (self : MLModelBiasDetector)
  (predictions true_labels : list Z) (df : DataFrame)
  (probabilities : option (list Q)) (todo : list BiasMetric)
  (scores : dict Q * dict Q) (l1 l2 : log) :
  fst (LogMonad.for_each todo
         (detect_bias_step self predictions true_labels df probabilities)
         scores l1)
  = fst (LogMonad.for_each todo
           (detect_bias_step self predictions true_labels df probabilities)
           scores l2).
Proof.
  revert scores l1 l2.
  induction todo as [|m todo IH]; intros [ms gs] l1 l2; [reflexivity|].
  cbn [LogMonad.for_each]. unfold LogMonad.bind.
  rewrite !detect_bias_step_run.
  destruct (ResultMonad.bind _ _) as [scores'|e]; [apply IH|reflexivity].
Qed.

(** C9, as stated, fails: two calls on the detector and the batch of the
    scenario, one second apart, return reports that are not equal; their
    metadata carry the time of each call. *)
Lemma C9_counterexample :
  exists r1 l1 r2 l2,
    detect_bias scenario_detector "2026-01-01T00:00:00" scenario_predictions
      scenario_labels scenario_df None [] = (Ok r1, l1) /\
    detect_bias scenario_detector "2026-01-01T00:00:01" scenario_predictions
      scenario_labels scenario_df None l1 = (Ok r2, l2) /\
    r1 <> r2.
Proof.
  do 4 eexists. split; [reflexivity|]. split; [reflexivity|].
  intro H. apply (f_equal (fun r => md_timestamp (metadata r))) in H.
  vm_compute in H. discriminate H.
Qed.

(** C9, amended. Two calls of [detect_bias] on the same detector with the
    same predictions, labels, frame and probabilities have the same
    outcome up to the timestamp: either both raise the same exception, or
    both return a report, and the two reports are equal in every field
    except the timestamp of the metadata, which is the time of each call.
    Nothing that an earlier call leaves behind, the log included, affects
    the outcome. *)
Theorem C9_idempotence_up_to_timestamp (self : MLModelBiasDetector)
  (now1 now2 : string) (predictions true_labels : list Z) (df : DataFrame)
  (probabilities : option (list Q)) (l1 l2 : log) :
  same_up_to_timestamp
    (fst (detect_bias self now1 predictions true_labels df probabilities l1))
    (fst (detect_bias self now2 predictions true_labels df probabilities l2))
  /\
  (now1 = now2 ->
   fst (detect_bias self now1 predictions true_labels df probabilities l1)
   = fst (detect_bias self now2 predictions true_labels df probabilities l2)).
Proof.
  rewrite !detect_bias_run.
  destruct (_validate_inputs self predictions true_labels df) as [[]|e].
  2:{ split; [reflexivity|auto]. }
  pose proof (metric_loop_log_independent self predictions true_labels df
                probabilities (metrics self) ([], []) l1 l2) as Hind.
  destruct (LogMonad.for_each _ _ _ l1) as [[[ms1 gs1]|e1] l1'];
    destruct (LogMonad.for_each _ _ _ l2) as [[[ms2 gs2]|e2] l2'];
    cbn [fst] in Hind; try discriminate Hind.
  - injection Hind as <- <-. split; [reflexivity|]. now intros <-.
  - injection Hind as <-. split; [reflexivity|auto].
Qed.

(** C10. The counterfactual-fairness computation is the demographic-parity
    computation: in every report [detect_bias] returns for a detector
    that computes counterfactual fairness, the entry of
    [counterfactual_fairness] in [metric_scores] is the value of
    [_demographic_parity] on the same predictions and frame, and it equals
    the entry of [demographic_parity] whenever that metric is configured
    too. *)
Theorem C10_counterfactual_is_demographic_parity (self : MLModelBiasDetector)
  (now : string) (predictions true_labels : list Z) (df : DataFrame)
  (probabilities : option (list Q)) (l l' : log) (r : BiasDetectionResult) :
  pd.aligned df ->
  detect_bias self now predictions true_labels df probabilities l = (Ok r, l') ->
  In COUNTERFACTUAL_FAIRNESS (metrics self) ->
  _counterfactual_fairness self predictions df
  = _demographic_parity self predictions df /\
  exists s,
    Dict.get "counterfactual_fairness" (metric_scores r) = Some s /\
    _demographic_parity self predictions df = Ok s /\
    (In DEMOGRAPHIC_PARITY (metrics self) ->
     Dict.get "demographic_parity" (metric_scores r) = Some s).
Proof.
  intros Hwf H Hcf. split; [reflexivity|].
  destruct (detect_bias_Ok_scores _ _ _ _ _ _ Hwf H)
    as (ms & gs & l1 & (Hget & _) & -> & _).
  cbn [fst] in Hget. cbn [metric_scores report_of].
  destruct (Hget COUNTERFACTUAL_FAIRNESS Hcf) as [s [Hs Hres]].
  exists s. split; [exact Hs|]. split; [exact Hres|].
  intro Hdp. destruct (Hget DEMOGRAPHIC_PARITY Hdp) as [s' [Hs' Hres']].
  assert (E : Ok s' = Ok s) by (rewrite <- Hres, <- Hres'; reflexivity).
  injection E as ->. exact Hs'.
Qed.

Lemma C10_counterfactual_is_demographic_parity_witness :
  exists r l',
    pd.aligned scenario_df /\
    detect_bias scenario_detector scenario_now scenario_predictions
      scenario_labels scenario_df None [] = (Ok r, l') /\
    In COUNTERFACTUAL_FAIRNESS (metrics scenario_detector) /\
    _counterfactual_fairness scenario_detector scenario_predictions
      scenario_df
    = _demographic_parity scenario_detector scenario_predictions scenario_df /\
    exists s,
      Dict.get "counterfactual_fairness" (metric_scores r) = Some s /\
      _demographic_parity scenario_detector scenario_predictions scenario_df
      = Ok s /\
      (In DEMOGRAPHIC_PARITY (metrics scenario_detector) ->
       Dict.get "demographic_parity" (metric_scores r) = Some s).
Proof.
  assert (Hcf : In COUNTERFACTUAL_FAIRNESS (metrics scenario_detector)).
  { cbn. auto 6. }
  do 2 eexists. split; [exact scenario_aligned|].
  split; [reflexivity|]. split; [exact Hcf|].
  apply (@C10_counterfactual_is_demographic_parity scenario_detector
           scenario_now scenario_predictions scenario_labels scenario_df None
           [] _ _ scenario_aligned eq_refl Hcf).
Defined.

(** * Further properties of the detector *)

(** ** Order of the checks of [_validate_inputs] *)

Lemma for_each_app {A S} (xs ys : list A) (body : S -> A -> result S) (s : S) :
  ResultMonad.for_each (xs ++ ys) body s =
  ResultMonad.bind (ResultMonad.for_each xs body s)
    (ResultMonad.for_each ys body).
Proof.
  revert s. induction xs as [|x xs IH]; intro s; [reflexivity|].
  cbn [app]. rewrite !for_each_cons.
  destruct (body s x) as [s'|e]; cbn [ResultMonad.bind]; [apply IH|reflexivity].
Qed.

(** X1. When the lengths agree, the attribute [_validate_inputs] names is
    the first configured one that is not a column of the frame, and it is
    named before the values of predictions and labels are looked at. *)
Theorem X1_first_missing_attribute (self : MLModelBiasDetector)
  (predictions true_labels : list Z) (df : DataFrame)
  (pre post : list string) (attr : string) :
  List.length predictions = List.length true_labels ->
  List.length predictions = df_len df ->
  protected_attributes self = pre ++ attr :: post ->
  (forall a, In a pre -> pd.has_column df a = true) ->
  pd.has_column df attr = false ->
  _validate_inputs self predictions true_labels df
  = Raise
      (ValueError
         ("Protected attribute '" ++ attr ++ "' not found in data")%string).
Proof.
  intros H1 H2 Hattrs Hpre Hmiss. unfold _validate_inputs.
  rewrite H1, Nat.eqb_refl. cbn [negb]. rewrite <- H1, H2, Nat.eqb_refl.
  cbn [negb]. rewrite Hattrs, for_each_app.
  rewrite (check_columns_ok _ _ Hpre). cbn [ResultMonad.bind].
  rewrite for_each_cons, Hmiss. reflexivity.
Qed.

Lemma X1_first_missing_attribute_witness :
  exists d l0,
    __init__ "model" ["attr"; "age"; "zip"] default_threshold None []
    = (Ok d, l0) /\
    List.length [1; 2]%Z = List.length [0; 7]%Z /\
    List.length [1; 2]%Z
    = df_len {| df_len := 2; df_columns := [("attr", ["a"; "b"])] |} /\
    protected_attributes d = ["attr"] ++ "age" :: ["zip"] /\
    (forall a, In a ["attr"] ->
               pd.has_column
                 {| df_len := 2; df_columns := [("attr", ["a"; "b"])] |} a
               = true) /\
    pd.has_column {| df_len := 2; df_columns := [("attr", ["a"; "b"])] |} "age"
    = false /\
    _validate_inputs d [1; 2]%Z [0; 7]%Z
      {| df_len := 2; df_columns := [("attr", ["a"; "b"])] |}
    = Raise (ValueError "Protected attribute 'age' not found in data").
Proof.
  assert (Hpre : forall a, In a ["attr"] ->
            pd.has_column
              {| df_len := 2; df_columns := [("attr", ["a"; "b"])] |} a
            = true).
  { intros a [<-|[]]. reflexivity. }
  do 2 eexists. split; [reflexivity|].
  split; [reflexivity|]. split; [reflexivity|]. split; [reflexivity|].
  split; [exact Hpre|]. split; [reflexivity|].
  apply X1_first_missing_attribute
    with (pre := ["attr"]) (post := ["zip"]) (attr := "age");
    [reflexivity|reflexivity|reflexivity|exact Hpre|reflexivity].
Defined.

(** ** What [detect_bias] logs *)

Lemma skip_warning_length (m : BiasMetric) (probabilities : option (list Q)) :
  Forall (eq calibration_warning) (skip_warning m probabilities) /\
  List.length (skip_warning m probabilities)
  = skipped_calibrations [m] probabilities.
Proof. destruct m, probabilities as [ps|]; cbn; auto. Qed.

Lemma skipped_calibrations_cons (m : BiasMetric) (ms : list BiasMetric)
  (probabilities : option (list Q)) :
  skipped_calibrations (m :: ms) probabilities
  = (skipped_calibrations [m] probabilities
     + skipped_calibrations ms probabilities)%nat.
Proof. destruct probabilities, m; reflexivity. Qed.

(* The loop logs one warning for each calibration it skips: all of them
   when it returns, those it came to when it raises. *)
Lemma metric_loop_warnings (self : MLModelBiasDetector)
  (predictions true_labels : list Z) (df : DataFrame)
  (probabilities : option (list Q)) (todo : list BiasMetric)
  (scores : dict Q * dict Q) (l : log) :
  exists warnings,
    snd (LogMonad.for_each todo
           (detect_bias_step self predictions true_labels df probabilities)
           scores l)
    = l ++ warnings /\
    Forall (eq calibration_warning) warnings /\
    (List.length warnings <= skipped_calibrations todo probabilities)%nat /\
    (forall scores',
        fst (LogMonad.for_each todo
               (detect_bias_step self predictions true_labels df
                  probabilities)
               scores l)
        = Ok scores' ->
        List.length warnings = skipped_calibrations todo probabilities).
Proof.
  revert scores l.
  induction todo as [|m todo IH]; intros [ms gs] l.
  - exists []. cbn [LogMonad.for_each]. unfold LogMonad.ret. cbn [snd fst].
    rewrite app_nil_r. repeat split; auto.
    + destruct probabilities; cbn; lia.
    + intros _ _. now destruct probabilities.
  - cbn [LogMonad.for_each]. unfold LogMonad.bind.
    rewrite detect_bias_step_run, skipped_calibrations_cons.
    destruct (skip_warning_length m probabilities) as [Hw Hlen].
    destruct (ResultMonad.bind _ _) as [scores'|e].
    + destruct (IH scores' (l ++ skip_warning m probabilities))
        as (ws & Hlog & Hws & Hle & Heq).
      exists (skip_warning m probabilities ++ ws).
      split; [now rewrite Hlog, app_assoc|].
      split; [now apply Forall_app|].
      rewrite length_app, Hlen. split; [lia|].
      intros s Hs. rewrite (Heq s Hs). reflexivity.
    + exists (skip_warning m probabilities). cbn [snd fst].
      split; [reflexivity|]. split; [exact Hw|].
      rewrite Hlen. split; [lia|]. intros s Hs. discriminate Hs.
Qed.

(** X2. [detect_bias] only adds to the log. What it adds is one warning
    for each calibration it skips for want of probabilities, and then one
    last record. When a report is returned there are as many warnings as
    calibration is listed among the metrics if no probabilities are given
    (none if they are), and the last record is at level INFO with the
    overall score; when an exception is raised there are at most as many,
    and the last record is at level ERROR with that exception. *)
Theorem X2_log_discipline (self : MLModelBiasDetector) (now : string)
  (predictions true_labels : list Z) (df : DataFrame)
  (probabilities : option (list Q)) (l : log) :
  exists warnings,
    Forall (eq calibration_warning) warnings /\
    match detect_bias self now predictions true_labels df probabilities l with
    | (Ok r, l') =>
        l' = l ++ warnings
               ++ [(INFO,
                    MsgCompleted (model_name self) (overall_bias_score r))] /\
        List.length warnings
        = skipped_calibrations (metrics self) probabilities
    | (Raise e, l') =>
        l' = l ++ warnings ++ [(ERROR, MsgFailed (model_name self) e)] /\
        (List.length warnings
         <= skipped_calibrations (metrics self) probabilities)%nat
    end.
Proof.
  rewrite detect_bias_run.
  destruct (_validate_inputs self predictions true_labels df) as [[]|e].
  2:{ exists []. cbn [app List.length]. repeat split; auto. lia. }
  destruct (metric_loop_warnings self predictions true_labels df
              probabilities (metrics self) ([], []) l)
    as (ws & Hlog & Hws & Hle & Heq).
  exists ws. split; [exact Hws|].
  destruct (LogMonad.for_each _ _ _ l) as [[[ms gs]|e] l1];
    cbn [snd fst] in Hlog, Heq; subst l1; rewrite app_assoc.
  - split; [reflexivity|]. exact (Heq _ eq_refl).
  - split; [reflexivity|exact Hle].
Qed.

(** ** Attributes with fewer than two groups *)

(* Run the skipped round of an attribute with fewer than two groups. *)
Ltac skip_round Hcols Hdeg :=
  match goal with
  | Hattr : In ?attr (protected_attributes ?self) |- _ =>
      let col := fresh "col" in
      let Hget := fresh "Hget" in
      let Hsmall := fresh "Hsmall" in
      destruct (getitem_ok _ attr (Hcols attr Hattr)) as [col [Hget _]];
      rewrite Hget; cbn [ResultMonad.bind]; cbv zeta;
      pose proof (Hdeg attr col Hattr Hget) as Hsmall;
      apply Nat.ltb_lt in Hsmall; rewrite Hsmall
  end.

Section Degenerate.
Variable self : MLModelBiasDetector.
Variable df : DataFrame.
Hypothesis Hcols :
  forall attr, In attr (protected_attributes self) ->
               pd.has_column df attr = true.
Hypothesis Hdeg : degenerate self df.

Lemma demographic_parity_degenerate (predictions : list Z) :
  _demographic_parity self predictions df = Ok 0.
Proof.
  assert (H : returns (_demographic_parity self predictions df) (eq 0)).
  { unfold returns, _demographic_parity.
    apply holds_for_each; [reflexivity|].
    intros attr b Hattr <-. skip_round Hcols Hdeg. reflexivity. }
  apply returns_inv in H. now destruct H as [s [-> <-]].
Qed.

Lemma equalized_odds_degenerate (predictions true_labels : list Z) :
  _equalized_odds self predictions true_labels df = Ok 0.
Proof.
  assert (H : returns (_equalized_odds self predictions true_labels df)
                (eq 0)).
  { unfold returns, _equalized_odds.
    apply holds_for_each; [reflexivity|].
    intros attr b Hattr <-. skip_round Hcols Hdeg. reflexivity. }
  apply returns_inv in H. now destruct H as [s [-> <-]].
Qed.

Lemma equal_opportunity_degenerate (predictions true_labels : list Z) :
  _equal_opportunity self predictions true_labels df = Ok 0.
Proof.
  assert (H : returns (_equal_opportunity self predictions true_labels df)
                (eq 0)).
  { unfold returns, _equal_opportunity.
    apply holds_for_each; [reflexivity|].
    intros attr b Hattr <-. skip_round Hcols Hdeg. reflexivity. }
  apply returns_inv in H. now destruct H as [s [-> <-]].
Qed.

Lemma calibration_degenerate (probabilities : list Q) (true_labels : list Z) :
  _calibration self probabilities true_labels df = Ok 0.
Proof.
  assert (H : returns (_calibration self probabilities true_labels df)
                (eq 0)).
  { unfold returns, _calibration. cbv zeta.
    apply holds_for_each; [reflexivity|].
    intros attr b Hattr <-. skip_round Hcols Hdeg. reflexivity. }
  apply returns_inv in H. now destruct H as [s [-> <-]].
Qed.

Lemma metric_result_degenerate (metric : BiasMetric)
  (predictions true_labels : list Z) (probabilities : option (list Q)) :
  metric_result self metric predictions true_labels df probabilities = Ok 0.
Proof.
  unfold metric_result, _compute_bias_metric, LogMonad.lift.
  destruct metric; cbn [fst].
  - apply demographic_parity_degenerate.
  - apply equalized_odds_degenerate.
  - apply equal_opportunity_degenerate.
  - destruct probabilities; [apply calibration_degenerate|reflexivity].
  - apply demographic_parity_degenerate.
Qed.
End Degenerate.

Lemma compute_group_bias_no_rows (self : MLModelBiasDetector)
  (metric : BiasMetric) (predictions true_labels : list Z) (df : DataFrame) :
  (forall attr, In attr (protected_attributes self) ->
                pd.has_column df attr = true) ->
  pd.aligned df -> df_len df = 0%nat ->
  _compute_group_bias self metric predictions true_labels df = Ok [].
Proof.
  intros Hcols Hwf Hzero.
  assert (H : returns
                (_compute_group_bias self metric predictions true_labels df)
                (eq [])).
  { unfold returns, _compute_group_bias.
    apply holds_for_each; [reflexivity|].
    intros attr gs Hattr <-.
    destruct (getitem_ok _ attr (Hcols attr Hattr)) as [col [Hget Hlen]].
    rewrite Hget. cbn [ResultMonad.bind]. cbv zeta.
    specialize (Hlen Hwf). rewrite Hzero in Hlen.
    destruct col; [reflexivity|discriminate Hlen]. }
  apply returns_inv in H. now destruct H as [s [-> <-]].
Qed.

Lemma total_zeros (xs : list Q) : Forall (eq 0) xs -> np.total xs == 0.
Proof.
  induction 1 as [|x xs <- _ IH]; [reflexivity|].
  change (np.total (0 :: xs)) with (0 + np.total xs). rewrite IH. reflexivity.
Qed.

Lemma mean_zeros (xs : list Q) : Forall (eq 0) xs -> np.mean xs == 0.
Proof.
  intro H. unfold np.mean, Qdiv. rewrite (total_zeros H). ring.
Qed.

Lemma degenerate_loop (self : MLModelBiasDetector)
  (predictions true_labels : list Z) (df : DataFrame)
  (probabilities : option (list Q)) (l : log) :
  valid_batch self predictions true_labels df ->
  pd.aligned df ->
  degenerate self df ->
  holdsM False
    (LogMonad.for_each (metrics self)
       (detect_bias_step self predictions true_labels df probabilities)
       ([], []))
    l
    (fun scores _ =>
       Forall (eq 0) (Dict.values (fst scores)) /\
       (df_len df = 0%nat -> snd scores = [])).
Proof.
  intros Hvalid Hwf Hdeg.
  assert (Hcols := proj1 (proj2 (proj2 Hvalid))).
  apply holdsM_for_each.
  - split; [constructor|reflexivity].
  - intros m [ms gs] l' _ [Hms Hgs]. cbn [fst snd] in *.
    unfold holdsM. rewrite detect_bias_step_run.
    rewrite (metric_result_degenerate Hcols Hdeg). cbn [ResultMonad.bind].
    pose proof (compute_group_bias_in01 Hvalid Hwf m) as Hgrp.
    unfold returns in Hgrp.
    destruct (_compute_group_bias self m _ _ _) as [g|e] eqn:Eg;
      cbn [ResultMonad.bind holds] in *; [|contradiction].
    cbn [fst snd]. split; [now apply dict_set_Forall|].
    intro Hzero.
    rewrite (compute_group_bias_no_rows _ _ _ _ Hcols Hwf Hzero) in Eg.
    injection Eg as <-. rewrite (Hgs Hzero). reflexivity.
Qed.

(** X3. When no configured attribute has two distinct values, a valid
    batch over a frame of distinct column names always yields a report,
    even with a probability array of the wrong length: every metric is skipped for every attribute, so every
    metric score is 0, the overall score is 0, and bias is detected only
    under a negative threshold; under a threshold of 0 or more the only
    recommendation is the notice that no significant bias was detected. *)
Theorem X3_no_attribute_with_two_groups (self : MLModelBiasDetector)
  (now : string) (predictions true_labels : list Z) (df : DataFrame)
  (probabilities : option (list Q)) (l : log) :
  valid_batch self predictions true_labels df ->
  pd.wf df ->
  degenerate self df ->
  exists r l',
    detect_bias self now predictions true_labels df probabilities l
    = (Ok r, l') /\
    Forall (eq 0) (Dict.values (metric_scores r)) /\
    overall_bias_score r == 0 /\
    (bias_detected r = true <-> threshold self < 0) /\
    (0 <= threshold self -> recommendations r = [rec_no_bias]).
Proof.
  intros Hvalid [Hwf _] Hdeg. rewrite detect_bias_run.
  apply validate_inputs_ok in Hvalid as Ev. rewrite Ev.
  pose proof (degenerate_loop probabilities l Hvalid Hwf Hdeg) as Hloop.
  unfold holdsM in Hloop.
  destruct (LogMonad.for_each _ _ _ l) as [[[ms gs]|e] l1]; [|contradiction].
  destruct Hloop as [Hms _]. cbn [fst] in Hms.
  do 2 eexists. split; [reflexivity|].
  cbn [metric_scores overall_bias_score bias_detected recommendations
       report_of].
  pose proof (mean_zeros Hms) as Hmean.
  split; [exact Hms|]. split; [exact Hmean|]. split.
  - rewrite Qltb_lt. now rewrite Hmean.
  - intro Hthr. rewrite generate_recommendations_eq.
    assert (E : Qltb (threshold self) (np.mean (Dict.values ms)) = false).
    { apply Qltb_ge. now rewrite Hmean. }
    now rewrite E.
Qed.

Lemma X3_no_attribute_with_two_groups_witness :
  valid_batch scenario_detector [1; 0; 1]%Z [0; 0; 1]%Z
    {| df_len := 3; df_columns := [("attr", ["a"; "a"; "a"])] |} /\
  pd.wf {| df_len := 3; df_columns := [("attr", ["a"; "a"; "a"])] |} /\
  degenerate scenario_detector
    {| df_len := 3; df_columns := [("attr", ["a"; "a"; "a"])] |} /\
  exists r l',
    detect_bias scenario_detector scenario_now [1; 0; 1]%Z [0; 0; 1]%Z
      {| df_len := 3; df_columns := [("attr", ["a"; "a"; "a"])] |}
      (Some [1 # 2]) []
    = (Ok r, l') /\
    Forall (eq 0) (Dict.values (metric_scores r)) /\
    overall_bias_score r == 0 /\
    (bias_detected r = true <-> threshold scenario_detector < 0) /\
    (0 <= threshold scenario_detector -> recommendations r = [rec_no_bias]).
Proof.
  assert (Hv : valid_batch scenario_detector [1; 0; 1]%Z [0; 0; 1]%Z
                 {| df_len := 3; df_columns := [("attr", ["a"; "a"; "a"])] |}).
  { apply validate_inputs_ok. reflexivity. }
  assert (Hwf : pd.wf
                  {| df_len := 3;
                     df_columns := [("attr", ["a"; "a"; "a"])] |}).
  { split; [repeat constructor|constructor; [intros []|constructor]]. }
  assert (Hdeg : degenerate scenario_detector
                   {| df_len := 3;
                      df_columns := [("attr", ["a"; "a"; "a"])] |}).
  { intros attr col [<-|[]] [= <-]. cbn. lia. }
  split; [exact Hv|]. split; [exact Hwf|]. split; [exact Hdeg|].
  apply (@X3_no_attribute_with_two_groups scenario_detector scenario_now
           [1; 0; 1]%Z [0; 0; 1]%Z
           {| df_len := 3; df_columns := [("attr", ["a"; "a"; "a"])] |}
           (Some [1 # 2]) [] Hv Hwf Hdeg).
Defined.

(** X4. An empty batch is valid: with no predictions, no labels and a
    frame of no rows and of distinct column names that has the configured
    columns, [detect_bias] returns
    a report of sample size 0 in which every metric score is 0 and there
    is no group score. *)
Theorem X4_empty_batch (self : MLModelBiasDetector) (now : string)
  (df : DataFrame) (probabilities : option (list Q)) (l : log) :
  (forall attr, In attr (protected_attributes self) ->
                pd.has_column df attr = true) ->
  pd.wf df ->
  df_len df = 0%nat ->
  exists r l',
    detect_bias self now [] [] df probabilities l = (Ok r, l') /\
    md_sample_size (metadata r) = 0%nat /\
    Forall (eq 0) (Dict.values (metric_scores r)) /\
    group_scores r = [].
Proof.
  intros Hcols [Hwf _] Hzero.
  assert (Hvalid : valid_batch self [] [] df).
  { repeat split; auto; constructor. }
  assert (Hdeg : degenerate self df).
  { intros attr col Hattr Hget.
    destruct (getitem_ok _ attr (Hcols attr Hattr)) as [col' [Hget' Hlen]].
    rewrite Hget in Hget'. injection Hget' as <-.
    specialize (Hlen Hwf). rewrite Hzero in Hlen.
    destruct col; [cbn; lia|discriminate Hlen]. }
  rewrite detect_bias_run.
  apply validate_inputs_ok in Hvalid as Ev. rewrite Ev.
  pose proof (degenerate_loop probabilities l Hvalid Hwf Hdeg) as Hloop.
  unfold holdsM in Hloop.
  destruct (LogMonad.for_each _ _ _ l) as [[[ms gs]|e] l1]; [|contradiction].
  destruct Hloop as [Hms Hgs]. cbn [fst snd] in Hms, Hgs.
  do 2 eexists. split; [reflexivity|].
  cbn. split; [reflexivity|]. split; [exact Hms|]. now apply Hgs.
Qed.

Lemma X4_empty_batch_witness :
  (forall attr, In attr (protected_attributes scenario_detector) ->
                pd.has_column {| df_len := 0; df_columns := [("attr", [])] |}
                  attr = true) /\
  pd.wf {| df_len := 0; df_columns := [("attr", [])] |} /\
  df_len {| df_len := 0; df_columns := [("attr", [])] |} = 0%nat /\
  exists r l',
    detect_bias scenario_detector scenario_now [] []
      {| df_len := 0; df_columns := [("attr", [])] |} None []
    = (Ok r, l') /\
    md_sample_size (metadata r) = 0%nat /\
    Forall (eq 0) (Dict.values (metric_scores r)) /\
    group_scores r = [].
Proof.
  assert (Hcols : forall attr,
            In attr (protected_attributes scenario_detector) ->
            pd.has_column {| df_len := 0; df_columns := [("attr", [])] |}
              attr = true).
  { intros attr [<-|[]]. reflexivity. }
  assert (Hwf : pd.wf {| df_len := 0; df_columns := [("attr", [])] |}).
  { split; [repeat constructor|constructor; [intros []|constructor]]. }
  split; [exact Hcols|]. split; [exact Hwf|]. split; [reflexivity|].
  apply (@X4_empty_batch scenario_detector scenario_now
           {| df_len := 0; df_columns := [("attr", [])] |} None []
           Hcols Hwf eq_refl).
Defined.

(** ** Probabilities that calibration cannot use *)

(* A loop raises when each round either returns or raises [e], and some
   round raises [e] from every state. *)
Lemma for_each_raises {A S} (xs : list A) (body : S -> A -> result S)
  (e : exn) (s : S) :
  (forall x s', In x xs ->
                (exists s'', body s' x = Ok s'') \/ body s' x = Raise e) ->
  (exists x, In x xs /\ forall s', body s' x = Raise e) ->
  ResultMonad.for_each xs body s = Raise e.
Proof.
  revert s. induction xs as [|x xs IH]; intros s Hall [y [Hy Hraise]];
    [destruct Hy|].
  rewrite for_each_cons.
  destruct (Hall x s (or_introl eq_refl)) as [[s'' Hok]|Hr].
  - rewrite Hok. cbn [ResultMonad.bind]. apply IH.
    + intros z s' Hz. apply Hall. now right.
    + destruct Hy as [<-|Hy]; [|eauto].
      rewrite Hraise in Hok. discriminate Hok.
  - now rewrite Hr.
Qed.

Lemma unique_nonempty (col : list string) :
  (2 <= List.length (pd.unique col))%nat ->
  exists g rest, pd.unique col = g :: rest /\ In g col.
Proof.
  intro H. destruct (pd.unique col) as [|g rest] eqn:E; [cbn in H; lia|].
  exists g, rest. split; [reflexivity|].
  apply unique_In. rewrite E. now left.
Qed.

(** X5. The length of the probability array is not validated: on a valid
    batch over a frame of distinct column names in which some configured
    attribute has two groups or more, a probability array whose length is
    not the number of rows makes [_calibration] raise an IndexError at its
    first mask, with a message that begins
    [boolean index did not match indexed array]. *)
Theorem X5_misaligned_probabilities_raise (self : MLModelBiasDetector)
  (predictions true_labels : list Z) (df : DataFrame)
  (probabilities : list Q) :
  valid_batch self predictions true_labels df ->
  pd.wf df ->
  List.length probabilities <> df_len df ->
  (exists attr col,
      In attr (protected_attributes self) /\
      pd.getitem df attr = Ok col /\
      (2 <= List.length (pd.unique col))%nat) ->
  exists rest,
    _calibration self probabilities true_labels df
    = Raise
        (IndexError
           ("boolean index did not match indexed array" ++ rest)%string).
Proof.
  intros Hvalid [Hwf _] Hmis (attr0 & col0 & Hattr0 & Hget0 & Hbig0).
  exists EmptyString.
  change ("boolean index did not match indexed array" ++ "")%string
    with "boolean index did not match indexed array".
  assert (Hround : forall attr col,
            In attr (protected_attributes self) ->
            pd.getitem df attr = Ok col ->
            (2 <= List.length (pd.unique col))%nat ->
            forall gc : list Q,
              ResultMonad.for_each (pd.unique col)
                (fun group_calibrations group =>
                   col <- pd.getitem df attr ;;
                   let mask := pd.eq_mask col group in
                   if (0 <? np.sum mask)%nat then
                     group_probs <- np.index probabilities mask ;;
                     group_labels <- np.index true_labels mask ;;
                     calibration_errors <-
                       ResultMonad.for_each
                         (seq 0 (List.length np.linspace_0_1_11 - 1))
                         (fun calibration_errors i =>
                            let bin_mask :=
                              np.in_bin group_probs
                                (nth i np.linspace_0_1_11 0)
                                (nth (i + 1) np.linspace_0_1_11 0) in
                            if (0 <? np.sum bin_mask)%nat then
                              in_probs <- np.index group_probs bin_mask ;;
                              in_labels <- np.index group_labels bin_mask ;;
                              let predicted_prob := np.mean in_probs in
                              let actual_prob := np.mean_int in_labels in
                              Ok (calibration_errors
                                    ++ [Qabs (predicted_prob - actual_prob)])
                            else Ok calibration_errors)
                         [] ;;
                     match calibration_errors with
                     | [] => Ok group_calibrations
                     | _ :: _ =>
                         Ok (group_calibrations
                               ++ [np.mean calibration_errors])
                     end
                   else Ok group_calibrations)
                gc
              = Raise (IndexError "boolean index did not match indexed array")).
  { intros attr col Hattr Hget Hbig gc.
    destruct (unique_nonempty col Hbig) as (g & rest & -> & Hg).
    rewrite for_each_cons, Hget. cbn [ResultMonad.bind]. cbv zeta.
    rewrite (sum_eq_mask_pos _ _ Hg).
    destruct (@valid_column _ _ _ _ Hvalid Hwf attr Hattr)
      as (col' & Hget' & Hlp & _).
    rewrite Hget in Hget'. injection Hget' as <-.
    unfold np.index at 1. rewrite eq_mask_length.
    destruct (Nat.eqb_spec (List.length probabilities) (List.length col))
      as [E|_]; [|reflexivity].
    exfalso. apply Hmis. destruct Hvalid as (_ & H2 & _). congruence. }
  unfold _calibration. cbv zeta.
  apply for_each_raises.
  - intros attr b Hattr.
    destruct (@valid_column _ _ _ _ Hvalid Hwf attr Hattr)
      as (col & Hget & _ & _).
    rewrite Hget. cbn [ResultMonad.bind].
    destruct (Nat.ltb_spec (List.length (pd.unique col)) 2) as [_|Hbig];
      [left; eauto|].
    right. pose proof (Hround attr col Hattr Hget Hbig []) as E.
    cbv zeta in E. rewrite Hget in E. cbn [ResultMonad.bind] in E.
    rewrite E. reflexivity.
  - exists attr0. split; [exact Hattr0|]. intro b.
    rewrite Hget0. cbn [ResultMonad.bind].
    destruct (Nat.ltb_spec (List.length (pd.unique col0)) 2) as [Hs|_];
      [lia|].
    pose proof (Hround attr0 col0 Hattr0 Hget0 Hbig0 []) as E.
    cbv zeta in E. rewrite Hget0 in E. cbn [ResultMonad.bind] in E.
    rewrite E. reflexivity.
Qed.

Lemma X5_misaligned_probabilities_raise_witness :
  valid_batch scenario_detector scenario_predictions scenario_labels
    scenario_df /\
  pd.wf scenario_df /\
  List.length [1 # 2; 1 # 3] <> df_len scenario_df /\
  (exists attr col,
      In attr (protected_attributes scenario_detector) /\
      pd.getitem scenario_df attr = Ok col /\
      (2 <= List.length (pd.unique col))%nat) /\
  exists rest,
    _calibration scenario_detector [1 # 2; 1 # 3] scenario_labels scenario_df
    = Raise
        (IndexError
           ("boolean index did not match indexed array" ++ rest)%string).
Proof.
  assert (Hmis : List.length [1 # 2; 1 # 3] <> df_len scenario_df)
    by discriminate.
  assert (Hex : exists attr col,
            In attr (protected_attributes scenario_detector) /\
            pd.getitem scenario_df attr = Ok col /\
            (2 <= List.length (pd.unique col))%nat).
  { exists "attr", ["a"; "a"; "b"; "b"].
    split; [now left|]. split; [reflexivity|]. cbn. lia. }
  split; [exact scenario_valid|]. split; [exact scenario_wf|].
  split; [exact Hmis|]. split; [exact Hex|].
  apply (@X5_misaligned_probabilities_raise scenario_detector
           scenario_predictions scenario_labels scenario_df
           [1 # 2; 1 # 3] scenario_valid scenario_wf Hmis Hex).
Defined.

Lemma no_bin_member (xs : list Q) (i : nat) :
  In i (seq 0 (List.length np.linspace_0_1_11 - 1)) ->
  Forall (fun p => p < 0 \/ 1 <= p) xs ->
  Nat.ltb 0
    (np.sum
       (np.in_bin xs (nth i np.linspace_0_1_11 0)
          (nth (i + 1) np.linspace_0_1_11 0))) = false.
Proof.
  intros Hi Hout. destruct (@bins_in01 i Hi) as [Hlo Hhi].
  apply Nat.ltb_ge. unfold np.sum, np.in_bin.
  induction Hout as [|x xs Hx _ IH]; [cbn; lia|].
  cbn [map count_occ].
  destruct (Qle_bool _ x && Qltb x _)%bool eqn:E.
  - exfalso. apply andb_true_iff in E. destruct E as [E1 E2].
    apply Qle_bool_iff in E1. apply Qltb_lt in E2.
    destruct Hx as [Hx|Hx]; lra.
  - destruct (bool_dec false true) as [H|_]; [discriminate H|exact IH].
Qed.

(** X6. A probability is binned only if it lies in [0, 1): on a valid
    batch over a frame of distinct column names, with one probability per
    row, none of them in that range (a
    probability of exactly 1 is such a one), no group has a calibration
    error and [_calibration] returns 0. *)
Theorem X6_probabilities_out_of_range (self : MLModelBiasDetector)
  (predictions true_labels : list Z) (df : DataFrame)
  (probabilities : list Q) :
  valid_batch self predictions true_labels df ->
  pd.wf df ->
  List.length probabilities = df_len df ->
  Forall (fun p => p < 0 \/ 1 <= p) probabilities ->
  _calibration self probabilities true_labels df = Ok 0.
Proof.
  intros Hvalid [Hwf _] Hal Hout.
  assert (H : returns (_calibration self probabilities true_labels df)
                (eq 0)).
  { unfold returns, _calibration. cbv zeta.
    apply holds_for_each; [reflexivity|].
    intros attr b Hattr <-.
    destruct (@valid_column _ _ _ _ Hvalid Hwf attr Hattr)
      as (col & Hget & Hlp & Hll).
    assert (Hlq : List.length probabilities = List.length col).
    { destruct Hvalid as (_ & H2 & _). congruence. }
    rewrite Hget. cbn [ResultMonad.bind].
    destruct (_ <? 2)%nat; [reflexivity|].
    apply holds_bind.
    eapply holds_mono; [|apply holds_for_each with (I := eq [])].
    - intros gc <-. reflexivity.
    - reflexivity.
    - intros g gc Hg <-.
      destruct (0 <? np.sum (pd.eq_mask col g))%nat; [|reflexivity].
      do 2 run_index. apply holds_bind.
      eapply holds_mono; [|apply holds_for_each with (I := eq [])].
      + intros errs <-. reflexivity.
      + reflexivity.
      + intros i errs Hi <-.
        rewrite no_bin_member;
          [reflexivity|exact Hi|now apply filter_mask_Forall]. }
  apply returns_inv in H. now destruct H as [s [-> <-]].
Qed.

Lemma X6_probabilities_out_of_range_witness :
  valid_batch scenario_detector scenario_predictions scenario_labels
    scenario_df /\
  pd.wf scenario_df /\
  List.length [1; 1; 1; 3 # 2] = df_len scenario_df /\
  Forall (fun p => p < 0 \/ 1 <= p) [1; 1; 1; 3 # 2] /\
  _calibration scenario_detector [1; 1; 1; 3 # 2] scenario_labels scenario_df
  = Ok 0.
Proof.
  assert (Hout : Forall (fun p => p < 0 \/ 1 <= p) [1; 1; 1; 3 # 2]).
  { repeat (apply Forall_cons; [right; vm_compute; discriminate|]).
    constructor. }
  split; [exact scenario_valid|]. split; [exact scenario_wf|].
  split; [reflexivity|]. split; [exact Hout|].
  apply (@X6_probabilities_out_of_range scenario_detector
           scenario_predictions scenario_labels scenario_df
           [1; 1; 1; 3 # 2] scenario_valid scenario_wf eq_refl Hout).
Defined.

(** ** Equal opportunity against equalized odds *)

(* Two loops over the same list, run side by side. *)
Lemma for_each_rel {A S1 S2} (Rel : S1 -> S2 -> Prop) (xs : list A)
  (body1 : S1 -> A -> result S1) (body2 : S2 -> A -> result S2)
  (s1 : S1) (s2 : S2) :
  Rel s1 s2 ->
  (forall x t1 t2, In x xs -> Rel t1 t2 ->
                   exists t1' t2',
                     body1 t1 x = Ok t1' /\ body2 t2 x = Ok t2' /\
                     Rel t1' t2') ->
  exists r1 r2,
    ResultMonad.for_each xs body1 s1 = Ok r1 /\
    ResultMonad.for_each xs body2 s2 = Ok r2 /\
    Rel r1 r2.
Proof.
  revert s1 s2. induction xs as [|x xs IH]; intros s1 s2 H0 Hstep.
  - exists s1, s2. auto.
  - destruct (Hstep x s1 s2 (or_introl eq_refl) H0)
      as (t1 & t2 & E1 & E2 & Ht).
    rewrite !for_each_cons, E1, E2. cbn [ResultMonad.bind].
    apply IH; [exact Ht|].
    intros y u1 u2 Hy. apply Hstep. now right.
Qed.

Lemma py_max_mono (b1 b2 d : Q) : b1 <= b2 -> py_max b1 d <= py_max b2 d.
Proof.
  intro H. destruct (py_max_spec b2 d) as [_ [H2 Hd]].
  destruct (py_max_spec b1 d) as [[-> | ->] _]; lra.
Qed.

Lemma spread_into_mono (b1 b2 : Q) (scores : list Q) :
  b1 <= b2 ->
  exists c1 c2,
    spread_into b1 scores = Ok c1 /\ spread_into b2 scores = Ok c2 /\
    c1 <= c2.
Proof.
  intro H. rewrite !spread_into_eq. do 2 eexists.
  split; [reflexivity|]. split; [reflexivity|].
  destruct scores as [|x [|y rest]]; try exact H. now apply py_max_mono.
Qed.

Lemma spread_into_ge (b : Q) (scores : list Q) :
  exists c, spread_into b scores = Ok c /\ b <= c.
Proof.
  rewrite spread_into_eq. eexists. split; [reflexivity|].
  destruct scores as [|x [|y rest]]; try lra.
  apply py_max_spec.
Qed.

(** X7. On a valid batch over a frame of distinct column names both scores
    are returned and the equal-opportunity score is at most the
    equalized-odds score: equalized odds takes the
    same spread of true-positive rates and, besides, the spread of
    false-positive rates. *)
Theorem X7_equal_opportunity_le_equalized_odds (self : MLModelBiasDetector)
  (predictions true_labels : list Z) (df : DataFrame) :
  valid_batch self predictions true_labels df ->
  pd.wf df ->
  exists s1 s2,
    _equal_opportunity self predictions true_labels df = Ok s1 /\
    _equalized_odds self predictions true_labels df = Ok s2 /\
    s1 <= s2.
Proof.
  intros Hvalid [Hwf _]. unfold _equal_opportunity, _equalized_odds.
  apply for_each_rel with (Rel := Qle); [lra|].
  intros attr b1 b2 Hattr Hle.
  destruct (@valid_column _ _ _ _ Hvalid Hwf attr Hattr)
    as (col & Hget & Hlp & Hll).
  rewrite Hget. cbn [ResultMonad.bind]. cbv zeta.
  destruct (_ <? 2)%nat; [exists b1, b2; auto|].
  destruct (@for_each_rel string (list Q) (list Q * list Q)
              (fun t sc => t = fst sc) (pd.unique col)
              (fun tpr_scores group =>
                 if (0 <? np.sum (pd.eq_mask col group))%nat
                 then
                   group_preds <-
                     np.index predictions (pd.eq_mask col group) ;;
                   group_labels <-
                     np.index true_labels (pd.eq_mask col group) ;;
                   (if (0 <? np.sum (np.eq_int group_labels 1))%nat
                    then
                      pos <-
                        np.index group_preds (np.eq_int group_labels 1) ;;
                      Ok (tpr_scores ++ [np.mean_int pos])
                    else Ok tpr_scores)
                 else Ok tpr_scores)
              (fun scores group =>
                 let '(tpr_scores, fpr_scores) := scores in
                 if (0 <? np.sum (pd.eq_mask col group))%nat
                 then
                   group_preds <-
                     np.index predictions (pd.eq_mask col group) ;;
                   group_labels <-
                     np.index true_labels (pd.eq_mask col group) ;;
                   tpr_scores <-
                     (if (0 <? np.sum (np.eq_int group_labels 1))%nat
                      then
                        pos <-
                          np.index group_preds (np.eq_int group_labels 1) ;;
                        Ok (tpr_scores ++ [np.mean_int pos])
                      else Ok tpr_scores) ;;
                   fpr_scores <-
                     (if (0 <? np.sum (np.eq_int group_labels 0))%nat
                      then
                        neg <-
                          np.index group_preds (np.eq_int group_labels 0) ;;
                        Ok (fpr_scores ++ [np.mean_int neg])
                      else Ok fpr_scores) ;;
                   Ok (tpr_scores, fpr_scores)
                 else Ok (tpr_scores, fpr_scores))
              [] ([], []) eq_refl)
    as (tpr & [tpr' fpr] & E1 & E2 & Etpr).
  { intros g t [t' f] Hg ->. cbn [fst].
    destruct (0 <? np.sum (pd.eq_mask col g))%nat;
      [|exists t', (t', f); auto].
    do 2 run_index.
    destruct (0 <? np.sum (np.eq_int _ 1))%nat;
      destruct (0 <? np.sum (np.eq_int _ 0))%nat;
      repeat run_index; do 2 eexists;
      (split; [reflexivity|]); (split; [reflexivity|]); reflexivity. }
  cbn [fst] in Etpr. subst tpr'.
  cbv beta zeta in E1, E2 |- *.
  rewrite E1, E2. cbn [ResultMonad.bind].
  destruct (spread_into_mono tpr Hle) as (c1 & c2 & S1 & S2 & Hc).
  destruct (spread_into_ge c2 fpr) as (c3 & S3 & Hc3).
  exists c1, c3. rewrite S1, S2. cbn [ResultMonad.bind].
  split; [reflexivity|]. split; [exact S3|]. lra.
Qed.

Lemma X7_equal_opportunity_le_equalized_odds_witness :
  valid_batch scenario_detector scenario_predictions scenario_labels
    scenario_df /\
  pd.wf scenario_df /\
  exists s1 s2,
    _equal_opportunity scenario_detector scenario_predictions scenario_labels
      scenario_df = Ok s1 /\
    _equalized_odds scenario_detector scenario_predictions scenario_labels
      scenario_df = Ok s2 /\
    s1 <= s2.
Proof.
  split; [exact scenario_valid|]. split; [exact scenario_wf|].
  apply (@X7_equal_opportunity_le_equalized_odds scenario_detector
           scenario_predictions scenario_labels scenario_df
           scenario_valid scenario_wf).
Defined.

(** ** The group scores *)

Lemma dict_set_In_inv {V} (k k' : string) (v v' : V) (d : dict V) :
  In (k', v') (Dict.set k v d) -> (k' = k /\ v' = v) \/ In (k', v') d.
Proof.
  induction d as [|[k0 v0] d IH]; cbn [Dict.set].
  - intros [[= <- <-]|[]]. now left.
  - destruct (String.eqb_spec k k0) as [->|_].
    + intros [[= <- <-]|H]; [now left|right; now right].
    + intros [H|H]; [right; now left|].
      destruct (IH H) as [?|?]; [now left|right; now right].
Qed.

Lemma one_group_score (metric : BiasMetric) (predictions true_labels : list Z)
  (col : list string) (g : string) :
  List.length predictions = List.length col ->
  List.length true_labels = List.length col ->
  match metric with
  | DEMOGRAPHIC_PARITY =>
      group_preds <- np.index predictions (pd.eq_mask col g) ;;
      Ok (np.mean_int group_preds)
  | EQUALIZED_ODDS | EQUAL_OPPORTUNITY =>
      group_labels <- np.index true_labels (pd.eq_mask col g) ;;
      if (0 <? np.sum (np.eq_int group_labels 1))%nat then
        group_preds <- np.index predictions (pd.eq_mask col g) ;;
        group_labels <- np.index true_labels (pd.eq_mask col g) ;;
        pos <- np.index group_preds (np.eq_int group_labels 1) ;;
        Ok (np.mean_int pos)
      else Ok 0
  | CALIBRATION | COUNTERFACTUAL_FAIRNESS => Ok 0
  end = Ok (group_score metric predictions true_labels col g).
Proof.
  intros Hlp Hll. unfold group_score, group_tpr, group_rate.
  destruct metric; try reflexivity.
  - now run_index.
  - run_index. cbv zeta.
    destruct (0 <? np.sum (np.eq_int _ 1))%nat; [|reflexivity].
    now repeat run_index.
  - run_index. cbv zeta.
    destruct (0 <? np.sum (np.eq_int _ 1))%nat; [|reflexivity].
    now repeat run_index.
Qed.

Lemma compute_group_bias_entries (self : MLModelBiasDetector)
  (metric : BiasMetric) (predictions true_labels : list Z) (df : DataFrame) :
  valid_batch self predictions true_labels df ->
  pd.aligned df ->
  returns (_compute_group_bias self metric predictions true_labels df)
    (group_entries (protected_attributes self) metric predictions true_labels
       df).
Proof.
  intros Hvalid Hwf. unfold returns, _compute_group_bias.
  apply holds_for_each_prefix
    with (I := fun pre gs =>
                 group_entries pre metric predictions true_labels df gs).
  { split; [intros k v []|intros attr col g []]. }
  intros pre attr post gs Hxs [Hent Hcov].
  assert (Hattr : In attr (protected_attributes self)).
  { rewrite Hxs. apply in_or_app. right. now left. }
  destruct (@valid_column _ _ _ _ Hvalid Hwf attr Hattr)
    as (col & Hget & Hlp & Hll).
  rewrite Hget. cbn [ResultMonad.bind]. cbv zeta.
  eapply holds_mono;
    [|apply holds_for_each_prefix
        with (I := fun done gs' =>
                     (forall k v,
                         In (k, v) gs' ->
                         exists a c g,
                           In a (pre ++ [attr]) /\ pd.getitem df a = Ok c /\
                           In g c /\ k = group_key a g metric /\
                           v = group_score metric predictions true_labels
                                 c g) /\
                     (forall a c g,
                         In a pre -> pd.getitem df a = Ok c -> In g c ->
                         In (group_key a g metric) (Dict.keys gs')) /\
                     (forall g, In g done ->
                                In (group_key attr g metric)
                                  (Dict.keys gs')))].
  - (* after the groups of [attr] *)
    intros gs' (Hent' & Hcov' & Hdone). split; [exact Hent'|].
    intros a c g Ha Hc Hg. apply in_app_or in Ha.
    destruct Ha as [Ha|[<-|[]]]; [eauto|].
    rewrite Hget in Hc. injection Hc as <-.
    apply Hdone. now apply unique_In.
  - (* before them *)
    split; [|split; [exact Hcov|intros g []]].
    intros k v Hin. destruct (Hent k v Hin) as (a & c & g & Ha & Hrest).
    exists a, c, g. split; [apply in_or_app; now left|exact Hrest].
  - (* one group *)
    intros done g rest gs' Hgroups (Hent' & Hcov' & Hdone).
    assert (Hg : In g col).
    { apply unique_In. rewrite Hgroups. apply in_or_app. right. now left. }
    rewrite (sum_eq_mask_pos _ _ Hg).
    rewrite (@one_group_score metric predictions true_labels col g Hlp Hll).
    cbn [ResultMonad.bind holds].
    fold (group_key attr g metric).
    split; [|split].
    + intros k v Hin. apply dict_set_In_inv in Hin.
      destruct Hin as [[-> ->]|Hin]; [|eauto].
      exists attr, col, g. repeat split; auto.
      apply in_or_app. right. now left.
    + intros a c g' Ha Hc Hg'. apply dict_keys_set_In. right. eauto.
    + intros g' Hg'. apply dict_keys_set_In. apply in_app_or in Hg'.
      destruct Hg' as [Hg'|[<-|[]]]; [right; auto|now left].
Qed.

(** X8. The group scores of demographic parity: on a valid batch over a
    frame of distinct column names [_compute_group_bias] returns a
    dictionary in which every group of every configured attribute has its
    key [attr_group_demographic_parity], and every entry is the
    positive-prediction rate of such a group: the sum of the predictions
    of its rows over the number of its rows. *)
Theorem X8_group_scores_demographic_parity (self : MLModelBiasDetector)
  (predictions true_labels : list Z) (df : DataFrame) :
  valid_batch self predictions true_labels df ->
  pd.wf df ->
  exists gs,
    _compute_group_bias self DEMOGRAPHIC_PARITY predictions true_labels df
    = Ok gs /\
    (forall attr col g,
        In attr (protected_attributes self) ->
        pd.getitem df attr = Ok col -> In g col ->
        In (attr ++ "_" ++ g ++ "_demographic_parity")%string
          (Dict.keys gs)) /\
    (forall k v,
        In (k, v) gs ->
        exists attr col g,
          In attr (protected_attributes self) /\
          pd.getitem df attr = Ok col /\ In g col /\
          k = (attr ++ "_" ++ g ++ "_demographic_parity")%string /\
          v == positive_rate predictions col g).
Proof.
  intros Hvalid [Hwf _].
  destruct (returns_inv _ _
              (compute_group_bias_entries DEMOGRAPHIC_PARITY Hvalid Hwf))
    as (gs & Hrun & Hent & Hcov).
  exists gs. split; [exact Hrun|]. split.
  - intros attr col g Ha Hc Hg. exact (Hcov attr col g Ha Hc Hg).
  - intros k v Hin.
    destruct (Hent k v Hin) as (attr & col & g & Ha & Hc & Hg & Hk & ->).
    exists attr, col, g. repeat (split; [assumption|]).
    apply group_rate_positive_rate.
    exact (valid_lengths Hvalid Hwf attr Ha Hc).
Qed.

Lemma X8_group_scores_demographic_parity_witness :
  valid_batch scenario_detector scenario_predictions scenario_labels
    scenario_df /\
  pd.wf scenario_df /\
  exists gs,
    _compute_group_bias scenario_detector DEMOGRAPHIC_PARITY
      scenario_predictions scenario_labels scenario_df
    = Ok gs /\
    (forall attr col g,
        In attr (protected_attributes scenario_detector) ->
        pd.getitem scenario_df attr = Ok col -> In g col ->
        In (attr ++ "_" ++ g ++ "_demographic_parity")%string
          (Dict.keys gs)) /\
    (forall k v,
        In (k, v) gs ->
        exists attr col g,
          In attr (protected_attributes scenario_detector) /\
          pd.getitem scenario_df attr = Ok col /\ In g col /\
          k = (attr ++ "_" ++ g ++ "_demographic_parity")%string /\
          v == positive_rate scenario_predictions col g).
Proof.
  split; [exact scenario_valid|]. split; [exact scenario_wf|].
  apply (@X8_group_scores_demographic_parity scenario_detector
           scenario_predictions scenario_labels scenario_df
           scenario_valid scenario_wf).
Defined.

(** X9. Counterfactual fairness and calibration have no group scores of
    their own: on a valid batch over a frame of distinct column names
    [_compute_group_bias] returns, and every group score [_compute_group_bias]
    records for either metric is 0, whatever the predictions are. *)
Theorem X9_group_scores_always_zero (self : MLModelBiasDetector)
  (metric : BiasMetric) (predictions true_labels : list Z) (df : DataFrame) :
  valid_batch self predictions true_labels df ->
  pd.wf df ->
  metric = CALIBRATION \/ metric = COUNTERFACTUAL_FAIRNESS ->
  exists gs,
    _compute_group_bias self metric predictions true_labels df = Ok gs /\
    Forall (eq 0) (Dict.values gs).
Proof.
  intros Hvalid [Hwf _] Hm.
  destruct (returns_inv _ _
              (compute_group_bias_entries metric Hvalid Hwf))
    as (gs & Hrun & Hent & _).
  exists gs. split; [exact Hrun|].
  apply Forall_forall. intros v Hv. unfold Dict.values in Hv.
  apply in_map_iff in Hv. destruct Hv as [[k v'] [<- Hin]].
  destruct (Hent k v' Hin) as (a & c & g & _ & _ & _ & _ & ->).
  destruct Hm as [-> | ->]; reflexivity.
Qed.

Lemma X9_group_scores_always_zero_witness :
  valid_batch scenario_detector scenario_predictions scenario_labels
    scenario_df /\
  pd.wf scenario_df /\
  (COUNTERFACTUAL_FAIRNESS = CALIBRATION \/
   COUNTERFACTUAL_FAIRNESS = COUNTERFACTUAL_FAIRNESS) /\
  exists gs,
    _compute_group_bias scenario_detector COUNTERFACTUAL_FAIRNESS
      scenario_predictions scenario_labels scenario_df = Ok gs /\
    Forall (eq 0) (Dict.values gs).
Proof.
  split; [exact scenario_valid|]. split; [exact scenario_wf|].
  split; [right; reflexivity|].
  apply (@X9_group_scores_always_zero scenario_detector
           COUNTERFACTUAL_FAIRNESS scenario_predictions scenario_labels
           scenario_df scenario_valid scenario_wf (or_intror eq_refl)).
Defined.

(** ** The entries of [metric_scores] *)

(** X10. [metric_scores] has one entry for each distinct configured
    metric: its keys are without repetition and are exactly the values of
    the configured metrics, so a metric listed twice weighs once in the
    mean, while the metadata list every configured metric as configured. *)
Theorem X10_one_score_per_metric (self : MLModelBiasDetector) (now : string)
  (predictions true_labels : list Z) (df : DataFrame)
  (probabilities : option (list Q)) (l l' : log) (r : BiasDetectionResult) :
  pd.aligned df ->
  detect_bias self now predictions true_labels df probabilities l = (Ok r, l') ->
  NoDup (Dict.keys (metric_scores r)) /\
  (forall k, In k (Dict.keys (metric_scores r)) <->
             exists m, In m (metrics self) /\ k = value m) /\
  (List.length (metric_scores r) <= List.length (metrics self))%nat /\
  md_metrics_computed (metadata r) = map value (metrics self).
Proof.
  intros Hwf H.
  destruct (detect_bias_Ok_scores _ _ _ _ _ _ Hwf H)
    as (ms & gs & l1 & (Hget & Hkeys & Hnd & _) & -> & _).
  cbn [fst] in *. cbn [metric_scores metadata md_metrics_computed report_of].
  assert (Hiff : forall k, In k (Dict.keys ms) <->
                           exists m, In m (metrics self) /\ k = value m).
  { intro k. split; [apply Hkeys|].
    intros (m & Hm & ->). apply dict_get_keys.
    destruct (Hget m Hm) as [s [Hs _]]. rewrite Hs. discriminate. }
  split; [exact Hnd|]. split; [exact Hiff|]. split; [|reflexivity].
  replace (List.length ms) with (List.length (Dict.keys ms))
    by apply length_map.
  rewrite <- (length_map value (metrics self)).
  apply NoDup_incl_length; [exact Hnd|].
  intros k Hk. apply Hiff in Hk. destruct Hk as (m & Hm & ->).
  now apply in_map.
Qed.

Lemma X10_one_score_per_metric_witness :
  exists d l0 r l',
    __init__ "model" ["attr"] default_threshold
      (Some [DEMOGRAPHIC_PARITY; CALIBRATION; DEMOGRAPHIC_PARITY]) []
    = (Ok d, l0) /\
    pd.aligned scenario_df /\
    detect_bias d scenario_now scenario_predictions scenario_labels
      scenario_df None [] = (Ok r, l') /\
    NoDup (Dict.keys (metric_scores r)) /\
    (forall k, In k (Dict.keys (metric_scores r)) <->
               exists m, In m (metrics d) /\ k = value m) /\
    (List.length (metric_scores r) <= List.length (metrics d))%nat /\
    md_metrics_computed (metadata r) = map value (metrics d).
Proof.
  do 4 eexists. split; [reflexivity|]. split; [exact scenario_aligned|].
  split; [reflexivity|].
  eapply (@X10_one_score_per_metric _ scenario_now scenario_predictions
            scenario_labels scenario_df None [] _ _ scenario_aligned).
  reflexivity.
Defined.

(** ** What the scores do not depend on *)

Lemma log_for_each_ext {A S} (xs : list A) (body1 body2 : S -> A -> M S)
  (s : S) (l : log) :
  (forall s' x l', body1 s' x l' = body2 s' x l') ->
  LogMonad.for_each xs body1 s l = LogMonad.for_each xs body2 s l.
Proof.
  intro Hext. revert s l. induction xs as [|x xs IH]; intros s l;
    [reflexivity|].
  cbn [LogMonad.for_each]. unfold LogMonad.bind. rewrite Hext.
  destruct (body2 s x l) as [[s'|e] l']; [apply IH|reflexivity].
Qed.

Section SameConfiguration.
Variables d1 d2 : MLModelBiasDetector.
Hypothesis Hattrs : protected_attributes d1 = protected_attributes d2.
Hypothesis Hmetrics : metrics d1 = metrics d2.

Lemma validate_inputs_same (predictions true_labels : list Z)
  (df : DataFrame) :
  _validate_inputs d1 predictions true_labels df
  = _validate_inputs d2 predictions true_labels df.
Proof. unfold _validate_inputs. now rewrite Hattrs. Qed.

Lemma detect_bias_step_same (predictions true_labels : list Z)
  (df : DataFrame) (probabilities : option (list Q))
  (scores : dict Q * dict Q) (m : BiasMetric) (l : log) :
  detect_bias_step d1 predictions true_labels df probabilities scores m l
  = detect_bias_step d2 predictions true_labels df probabilities scores m l.
Proof.
  destruct scores as [ms gs]. rewrite !detect_bias_step_run.
  unfold metric_result, _compute_bias_metric, _counterfactual_fairness,
    _demographic_parity, _equalized_odds, _equal_opportunity, _calibration,
    _compute_group_bias.
  now rewrite Hattrs.
Qed.

Lemma metric_loop_same (predictions true_labels : list Z) (df : DataFrame)
  (probabilities : option (list Q)) (l1 l2 : log) :
  fst (LogMonad.for_each (metrics d1)
         (detect_bias_step d1 predictions true_labels df probabilities)
         ([], []) l1)
  = fst (LogMonad.for_each (metrics d2)
           (detect_bias_step d2 predictions true_labels df probabilities)
           ([], []) l2).
Proof.
  rewrite Hmetrics.
  rewrite (log_for_each_ext (metrics d2) _
             (detect_bias_step d2 predictions true_labels df probabilities)
             ([], []) l1)
    by (intros; apply detect_bias_step_same).
  apply metric_loop_log_independent.
Qed.
End SameConfiguration.

(** X11. The scores depend on the detector only through its protected
    attributes and its metrics: two detectors that agree on both, whatever
    their model names and thresholds, raise the same exception on a batch
    or return reports with the same metric scores, group scores and
    overall score; and if the detector with the higher threshold detects
    bias, so does the other. *)
Theorem X11_scores_ignore_name_and_threshold (d1 d2 : MLModelBiasDetector)
  (now1 now2 : string) (predictions true_labels : list Z) (df : DataFrame)
  (probabilities : option (list Q)) (l1 l2 : log) :
  protected_attributes d1 = protected_attributes d2 ->
  metrics d1 = metrics d2 ->
  match
    fst (detect_bias d1 now1 predictions true_labels df probabilities l1),
    fst (detect_bias d2 now2 predictions true_labels df probabilities l2)
  with
  | Ok r1, Ok r2 =>
      metric_scores r1 = metric_scores r2 /\
      group_scores r1 = group_scores r2 /\
      overall_bias_score r1 = overall_bias_score r2 /\
      (threshold d1 <= threshold d2 ->
       bias_detected r2 = true -> bias_detected r1 = true)
  | Raise e1, Raise e2 => e1 = e2
  | _, _ => False
  end.
Proof.
  intros Hattrs Hmetrics. rewrite !detect_bias_run.
  rewrite (@validate_inputs_same d1 d2 Hattrs).
  destruct (_validate_inputs d2 predictions true_labels df) as [[]|e];
    [|reflexivity].
  pose proof (@metric_loop_same d1 d2 Hattrs Hmetrics predictions true_labels
                df probabilities l1 l2) as Hsame.
  destruct (LogMonad.for_each (metrics d1) _ _ l1) as [[[ms1 gs1]|e1] l1'];
    destruct (LogMonad.for_each (metrics d2) _ _ l2) as [[[ms2 gs2]|e2] l2'];
    cbn [fst] in Hsame; try discriminate Hsame.
  - injection Hsame as <- <-. cbn.
    repeat split. intros Hle Hdet. apply Qltb_lt in Hdet. apply Qltb_lt.
    lra.
  - injection Hsame as <-. reflexivity.
Qed.

Lemma X11_scores_ignore_name_and_threshold_witness :
  exists d2 l0,
    __init__ "other" ["attr"] (9 # 10) None [] = (Ok d2, l0) /\
    protected_attributes scenario_detector = protected_attributes d2 /\
    metrics scenario_detector = metrics d2 /\
    match
      fst (detect_bias scenario_detector scenario_now scenario_predictions
             scenario_labels scenario_df None []),
      fst (detect_bias d2 scenario_now scenario_predictions scenario_labels
             scenario_df None l0)
    with
    | Ok r1, Ok r2 =>
        metric_scores r1 = metric_scores r2 /\
        group_scores r1 = group_scores r2 /\
        overall_bias_score r1 = overall_bias_score r2 /\
        (threshold scenario_detector <= threshold d2 ->
         bias_detected r2 = true -> bias_detected r1 = true)
    | Raise e1, Raise e2 => e1 = e2
    | _, _ => False
    end.
Proof.
  do 2 eexists. split; [reflexivity|].
  split; [reflexivity|]. split; [reflexivity|].
  eapply X11_scores_ignore_name_and_threshold; reflexivity.
Defined.

(** ** The detector configurations of the constructor *)

Lemma get_detector_config_threshold (s d : MLModelBiasDetector)
  (m : BiasMetric) :
  threshold s = threshold d ->
  _get_detector_config s m = _get_detector_config d m.
Proof. intro H. unfold _get_detector_config. now rewrite H. Qed.

Lemma initialize_detectors_fold (todo : list BiasMetric)
  (d0 : MLModelBiasDetector) :
  let d' :=
    fold_left
      (fun s metric =>
         {| model_name := model_name s;
            protected_attributes := protected_attributes s;
            threshold := threshold s;
            metrics := metrics s;
            detectors :=
              Dict.set (value metric) (_get_detector_config s metric)
                (detectors s) |})
      todo d0 in
  threshold d' = threshold d0 /\
  metrics d' = metrics d0 /\
  (forall m,
      In m todo \/
      Dict.get (value m) (detectors d0) = Some (_get_detector_config d0 m) ->
      Dict.get (value m) (detectors d') = Some (_get_detector_config d0 m)) /\
  (forall k,
      In k (Dict.keys (detectors d')) ->
      In k (Dict.keys (detectors d0)) \/ exists m, In m todo /\ k = value m).
Proof.
  revert d0. induction todo as [|m0 todo IH]; intro d0; cbn [fold_left].
  - repeat split; auto. intros m [[]|H]. exact H.
  - set (d1 := {| model_name := model_name d0;
                  protected_attributes := protected_attributes d0;
                  threshold := threshold d0;
                  metrics := metrics d0;
                  detectors :=
                    Dict.set (value m0) (_get_detector_config d0 m0)
                      (detectors d0) |}).
    destruct (IH d1) as (Ht & Hm & Hget & Hkeys).
    assert (Hcfg : forall m,
              _get_detector_config d1 m = _get_detector_config d0 m).
    { intro m. now apply get_detector_config_threshold. }
    split; [exact Ht|]. split; [exact Hm|]. split.
    + intros m Hcase. rewrite <- Hcfg. apply Hget. rewrite Hcfg.
      destruct (String.eqb_spec (value m) (value m0)) as [E|E].
      * right. apply value_inj in E. subst m0. apply dict_get_set_same.
      * destruct Hcase as [[->|Hin]|Hold]; [congruence|now left|].
        right. cbn [detectors d1]. now rewrite dict_get_set_other.
    + intros k Hk. destruct (Hkeys k Hk) as [Hin|(m & Hin & ->)].
      * cbn [detectors d1] in Hin. apply dict_keys_set_In in Hin.
        destruct Hin as [->|Hin]; [right; exists m0; split; auto; now left|].
        now left.
      * right. exists m. split; [now right|reflexivity].
Qed.

(** X12. The constructor gives every configured metric one detector
    configuration and no other: in the detector [__init__] returns, the
    entry of [detectors] under the value of each metric is the
    configuration of that metric, which carries the detector's threshold,
    and every key of [detectors] is the value of a configured metric. *)
Theorem X12_detector_configurations (name : string) (attrs : list string)
  (thr : Q) (ms : option (list BiasMetric)) (l : log) :
  exists d l',
    __init__ name attrs thr ms l = (Ok d, l') /\
    (forall m, In m (metrics d) ->
               exists cfg,
                 Dict.get (value m) (detectors d) = Some cfg /\
                 cfg = _get_detector_config d m /\
                 cfg_threshold cfg = thr) /\
    (forall k, In k (Dict.keys (detectors d)) ->
               exists m, In m (metrics d) /\ k = value m).
Proof.
  unfold __init__, LogMonad.bind, LogMonad.emit, LogMonad.ret.
  do 2 eexists. split; [reflexivity|].
  unfold _initialize_detectors. cbn [metrics].
  set (given := match ms with Some (m :: ms') => m :: ms' | _ => _ end).
  set (d0 := {| model_name := name; protected_attributes := attrs;
                threshold := thr; metrics := given; detectors := [] |}).
  destruct (initialize_detectors_fold given d0) as (Ht & Hm & Hget & Hkeys).
  cbv zeta in Ht, Hm, Hget, Hkeys.
  set (d := fold_left _ given d0) in *.
  split.
  - intros m Hin. rewrite Hm in Hin. cbn [metrics d0] in Hin.
    exists (_get_detector_config d m).
    split; [|split; [reflexivity|]].
    + rewrite (get_detector_config_threshold d d0 m Ht).
      apply Hget. now left.
    + rewrite <- (eq_trans Ht (eq_refl : threshold d0 = thr)).
      now destruct m.
  - intros k Hk. destruct (Hkeys k Hk) as [[]|(m & Hin & ->)].
    exists m. split; [|reflexivity]. rewrite Hm. exact Hin.
Qed.

(** ** When demographic parity is 0 *)

Lemma short_list_eq {A} (xs : list A) (a b : A) :
  (List.length xs < 2)%nat -> In a xs -> In b xs -> a = b.
Proof.
  destruct xs as [|x [|y xs]]; cbn; try lia.
  intros _ [Ha|[]] [Hb|[]]. congruence.
Qed.

(** X13. On a valid batch over a frame of distinct column names the
    demographic-parity score is 0 exactly when, within every configured
    attribute, all groups have the same positive-prediction rate, the rate
    of a group being the sum of the predictions of its rows over the
    number of its rows. *)
Theorem X13_demographic_parity_zero (self : MLModelBiasDetector)
  (predictions true_labels : list Z) (df : DataFrame) :
  valid_batch self predictions true_labels df ->
  pd.wf df ->
  exists s,
    _demographic_parity self predictions df = Ok s /\
    (s == 0 <->
     forall attr col g1 g2,
       In attr (protected_attributes self) ->
       pd.getitem df attr = Ok col -> In g1 col -> In g2 col ->
       positive_rate predictions col g1 == positive_rate predictions col g2).
Proof.
  intros Hvalid [Hwf _].
  assert (Hrate : forall attr col g,
            In attr (protected_attributes self) ->
            pd.getitem df attr = Ok col ->
            group_rate predictions col g == positive_rate predictions col g).
  { intros attr col g Hattr Hget. apply group_rate_positive_rate.
    exact (valid_lengths Hvalid Hwf attr Hattr Hget). }
  destruct Hvalid as (_ & Hlen & Hcols & _).
  destruct (returns_inv _ _
              (@demographic_parity_spec self predictions df Hlen Hcols Hwf))
    as (s & Hrun & Hs0 & Hub & Hatt).
  exists s. split; [exact Hrun|]. split.
  - intros Hz attr col g1 g2 Hattr Hget Hg1 Hg2.
    apply (proj2 (@unique_In col g1)) in Hg1.
    apply (proj2 (@unique_In col g2)) in Hg2.
    destruct (Nat.ltb_spec (List.length (pd.unique col)) 2) as [Hsmall|Hbig].
    + rewrite (short_list_eq _ g1 g2 Hsmall Hg1 Hg2). reflexivity.
    + rewrite <- !(Hrate attr col _ Hattr Hget).
      destruct (spread_of_rates (group_rate predictions col) _ Hbig)
        as (hi & lo & Hhi & Hlo & Hbound & _).
      assert (Hd : is_disparity predictions col
                     (group_rate predictions col hi
                      - group_rate predictions col lo)).
      { exists hi, lo. repeat split; auto; apply Hbound; auto. }
      pose proof (Hub attr col _ Hattr Hget Hbig Hd) as Hle.
      destruct (Hbound g1 Hg1) as [A1 A2]. destruct (Hbound g2 Hg2) as [B1 B2].
      lra.
  - intros Heq.
    destruct Hatt as [(attr & col & Hattr & Hget & _ & Hd)|[Hz _]];
      [|exact Hz].
    destruct Hd as (hi & lo & Hhi & Hlo & Hd & _).
    apply (proj1 (@unique_In col hi)) in Hhi.
    apply (proj1 (@unique_In col lo)) in Hlo.
    rewrite Hd, !(Hrate attr col _ Hattr Hget).
    rewrite (Heq attr col hi lo Hattr Hget Hhi Hlo). ring.
Qed.

Lemma X13_demographic_parity_zero_witness :
  valid_batch scenario_detector scenario_predictions scenario_labels
    scenario_df /\
  pd.wf scenario_df /\
  exists s,
    _demographic_parity scenario_detector scenario_predictions scenario_df
    = Ok s /\
    (s == 0 <->
     forall attr col g1 g2,
       In attr (protected_attributes scenario_detector) ->
       pd.getitem scenario_df attr = Ok col -> In g1 col -> In g2 col ->
       positive_rate scenario_predictions col g1
       == positive_rate scenario_predictions col g2).
Proof.
  split; [exact scenario_valid|]. split; [exact scenario_wf|].
  apply (@X13_demographic_parity_zero scenario_detector scenario_predictions
           scenario_labels scenario_df scenario_valid scenario_wf).
Defined.

(** ** Saving and loading *)

Lemma BiasMetric_of_value_value (m : BiasMetric) :
  BiasMetric_of_value (value m) = Ok m.
Proof. destruct m; reflexivity. Qed.


Lemma parse_metric_values (ms acc : list BiasMetric) :
  ResultMonad.for_each (map value ms)
    (fun metrics m =>
       metric <- BiasMetric_of_value m ;; Ok (metrics ++ [metric]))
    acc
  = Ok (acc ++ ms).
Proof.
  revert acc. induction ms as [|m ms IH]; intro acc; cbn [map].
  - cbn. now rewrite app_nil_r.
  - rewrite for_each_cons, BiasMetric_of_value_value.
    cbn [ResultMonad.bind]. rewrite IH. now rewrite <- app_assoc.
Qed.

(** X14. Saving and loading round-trip: a detector with at least one
    metric (every detector the constructor builds has one) that is saved to
    a path and loaded from it comes back equal in every field, whatever
    the files held before; loading logs the initialisation and the load. *)
Theorem X14_save_load_round_trip (self : MLModelBiasDetector)
  (filepath : string) (fs : files) (l l' : io_log) :
  metrics self <> [] ->
  load_detector filepath (fst (save_detector self filepath fs l)) l'
  = (Returned self,
     l' ++ [(INFO, Logged (MsgInitialized (model_name self)));
            (INFO, MsgLoaded filepath)]).
Proof.
  intro Hne. unfold save_detector, load_detector. cbn [fst].
  rewrite dict_get_set_same.
  cbn [saved_metrics saved_model_name saved_protected_attributes
       saved_threshold saved_detectors].
  rewrite parse_metric_values. cbn [app].
  destruct (init_run (model_name self) (protected_attributes self)
              (threshold self) (Some (metrics self)) [])
    as (d & Hrun & Hn & Ha & Ht & Hm).
  rewrite Hrun, Hn, Ha, Ht, Hm.
  destruct self as [name attrs thr ms dets]. cbn in *.
  destruct ms as [|m ms]; [contradiction|]. reflexivity.
Qed.

Lemma X14_save_load_round_trip_witness :
  metrics scenario_detector <> [] /\
  load_detector "detector.pkl"
    (fst (save_detector scenario_detector "detector.pkl" [] [])) []
  = (Returned scenario_detector,
     [] ++ [(INFO, Logged (MsgInitialized (model_name scenario_detector)));
            (INFO, MsgLoaded "detector.pkl")]).
Proof.
  assert (Hne : metrics scenario_detector <> []) by discriminate.
  split; [exact Hne|].
  apply (@X14_save_load_round_trip scenario_detector "detector.pkl" [] [] []
           Hne).
Defined.




(** ** Two groups, and the range of the overall score *)

(** X16. With a single configured attribute that has exactly two groups,
    the demographic-parity score of a valid batch over a frame of distinct
    column names is the absolute difference of the two groups'
    positive-prediction rates, the rate of a group being the sum of the
    predictions of its rows over the number of its rows. *)
Theorem X16_two_groups (self : MLModelBiasDetector)
  (predictions true_labels : list Z) (df : DataFrame)
  (attr : string) (col : list string) (a b : string) :
  valid_batch self predictions true_labels df ->
  pd.wf df ->
  protected_attributes self = [attr] ->
  pd.getitem df attr = Ok col ->
  pd.unique col = [a; b] ->
  exists s,
    _demographic_parity self predictions df = Ok s /\
    s == Qabs (positive_rate predictions col a
               - positive_rate predictions col b).
Proof.
  intros Hvalid [Hwf _] Hattrs Hget Hgroups.
  assert (Hl : List.length predictions = List.length col).
  { apply (valid_lengths Hvalid Hwf attr); [|exact Hget].
    rewrite Hattrs. now left. }
  destruct Hvalid as (_ & Hlen & Hcols & _).
  destruct (returns_inv _ _
              (@demographic_parity_spec self predictions df Hlen Hcols Hwf))
    as (s & Hrun & _ & _ & Hatt).
  exists s. split; [exact Hrun|].
  rewrite <- (@group_rate_positive_rate predictions col a Hl),
    <- (@group_rate_positive_rate predictions col b Hl).
  rewrite Hattrs in Hatt.
  destruct Hatt as [(attr' & col' & [<-|[]] & Hget' & _ & Hd)|[_ Hnone]].
  2:{ specialize (Hnone attr col (or_introl eq_refl) Hget).
      rewrite Hgroups in Hnone. cbn in Hnone. lia. }
  rewrite Hget in Hget'. injection Hget' as <-.
  destruct Hd as (hi & lo & Hhi & Hlo & Hd & Hbound).
  rewrite Hgroups in Hhi, Hlo, Hbound.
  destruct (Hbound a (or_introl eq_refl)) as [A1 A2].
  destruct (Hbound b (or_intror (or_introl eq_refl))) as [B1 B2].
  set (ra := group_rate predictions col a) in *.
  set (rb := group_rate predictions col b) in *.
  rewrite Hd.
  destruct Hhi as [<-|[<-|[]]]; destruct Hlo as [<-|[<-|[]]];
    fold ra rb in A1, A2, B1, B2 |- *;
    apply Qabs_case; intros; lra.
Qed.

Lemma X16_two_groups_witness :
  valid_batch scenario_detector scenario_predictions scenario_labels
    scenario_df /\
  pd.wf scenario_df /\
  protected_attributes scenario_detector = ["attr"] /\
  pd.getitem scenario_df "attr" = Ok ["a"; "a"; "b"; "b"] /\
  pd.unique ["a"; "a"; "b"; "b"] = ["a"; "b"] /\
  exists s,
    _demographic_parity scenario_detector scenario_predictions scenario_df
    = Ok s /\
    s == Qabs (positive_rate scenario_predictions ["a"; "a"; "b"; "b"] "a"
               - positive_rate scenario_predictions ["a"; "a"; "b"; "b"]
                   "b").
Proof.
  split; [exact scenario_valid|]. split; [exact scenario_wf|].
  split; [reflexivity|]. split; [reflexivity|]. split; [reflexivity|].
  apply (@X16_two_groups scenario_detector scenario_predictions
           scenario_labels scenario_df "attr" ["a"; "a"; "b"; "b"] "a" "b"
           scenario_valid scenario_wf eq_refl eq_refl eq_refl).
Defined.

(** X17. The overall score of every report is a proportion, at least 0
    and at most 1: under a threshold of 1 or more no report detects bias,
    and under a negative threshold every report does. *)
Theorem X17_overall_score_range (self : MLModelBiasDetector) (now : string)
  (predictions true_labels : list Z) (df : DataFrame)
  (probabilities : option (list Q)) (l l' : log) (r : BiasDetectionResult) :
  pd.aligned df ->
  detect_bias self now predictions true_labels df probabilities l = (Ok r, l') ->
  in01 (overall_bias_score r) /\
  (1 <= threshold self -> bias_detected r = false) /\
  (threshold self < 0 -> bias_detected r = true).
Proof.
  intros Hwf H.
  destruct (detect_bias_Ok_scores _ _ _ _ _ _ Hwf H)
    as (ms & gs & l1 & (_ & _ & _ & _ & Hms & _) & -> & _).
  cbn [fst] in Hms. cbn [overall_bias_score bias_detected report_of].
  pose proof (mean_in01 Hms) as [H0 H1].
  split; [split; assumption|]. split.
  - intro Hthr. apply Qltb_ge. lra.
  - intro Hthr. apply Qltb_lt. lra.
Qed.

Lemma X17_overall_score_range_witness :
  exists r l',
    pd.aligned scenario_df /\
    detect_bias scenario_detector scenario_now scenario_predictions
      scenario_labels scenario_df None [] = (Ok r, l') /\
    in01 (overall_bias_score r) /\
    (1 <= threshold scenario_detector -> bias_detected r = false) /\
    (threshold scenario_detector < 0 -> bias_detected r = true).
Proof.
  do 2 eexists. split; [exact scenario_aligned|]. split; [reflexivity|].
  apply (@X17_overall_score_range scenario_detector scenario_now
           scenario_predictions scenario_labels scenario_df None [] _ _
           scenario_aligned eq_refl).
Defined.
